(** * Telemetry correlation core of the Next.js OpenTelemetry demo

    A shallow embedding of [src/lib/telemetry] (config, tracer, metrics,
    logger, init, middleware) and of the client ingestion route
    [src/app/api/telemetry/route.ts].

    The OpenTelemetry API, pino and Next.js are external collaborators.  Their
    objects are modelled by the calls the repository makes on them: every call
    on a span, an instrument or the pino logger is appended to a journal kept
    in the world, in program order.  JavaScript values that flow through the
    code ([catch] variables, parsed JSON bodies, log contexts) are modelled by
    a small value type with the language's own rules for property reads,
    truthiness and iteration.  Numbers are integers (status codes, counts,
    clock readings); fractional numbers are outside the value type.
    Asynchronous functions are run to completion: a promise is the
    completion (fulfilled or rejected) of its body, and interleaving of
    concurrent requests is outside this development. *)

From Stdlib Require Import String Ascii List ZArith QArith Lia Bool.
From Stdlib Require Import DecimalString.
Import ListNotations.

Set Warnings "-register-all".
Local Open Scope string_scope.
Local Open Scope Z_scope.

(** ** JavaScript values *)

Inductive value : Type :=
| VUndefined
| VNull
| VBool (b : bool)
| VNum (n : Z)
| VStr (s : string)
| VArr (items : list value)
| VObj (fields : list (string * value))
| VError (name message stack : string).

(** An object literal, a span attribute set or a log context: keys in
    insertion order. *)
Definition Attributes := list (string * value).

Fixpoint obj_get (k : string) (o : Attributes) : value :=
  match o with
  | [] => VUndefined
  | (k', v) :: rest => if String.eqb k k' then v else obj_get k rest
  end.

(** [o[k] = v]: an existing key keeps its position, a new one goes last. *)
Fixpoint obj_set (k : string) (v : value) (o : Attributes) : Attributes :=
  match o with
  | [] => [(k, v)]
  | (k', v') :: rest =>
      if String.eqb k k' then (k, v) :: rest else (k', v') :: obj_set k v rest
  end.

(** [{...a, ...b}] *)
Definition obj_spread (a b : Attributes) : Attributes :=
  fold_left (fun acc kv => obj_set (fst kv) (snd kv) acc) b a.

Definition string_of_Z (n : Z) : string := NilZero.string_of_int (Z.to_int n).

Definition string_of_nat (n : nat) : string := string_of_Z (Z.of_nat n).

Fixpoint chars_of (s : string) : list value :=
  match s with
  | EmptyString => []
  | String c rest => VStr (String c EmptyString) :: chars_of rest
  end.

Fixpoint index_from (i : nat) (l : list value) : Attributes :=
  match l with
  | [] => []
  | v :: rest => (string_of_nat i, v) :: index_from (S i) rest
  end.

(** Own enumerable properties copied by [...v] inside an object literal. *)
Definition own_properties (v : value) : Attributes :=
  match v with
  | VObj fields => fields
  | VArr items => index_from 0 items
  | VStr s => index_from 0 (chars_of s)
  | _ => []
  end.

Definition truthy (v : value) : bool :=
  match v with
  | VUndefined | VNull => false
  | VBool b => b
  | VNum n => negb (n =? 0)
  | VStr s => negb (String.eqb s "")
  | VArr _ | VObj _ | VError _ _ _ => true
  end.

(** [a || b] *)
Definition js_or (a b : value) : value := if truthy a then a else b.

Definition instanceof_Error (v : value) : bool :=
  match v with
  | VError _ _ _ => true
  | _ => false
  end.

Definition string_join (sep : string) (parts : list string) : string :=
  match parts with
  | [] => ""
  | p :: rest => fold_left (fun acc q => acc ++ sep ++ q) rest p
  end.

(** The text of a value: what [String(v)] and template interpolation give
    when the conversion succeeds (see [stringable]). *)
Fixpoint string_of_value (v : value) : string :=
  match v with
  | VUndefined => "undefined"
  | VNull => "null"
  | VBool true => "true"
  | VBool false => "false"
  | VNum n => string_of_Z n
  | VStr s => s
  | VArr items =>
      string_join ","
        (map (fun x => match x with
                       | VUndefined | VNull => ""
                       | _ => string_of_value x
                       end) items)
  | VObj _ => "[object Object]"
  | VError name message _ =>
      if String.eqb name "" then message
      else if String.eqb message "" then name
      else name ++ ": " ++ message
  end.

(** Whether the conversion of a value to a string succeeds.  An object
    that has a [toString] property of its own fails: no value of this model
    is a function, so that property cannot be called, and the [valueOf] an
    object inherits returns the object itself.  An array converts its
    elements (other than [null] and [undefined]) one by one, and fails when
    one of them does. *)
Fixpoint stringable (v : value) : bool :=
  match v with
  | VObj fields =>
      negb (existsb (fun kv => String.eqb (fst kv) "toString") fields)
  | VArr items =>
      forallb (fun x => match x with
                        | VUndefined | VNull => true
                        | _ => stringable x
                        end) items
  | _ => true
  end.

Definition TypeError (message : string) : value :=
  VError "TypeError" message "".

Definition SyntaxError (message : string) : value :=
  VError "SyntaxError" message "".

(** ** Configuration ([config.ts]) *)

Record ProcessEnv : Type := {
  OTEL_SERVICE_NAME : option string;
  npm_package_version : option string;
  NODE_ENV : option string;
  OTEL_EXPORTER_OTLP_TRACES_ENDPOINT : option string;
  OTEL_EXPORTER_OTLP_METRICS_ENDPOINT : option string;
  OTEL_EXPORTER_OTLP_LOGS_ENDPOINT : option string;
  LOG_LEVEL : option string;
  HOSTNAME : option string
}.

(** [process.env.X || fallback] *)
Definition env_or (x : option string) (fallback : string) : string :=
  match x with
  | Some s => if String.eqb s "" then fallback else s
  | None => fallback
  end.

Definition env_is (x : option string) (s : string) : bool :=
  match x with
  | Some s' => String.eqb s' s
  | None => false
  end.

Record OtlpConfig : Type := {
  tracesEndpoint : string;
  metricsEndpoint : string;
  logsEndpoint : string
}.

Record SamplingConfig : Type := { ratio : Q }.

Record BatchConfig : Type := {
  scheduledDelayMillis : Z;
  maxExportBatchSize : Z;
  maxQueueSize : Z
}.

Record FeatureFlags : Type := {
  consoleExporter : bool;
  otlpExporter : bool;
  httpInstrumentation : bool;
  fetchInstrumentation : bool
}.

Record TelemetryConfig : Type := {
  serviceName : string;
  serviceVersion : string;
  environment : string;
  otlp : OtlpConfig;
  sampling : SamplingConfig;
  batch : BatchConfig;
  features : FeatureFlags
}.

Definition TELEMETRY_CONFIG (env : ProcessEnv) : TelemetryConfig :=
  {| serviceName := env_or (OTEL_SERVICE_NAME env) "nextjs-telem-app";
     serviceVersion := env_or (npm_package_version env) "1.0.0";
     environment := env_or (NODE_ENV env) "development";
     otlp :=
       {| tracesEndpoint :=
            env_or (OTEL_EXPORTER_OTLP_TRACES_ENDPOINT env)
                   "http://localhost:4318/v1/traces";
          metricsEndpoint :=
            env_or (OTEL_EXPORTER_OTLP_METRICS_ENDPOINT env)
                   "http://localhost:4318/v1/metrics";
          logsEndpoint :=
            env_or (OTEL_EXPORTER_OTLP_LOGS_ENDPOINT env)
                   "http://localhost:4318/v1/logs" |};
     sampling :=
       {| ratio := if env_is (NODE_ENV env) "production" then 1 # 10 else 1 |};
     batch :=
       {| scheduledDelayMillis := 5000;
          maxExportBatchSize := 512;
          maxQueueSize := 2048 |};
     features :=
       {| consoleExporter := false;
          otlpExporter := true;
          httpInstrumentation := true;
          fetchInstrumentation := true |} |}.

Module SEMANTIC_ATTRIBUTES.
Definition HTTP_METHOD := "http.method".
Definition HTTP_URL := "http.url".
Definition HTTP_STATUS_CODE := "http.status_code".
Definition HTTP_ROUTE := "http.route".
Definition HTTP_USER_AGENT := "http.user_agent".
Definition DB_SYSTEM := "db.system".
Definition DB_STATEMENT := "db.statement".
Definition DB_OPERATION := "db.operation".
End SEMANTIC_ATTRIBUTES.

Module METRIC_NAMES.
Definition HTTP_REQUEST_DURATION := "http.server.request.duration".
Definition HTTP_REQUEST_COUNT := "http.server.request.count".
Definition HTTP_ACTIVE_REQUESTS := "http.server.active_requests".
Definition HTTP_ERROR_COUNT := "http.server.error.count".
End METRIC_NAMES.

(** ** The OpenTelemetry API, as the repository uses it *)

Inductive SpanKind : Type := INTERNAL | SERVER | CLIENT | PRODUCER | CONSUMER.

Inductive SpanStatusCode : Type := UNSET | OK | ERROR.

(** The argument of [span.setStatus]; an absent [message] is [VUndefined]. *)
Record SpanStatus : Type := {
  code : SpanStatusCode;
  message : value
}.

Record SpanContext : Type := {
  traceId : string;
  spanId : string;
  traceFlags : Z
}.

(** A span handle: the order of creation identifies the object, its context
    carries the identifiers the SDK gave it. *)
Record Span : Type := {
  span_handle : nat;
  spanContext : SpanContext
}.

Record SpanOptions : Type := {
  kind : SpanKind;
  attributes : option Attributes
}.

Inductive SpanCall : Type :=
| CallSetAttribute (key : string) (v : value)
| CallSetAttributes (attrs : Attributes)
| CallAddEvent (name : string) (attrs : option Attributes)
| CallRecordException (exception : value)
| CallSetStatus (status : SpanStatus)
| CallEnd.

Inductive InstrumentKind : Type := Counter | UpDownCounter | Histogram.

Record Instrument : Type := {
  inst_kind : InstrumentKind;
  inst_meter : string;
  inst_name : string;
  inst_description : string;
  inst_unit : string;
  inst_boundaries : option (list Z)
}.

Inductive LogLevel : Type := debug | info | warn | error | fatal.

(** One call on an external sink. *)
Inductive Effect : Type :=
| SpanStarted (tracer : string) (s : Span) (name : string) (o : SpanOptions)
    (parent : option Span)
| SpanCalled (s : Span) (c : SpanCall)
| Measured (i : Instrument) (v : value) (attrs : option Attributes)
| PinoLogged (bindings : Attributes) (level : LogLevel) (obj : Attributes)
    (msg : string)
| OtelLogEmitted (otel_logger : string) (severityNumber : Z)
    (severityText : string) (text : string) (attrs : Attributes).

(** What the registered tracer provider decides on its own: identifiers and
    the trace flags of a new span, given the parent context (if any) and the
    number of spans created so far. *)
Record TracerProvider : Type := {
  newSpanContext : option SpanContext -> nat -> SpanContext
}.

(** ** The world: module state of the repository and the journal of sinks *)

Record World : Type := {
  journal : list Effect;
  activeSpan : option Span;
  spansCreated : nat;
  provider : TracerProvider;
  now : Z;
  config : TelemetryConfig;
  httpRequestCounter : option Instrument;
  httpRequestDuration : option Instrument;
  httpActiveRequests : option Instrument;
  httpErrorCounter : option Instrument
}.

Definition with_journal (j : list Effect) (w : World) : World :=
  {| journal := j; activeSpan := activeSpan w; spansCreated := spansCreated w;
     provider := provider w; now := now w; config := config w;
     httpRequestCounter := httpRequestCounter w;
     httpRequestDuration := httpRequestDuration w;
     httpActiveRequests := httpActiveRequests w;
     httpErrorCounter := httpErrorCounter w |}.

Definition with_activeSpan (a : option Span) (w : World) : World :=
  {| journal := journal w; activeSpan := a; spansCreated := spansCreated w;
     provider := provider w; now := now w; config := config w;
     httpRequestCounter := httpRequestCounter w;
     httpRequestDuration := httpRequestDuration w;
     httpActiveRequests := httpActiveRequests w;
     httpErrorCounter := httpErrorCounter w |}.

Definition with_spansCreated (n : nat) (w : World) : World :=
  {| journal := journal w; activeSpan := activeSpan w; spansCreated := n;
     provider := provider w; now := now w; config := config w;
     httpRequestCounter := httpRequestCounter w;
     httpRequestDuration := httpRequestDuration w;
     httpActiveRequests := httpActiveRequests w;
     httpErrorCounter := httpErrorCounter w |}.

Definition with_httpRequestCounter (i : Instrument) (w : World) : World :=
  {| journal := journal w; activeSpan := activeSpan w;
     spansCreated := spansCreated w;
     provider := provider w; now := now w; config := config w;
     httpRequestCounter := Some i;
     httpRequestDuration := httpRequestDuration w;
     httpActiveRequests := httpActiveRequests w;
     httpErrorCounter := httpErrorCounter w |}.

Definition with_httpRequestDuration (i : Instrument) (w : World) : World :=
  {| journal := journal w; activeSpan := activeSpan w;
     spansCreated := spansCreated w;
     provider := provider w; now := now w; config := config w;
     httpRequestCounter := httpRequestCounter w;
     httpRequestDuration := Some i;
     httpActiveRequests := httpActiveRequests w;
     httpErrorCounter := httpErrorCounter w |}.

Definition with_httpActiveRequests (i : Instrument) (w : World) : World :=
  {| journal := journal w; activeSpan := activeSpan w;
     spansCreated := spansCreated w;
     provider := provider w; now := now w; config := config w;
     httpRequestCounter := httpRequestCounter w;
     httpRequestDuration := httpRequestDuration w;
     httpActiveRequests := Some i;
     httpErrorCounter := httpErrorCounter w |}.

Definition with_httpErrorCounter (i : Instrument) (w : World) : World :=
  {| journal := journal w; activeSpan := activeSpan w;
     spansCreated := spansCreated w;
     provider := provider w; now := now w; config := config w;
     httpRequestCounter := httpRequestCounter w;
     httpRequestDuration := httpRequestDuration w;
     httpActiveRequests := httpActiveRequests w;
     httpErrorCounter := Some i |}.

(** ** Computations: state passing with JavaScript completions *)

Inductive Completion (A : Type) : Type :=
| Normal (a : A)
| Throw (e : value).

Arguments Normal {A} a.
Arguments Throw {A} e.

Definition M (A : Type) : Type := World -> Completion A * World.

Definition ret {A} (a : A) : M A := fun w => (Normal a, w).

Definition throw {A} (e : value) : M A := fun w => (Throw e, w).

Definition bind {A B} (c : M A) (k : A -> M B) : M B :=
  fun w =>
    match c w with
    | (Normal a, w') => k a w'
    | (Throw e, w') => (Throw e, w')
    end.

Declare Scope js_scope.
Delimit Scope js_scope with js.
Notation "x <- c ;; k" := (bind c (fun x => k))
  (at level 61, c at next level, right associativity) : js_scope.
Notation "c ;; k" := (bind c (fun _ => k))
  (at level 61, right associativity) : js_scope.
Local Open Scope js_scope.

(** [try { body } catch (e) { handler e } finally { cleanup }]: the cleanup
    runs after the body or the handler whatever their completion; a
    cleanup that throws replaces that completion. *)
Definition try_catch_finally {A} (body : M A) (handler : value -> M A)
  (cleanup : M unit) : M A :=
  fun w =>
    let '(r, w2) :=
      match body w with
      | (Normal a, w1) => (Normal a, w1)
      | (Throw e, w1) => handler e w1
      end in
    match cleanup w2 with
    | (Normal _, w3) => (r, w3)
    | (Throw e', w3) => (Throw e', w3)
    end.

(** [try { body } catch (e) { handler e }] *)
Definition try_catch {A} (body : M A) (handler : value -> M A) : M A :=
  try_catch_finally body handler (ret tt).

(** [try { body } finally { cleanup }] *)
Definition try_finally {A} (body : M A) (cleanup : M unit) : M A :=
  try_catch_finally body throw cleanup.

Definition emit (e : Effect) : M unit :=
  fun w => (Normal tt, with_journal (journal w ++ [e]) w).

Definition get_config : M TelemetryConfig := fun w => (Normal (config w), w).

(** [v.k] on a value that has properties; [null] and [undefined] have
    none. *)
Definition js_prop (v : value) (k : string) : option value :=
  match v with
  | VUndefined | VNull => None
  | VObj fields => Some (obj_get k fields)
  | VError name message stack =>
      Some (if String.eqb k "name" then VStr name
            else if String.eqb k "message" then VStr message
            else if String.eqb k "stack" then VStr stack
            else VUndefined)
  | VStr s =>
      Some (if String.eqb k "length" then VNum (Z.of_nat (String.length s))
            else VUndefined)
  | VArr items =>
      Some (if String.eqb k "length" then VNum (Z.of_nat (List.length items))
            else VUndefined)
  | VBool _ | VNum _ => Some VUndefined
  end.

(** [v.k]: reading a property of [null] or [undefined] throws. *)
Definition js_get (v : value) (k : string) : M value :=
  match js_prop v k with
  | Some x => ret x
  | None =>
      throw (TypeError ("Cannot read properties of " ++ string_of_value v
                         ++ " (reading '" ++ k ++ "')"))
  end.

(** [String(v)] and template interpolation: a TypeError when the value
    cannot be converted. *)
Definition js_String (v : value) : M string :=
  if stringable v then ret (string_of_value v)
  else throw (TypeError "Cannot convert object to primitive value").

(** Methods of a span. *)
Definition span_setAttribute (s : Span) (k : string) (v : value) : M unit :=
  emit (SpanCalled s (CallSetAttribute k v)).

Definition span_setAttributes (s : Span) (attrs : Attributes) : M unit :=
  emit (SpanCalled s (CallSetAttributes attrs)).

Definition span_addEvent (s : Span) (name : string)
  (attrs : option Attributes) : M unit :=
  emit (SpanCalled s (CallAddEvent name attrs)).

Definition span_recordException (s : Span) (e : value) : M unit :=
  emit (SpanCalled s (CallRecordException e)).

Definition span_setStatus (s : Span) (st : SpanStatus) : M unit :=
  emit (SpanCalled s (CallSetStatus st)).

Definition span_end (s : Span) : M unit :=
  emit (SpanCalled s CallEnd).

(** The span a [startSpan] in world [w] creates, and the world its callback
    starts in. *)
Definition new_span (w : World) : Span :=
  {| span_handle := spansCreated w;
     spanContext := newSpanContext (provider w)
                      (option_map spanContext (activeSpan w))
                      (spansCreated w) |}.

Definition span_entry (tracer name : string) (o : SpanOptions) (w : World)
  : World :=
  with_activeSpan (Some (new_span w))
    (with_spansCreated (S (spansCreated w))
       (with_journal
          (journal w ++ [SpanStarted tracer (new_span w) name o (activeSpan w)])
          w)).

(** [tracer.startActiveSpan(name, options, fn)]: the new span is a child of
    the active one, is active while [fn] runs, and the previous context is
    restored when [fn] completes, normally or not. *)
Definition startActiveSpan {A} (tracer : string) (name : string)
  (o : SpanOptions) (fn : Span -> M A) : M A :=
  fun w =>
    let '(r, w2) := fn (new_span w) (span_entry tracer name o w) in
    (r, with_activeSpan (activeSpan w) w2).

(** [instrument.add(v, attrs)] and [histogram.record(v, attrs)] *)
Definition instrument_record (i : Instrument) (v : value)
  (attrs : option Attributes) : M unit :=
  emit (Measured i v attrs).

(** ** Tracing utilities ([tracer.ts]) *)

(** [trace.getTracer(name || TELEMETRY_CONFIG.serviceName)]; a tracer is
    identified by its name. *)
Definition getTracer (name : option string) : M string :=
  cfg <- get_config ;;
  ret (env_or name (serviceName cfg)).

Definition getActiveSpan : M (option Span) :=
  fun w => (Normal (activeSpan w), w).

Definition addSpanAttributes (attrs : Attributes) : M unit :=
  span <- getActiveSpan ;;
  match span with
  | Some s => span_setAttributes s attrs
  | None => ret tt
  end.

Definition addSpanEvent (name : string) (attrs : option Attributes) : M unit :=
  span <- getActiveSpan ;;
  match span with
  | Some s => span_addEvent s name attrs
  | None => ret tt
  end.

Definition recordException (err : value) (msg : option string) : M unit :=
  span <- getActiveSpan ;;
  match span with
  | Some s =>
      span_recordException s err ;;
      m <- match msg with
           | Some s' =>
               if truthy (VStr s') then ret (VStr s') else js_get err "message"
           | None => js_get err "message"
           end ;;
      span_setStatus s {| code := ERROR; message := m |}
  | None => ret tt
  end.

(** The optional third argument of [traceSync] and [traceAsync]. *)
Record TraceOptions : Type := {
  opt_kind : option SpanKind;
  opt_attributes : option Attributes
}.

Definition trace_span_options (options : option TraceOptions) : SpanOptions :=
  {| kind := match options with
             | Some o => match opt_kind o with
                         | Some k => k
                         | None => INTERNAL
                         end
             | None => INTERNAL
             end;
     attributes := match options with
                   | Some o => opt_attributes o
                   | None => None
                   end |}.

Definition traceSync {T} (spanName : string) (fn : M T)
  (options : option TraceOptions) : M T :=
  tracer <- getTracer None ;;
  startActiveSpan tracer spanName (trace_span_options options)
    (fun span =>
       try_catch_finally
         (result <- fn ;;
          span_setStatus span {| code := OK; message := VUndefined |} ;;
          ret result)
         (fun err =>
            (if instanceof_Error err then
               span_recordException span err ;;
               m <- js_get err "message" ;;
               span_setStatus span {| code := ERROR; message := m |}
             else ret tt) ;;
            throw err)
         (span_end span)).

(** The asynchronous form: [fn] is awaited inside the [try]. *)
Definition traceAsync {T} (spanName : string) (fn : M T)
  (options : option TraceOptions) : M T :=
  tracer <- getTracer None ;;
  startActiveSpan tracer spanName (trace_span_options options)
    (fun span =>
       try_catch_finally
         (result <- fn ;;
          span_setStatus span {| code := OK; message := VUndefined |} ;;
          ret result)
         (fun err =>
            (if instanceof_Error err then
               span_recordException span err ;;
               m <- js_get err "message" ;;
               span_setStatus span {| code := ERROR; message := m |}
             else ret tt) ;;
            throw err)
         (span_end span)).

Definition zero_context : SpanContext :=
  {| traceId := "00000000000000000000000000000000";
     spanId := "0000000000000000";
     traceFlags := 0 |}.

Definition getTraceContext : M SpanContext :=
  span <- getActiveSpan ;;
  match span with
  | Some s =>
      let ctx := spanContext s in
      ret {| traceId := traceId ctx;
             spanId := spanId ctx;
             traceFlags := traceFlags ctx |}
  | None => ret zero_context
  end.

(** ** Metrics utilities ([metrics.ts]) *)

Definition getMeter : M string :=
  cfg <- get_config ;; ret (serviceName cfg).

Definition meter_createCounter (meter name description unit : string)
  : Instrument :=
  {| inst_kind := Counter; inst_meter := meter; inst_name := name;
     inst_description := description; inst_unit := unit;
     inst_boundaries := None |}.

Definition meter_createUpDownCounter (meter name description unit : string)
  : Instrument :=
  {| inst_kind := UpDownCounter; inst_meter := meter; inst_name := name;
     inst_description := description; inst_unit := unit;
     inst_boundaries := None |}.

Definition meter_createHistogram (meter name description unit : string)
  (boundaries : option (list Z)) : Instrument :=
  {| inst_kind := Histogram; inst_meter := meter; inst_name := name;
     inst_description := description; inst_unit := unit;
     inst_boundaries := boundaries |}.

(** What each lazy getter creates on first use. *)
Definition new_httpRequestCounter (meter : string) : Instrument :=
  meter_createCounter meter METRIC_NAMES.HTTP_REQUEST_COUNT
    "Total number of HTTP requests" "requests".

Definition new_httpRequestDuration (meter : string) : Instrument :=
  meter_createHistogram meter METRIC_NAMES.HTTP_REQUEST_DURATION
    "Duration of HTTP requests" "ms"
    (Some [10; 50; 100; 250; 500; 1000; 2500; 5000; 10000]).

Definition new_httpActiveRequests (meter : string) : Instrument :=
  meter_createUpDownCounter meter METRIC_NAMES.HTTP_ACTIVE_REQUESTS
    "Number of active HTTP requests" "requests".

Definition new_httpErrorCounter (meter : string) : Instrument :=
  meter_createCounter meter METRIC_NAMES.HTTP_ERROR_COUNT
    "Total number of HTTP errors" "errors".

Definition getHttpRequestCounter : M Instrument :=
  fun w =>
    match httpRequestCounter w with
    | Some i => (Normal i, w)
    | None =>
        (meter <- getMeter ;;
         let i := new_httpRequestCounter meter in
         fun w' => (Normal i, with_httpRequestCounter i w')) w
    end.

Definition getHttpRequestDuration : M Instrument :=
  fun w =>
    match httpRequestDuration w with
    | Some i => (Normal i, w)
    | None =>
        (meter <- getMeter ;;
         let i := new_httpRequestDuration meter in
         fun w' => (Normal i, with_httpRequestDuration i w')) w
    end.

Definition getHttpActiveRequests : M Instrument :=
  fun w =>
    match httpActiveRequests w with
    | Some i => (Normal i, w)
    | None =>
        (meter <- getMeter ;;
         let i := new_httpActiveRequests meter in
         fun w' => (Normal i, with_httpActiveRequests i w')) w
    end.

Definition getHttpErrorCounter : M Instrument :=
  fun w =>
    match httpErrorCounter w with
    | Some i => (Normal i, w)
    | None =>
        (meter <- getMeter ;;
         let i := new_httpErrorCounter meter in
         fun w' => (Normal i, with_httpErrorCounter i w')) w
    end.

(** The argument of [recordHttpRequest].  Durations are clock differences,
    in the unit of the world's clock. *)
Record HttpRequestMetric : Type := {
  m_method : string;
  m_route : string;
  m_statusCode : Z;
  m_duration : Z
}.

Definition http_metric_attributes (r : HttpRequestMetric) : Attributes :=
  [ ("http.method", VStr (m_method r));
    ("http.route", VStr (m_route r));
    ("http.status_code", VNum (m_statusCode r));
    ("http.status_class", VStr (string_of_Z (m_statusCode r / 100) ++ "xx")) ].

Definition recordHttpRequest (r : HttpRequestMetric) : M unit :=
  let attrs := http_metric_attributes r in
  c <- getHttpRequestCounter ;;
  instrument_record c (VNum 1) (Some attrs) ;;
  h <- getHttpRequestDuration ;;
  instrument_record h (VNum (m_duration r)) (Some attrs) ;;
  if m_statusCode r >=? 400 then
    e <- getHttpErrorCounter ;;
    instrument_record e (VNum 1) (Some attrs)
  else ret tt.

Definition incrementActiveRequests (attrs : option Attributes) : M unit :=
  a <- getHttpActiveRequests ;;
  instrument_record a (VNum 1) attrs.

Definition decrementActiveRequests (attrs : option Attributes) : M unit :=
  a <- getHttpActiveRequests ;;
  instrument_record a (VNum (-1)) attrs.

Definition createCounter (name description : string) (unit : option string)
  : M Instrument :=
  meter <- getMeter ;;
  ret (meter_createCounter meter name description
         (match unit with Some u => u | None => "1" end)).

Definition createHistogram (name description : string) (unit : option string)
  : M Instrument :=
  meter <- getMeter ;;
  ret (meter_createHistogram meter name description
         (match unit with Some u => u | None => "ms" end) None).

Definition performance_now : M Z := fun w => (Normal (now w), w).

Record Timer : Type := { timer_start : Z }.

Definition startTimer : M Timer :=
  start <- performance_now ;;
  ret {| timer_start := start |}.

Definition timer_end (t : Timer) : M Z :=
  n <- performance_now ;;
  ret (n - timer_start t).

(** ** Structured logging with trace correlation ([logger.ts]) *)

(** A pino logger is its bindings; [child] adds to them. *)
Record PinoLogger : Type := { bindings : Attributes }.

Definition baseLogger : M PinoLogger :=
  cfg <- get_config ;;
  ret {| bindings := [ ("service", VStr (serviceName cfg));
                       ("version", VStr (serviceVersion cfg));
                       ("env", VStr (environment cfg)) ] |}.

Definition pino_child (p : PinoLogger) (context : Attributes) : PinoLogger :=
  {| bindings := (bindings p ++ context)%list |}.

Definition pino_log (p : PinoLogger) (level : LogLevel) (obj : Attributes)
  (msg : string) : M unit :=
  emit (PinoLogged (bindings p) level obj msg).

Definition withTraceContext (context : option Attributes) : M Attributes :=
  ctx <- getTraceContext ;;
  ret (obj_set "span_id" (VStr (spanId ctx))
         (obj_set "trace_id" (VStr (traceId ctx))
            (obj_spread [] (match context with Some c => c | None => [] end)))).

Record Logger : Type := { pinoLogger : PinoLogger }.

(** The two call shapes of a level method: [(message)] and
    [(context, message?)]. *)
Inductive LogArgs : Type :=
| LogMessage (text : string)
| LogContext (context : Attributes) (text : option string).

Definition Logger_log (level : LogLevel) (l : Logger) (args : LogArgs)
  : M unit :=
  match args with
  | LogMessage text =>
      obj <- withTraceContext None ;;
      pino_log (pinoLogger l) level obj text
  | LogContext context text =>
      obj <- withTraceContext (Some context) ;;
      pino_log (pinoLogger l) level obj (env_or text "")
  end.

Definition Logger_debug := Logger_log debug.
Definition Logger_info := Logger_log info.
Definition Logger_warn := Logger_log warn.
Definition Logger_error := Logger_log error.
Definition Logger_fatal := Logger_log fatal.

Definition Logger_child (l : Logger) (context : Attributes) : Logger :=
  {| pinoLogger := pino_child (pinoLogger l) context |}.

Definition createChildLogger (context : Attributes) : M Logger :=
  base <- baseLogger ;;
  ret {| pinoLogger := pino_child base context |}.

(** [export const logger = new Logger()] *)
Definition logger : M Logger :=
  base <- baseLogger ;;
  ret {| pinoLogger := base |}.

Record HttpRequestLog : Type := {
  rq_method : string;
  rq_url : string;
  rq_userAgent : value;
  rq_ip : value
}.

Definition logHttpRequest (request : HttpRequestLog) : M unit :=
  l <- logger ;;
  Logger_info l
    (LogContext
       [ ("http", VObj [ ("method", VStr (rq_method request));
                         ("url", VStr (rq_url request));
                         ("userAgent", rq_userAgent request);
                         ("ip", rq_ip request) ]) ]
       (Some "HTTP request received")).

Record HttpResponseLog : Type := {
  rs_method : string;
  rs_url : string;
  rs_statusCode : Z;
  rs_duration : Z
}.

Definition response_log_level (statusCode : Z) : LogLevel :=
  if statusCode >=? 500 then error
  else if statusCode >=? 400 then warn
  else info.

(** [n.toFixed(2)] for a whole number of clock units. *)
Definition toFixed2 (n : Z) : string := string_of_Z n ++ ".00".

Definition logHttpResponse (response : HttpResponseLog) : M unit :=
  let level := response_log_level (rs_statusCode response) in
  l <- logger ;;
  Logger_log level l
    (LogContext
       [ ("http", VObj [ ("method", VStr (rs_method response));
                         ("url", VStr (rs_url response));
                         ("statusCode", VNum (rs_statusCode response));
                         ("duration",
                          VStr (toFixed2 (rs_duration response) ++ "ms")) ]) ]
       (Some "HTTP response sent")).

(** ** The OpenTelemetry log bridge ([otel-logger.ts]) *)

Definition severityNumber_of (level : LogLevel) : Z :=
  match level with
  | debug => 5
  | info => 9
  | warn => 13
  | error => 17
  | fatal => 21
  end.

Definition upper_name (level : LogLevel) : string :=
  match level with
  | debug => "DEBUG"
  | info => "INFO"
  | warn => "WARN"
  | error => "ERROR"
  | fatal => "FATAL"
  end.

Definition emitOtelLog (level : LogLevel) (text : string)
  (attrs : option Attributes) : M unit :=
  ctx <- getTraceContext ;;
  cfg <- get_config ;;
  emit (OtelLogEmitted (serviceName cfg) (severityNumber_of level)
          (upper_name level) text
          (obj_set "span_id" (VStr (spanId ctx))
             (obj_set "trace_id" (VStr (traceId ctx))
                (obj_set "service.name" (VStr (serviceName cfg))
                   (obj_spread []
                      (match attrs with Some a => a | None => [] end)))))).

(** ** Requests and responses (Next.js, at their interface) *)

Record NextRequest : Type := {
  method : string;
  url : string;
  (** [new URL(request.url).pathname] *)
  pathname : string;
  headers : list (string * string);
  (** The parsed body; [None] when the body text is not JSON, in which case
      [request.json()] rejects. *)
  body : option value
}.

Record NextResponse : Type := {
  status : Z;
  payload : value
}.

(** [NextResponse.json(data)] *)
Definition NextResponse_json (data : value) : NextResponse :=
  {| status := 200; payload := data |}.

Record RouteContext : Type := {
  params : option (list (string * string))
}.

Definition ApiHandler : Type :=
  NextRequest -> option RouteContext -> M NextResponse.

(** [request.headers.get(name)]: the value, or [null]. *)
Fixpoint headers_get (name : string) (h : list (string * string)) : value :=
  match h with
  | [] => VNull
  | (k, v) :: rest =>
      if String.eqb k name then VStr v else headers_get name rest
  end.

Definition request_json (request : NextRequest) : M value :=
  match body request with
  | Some v => ret v
  | None => throw (SyntaxError "Unexpected token in JSON")
  end.

Definition dquote : ascii := ascii_of_nat 34.

Definition json_escape_char (c : ascii) : string :=
  if Ascii.eqb c dquote then String "\"%char (String c "")
  else if Ascii.eqb c "\"%char then String "\"%char (String c "")
  else if Ascii.eqb c "010"%char then "\n"
  else if Ascii.eqb c "013"%char then "\r"
  else if Ascii.eqb c "009"%char then "\t"
  else String c "".

Fixpoint json_escape (s : string) : string :=
  match s with
  | EmptyString => ""
  | String c rest => json_escape_char c ++ json_escape rest
  end.

Definition json_quote (s : string) : string :=
  String dquote (json_escape s ++ String dquote "").

(** [JSON.stringify] of a record of strings (other control characters than
    newline, carriage return and tab are not expected in route parameters). *)
Definition JSON_stringify_record (r : list (string * string)) : string :=
  "{" ++ string_join ","
           (map (fun kv => json_quote (fst kv) ++ ":" ++ json_quote (snd kv)) r)
      ++ "}".

Definition string_attributes (r : list (string * string)) : Attributes :=
  map (fun kv => (fst kv, VStr (snd kv))) r.

(** ** Request instrumentation wrapper ([middleware.ts]) *)

Record TelemetryOptions : Type := {
  name : string;
  skipPaths : option (list string);
  customAttributes : option (list (string * string))
}.

Definition skipped (options : TelemetryOptions) (path : string) : bool :=
  match skipPaths options with
  | Some l => existsb (fun skip => String.prefix skip path) l
  | None => false
  end.

Definition server_span_options (options : TelemetryOptions)
  (request : NextRequest) (context : option RouteContext) : SpanOptions :=
  {| kind := SERVER;
     attributes :=
       Some
         (obj_spread
            (obj_spread
               [ (SEMANTIC_ATTRIBUTES.HTTP_METHOD, VStr (method request));
                 (SEMANTIC_ATTRIBUTES.HTTP_URL, VStr (url request));
                 (SEMANTIC_ATTRIBUTES.HTTP_ROUTE, VStr (pathname request));
                 (SEMANTIC_ATTRIBUTES.HTTP_USER_AGENT,
                  js_or (headers_get "user-agent" (headers request))
                        (VStr "")) ]
               (match customAttributes options with
                | Some c => string_attributes c
                | None => []
                end))
            (match context with
             | Some {| params := Some p |} =>
                 [ ("http.route.params", VStr (JSON_stringify_record p)) ]
             | _ => []
             end)) |}.

(** The summary of the incoming request handed to [logHttpRequest]. *)
Definition request_log (request : NextRequest) : HttpRequestLog :=
  {| rq_method := method request;
     rq_url := url request;
     rq_userAgent :=
       js_or (headers_get "user-agent" (headers request)) VUndefined;
     rq_ip :=
       js_or (js_or (headers_get "x-forwarded-for" (headers request))
                    (headers_get "x-real-ip" (headers request)))
             VUndefined |}.

Definition withTelemetry (handler : ApiHandler) (options : TelemetryOptions)
  : ApiHandler :=
  fun request context =>
    let path := pathname request in
    if skipped options path then handler request context
    else
      cfg <- get_config ;;
      let tracer := serviceName cfg in
      timer <- startTimer ;;
      incrementActiveRequests (Some [ ("http.route", VStr path) ]) ;;
      logHttpRequest (request_log request) ;;
      startActiveSpan tracer (name options)
        (server_span_options options request context)
        (fun span =>
           try_catch_finally
             (response <- handler request context ;;
              let statusCode := status response in
              span_setAttribute span SEMANTIC_ATTRIBUTES.HTTP_STATUS_CODE
                (VNum statusCode) ;;
              (if statusCode >=? 400 then
                 span_setStatus span
                   {| code := ERROR;
                      message := VStr ("HTTP " ++ string_of_Z statusCode) |}
               else
                 span_setStatus span {| code := OK; message := VUndefined |}) ;;
              duration <- timer_end timer ;;
              recordHttpRequest
                {| m_method := method request; m_route := path;
                   m_statusCode := statusCode; m_duration := duration |} ;;
              logHttpResponse
                {| rs_method := method request; rs_url := url request;
                   rs_statusCode := statusCode; rs_duration := duration |} ;;
              ret response)
             (fun err =>
                span_recordException span err ;;
                m <- js_get err "message" ;;
                span_setStatus span {| code := ERROR; message := m |} ;;
                duration <- timer_end timer ;;
                recordHttpRequest
                  {| m_method := method request; m_route := path;
                     m_statusCode := 500; m_duration := duration |} ;;
                l <- logger ;;
                em <- js_get err "message" ;;
                es <- js_get err "stack" ;;
                en <- js_get err "name" ;;
                Logger_error l
                  (LogContext
                     [ ("error", VObj [ ("message", em);
                                        ("stack", es);
                                        ("name", en) ]);
                       ("http", VObj [ ("method", VStr (method request));
                                       ("url", VStr (url request)) ]) ]
                     (Some "Unhandled error in API route")) ;;
                throw err)
             (span_end span ;;
              decrementActiveRequests (Some [ ("http.route", VStr path) ]))).

(** The lighter variant: metrics only, no span. *)
Definition withMetrics (handler : ApiHandler) (routeName : string)
  : ApiHandler :=
  fun request context =>
    timer <- startTimer ;;
    try_catch
      (response <- handler request context ;;
       duration <- timer_end timer ;;
       recordHttpRequest
         {| m_method := method request; m_route := routeName;
            m_statusCode := status response; m_duration := duration |} ;;
       ret response)
      (fun err =>
         duration <- timer_end timer ;;
         recordHttpRequest
           {| m_method := method request; m_route := routeName;
              m_statusCode := 500; m_duration := duration |} ;;
         throw err).

(** ** Client telemetry ingestion ([app/api/telemetry/route.ts]) *)

Definition clientEventsReceived : M Instrument :=
  createCounter "client.events.received"
    "Number of client-side events received" None.

Definition webVitalsHistogram : M Instrument :=
  createHistogram "client.web_vitals"
    "Client-side web vitals measurements" (Some "ms").

(** [v === s] for a string literal [s] *)
Definition js_is (v : value) (s : string) : bool :=
  match v with
  | VStr x => String.eqb x s
  | _ => false
  end.

(** [v.startsWith(p)]: only strings have the method. *)
Definition js_startsWith (v : value) (p : string) : M bool :=
  match v with
  | VStr s => ret (String.prefix p s)
  | VUndefined =>
      throw (TypeError
               "Cannot read properties of undefined (reading 'startsWith')")
  | VNull =>
      throw (TypeError "Cannot read properties of null (reading 'startsWith')")
  | _ => throw (TypeError "name.startsWith is not a function")
  end.

(** [name.replace(p, '')] for a [name] that starts with [p] *)
Definition drop_prefix (p s : string) : string :=
  String.substring (String.length p) (String.length s - String.length p) s.

(** The values a [for (const x of v)] loop visits; a value that is not
    iterable throws before the first round. *)
Definition js_iterate (v : value) : M (list value) :=
  match v with
  | VArr items => ret items
  | VStr s => ret (chars_of s)
  | _ => throw (TypeError "events is not iterable")
  end.

Fixpoint for_of (items : list value) (round : value -> M unit) : M unit :=
  match items with
  | [] => ret tt
  | x :: rest => round x ;; for_of rest round
  end.

Definition processMetricEvent (event : value) : M unit :=
  traceAsync "process.client.metric"
    (name <- js_get event "name" ;;
     properties <- js_get event "properties" ;;
     web_vital <- js_startsWith name "web_vital_" ;;
     (if web_vital then
        let vitalName := drop_prefix "web_vital_" (string_of_value name) in
        v <- js_get properties "value" ;;
        good <- js_get properties "good" ;;
        goodText <- js_String good ;;
        page <- js_get properties "url" ;;
        pageText <- js_String (js_or page (VStr "")) ;;
        h <- webVitalsHistogram ;;
        instrument_record h v
          (Some [ ("vital.name", VStr vitalName);
                  ("vital.good", VStr goodText);
                  ("page.url", VStr pageText) ]) ;;
        l <- logger ;;
        good' <- js_get properties "good" ;;
        page' <- js_get properties "url" ;;
        Logger_info l
          (LogContext [ ("webVital", VStr vitalName); ("value", v);
                        ("good", good'); ("url", page') ]
                      (Some ("Web Vital: " ++ vitalName)))
      else ret tt) ;;
     (if js_is name "navigation_timing" then
        l <- logger ;;
        Logger_info l
          (LogContext [ ("timing", properties) ]
                      (Some "Navigation timing received"))
      else ret tt) ;;
     (if js_is name "component_render" then
        duration <- js_get properties "duration" ;;
        slow <- js_get properties "slow" ;;
        if truthy slow then
          l <- logger ;;
          component <- js_get properties "component" ;;
          Logger_warn l
            (LogContext [ ("component", component); ("duration", duration) ]
                        (Some "Slow component render detected"))
        else ret tt
      else ret tt))
    None.

Definition processTraceEvent (event : value) : M unit :=
  traceAsync "process.client.trace"
    (name <- js_get event "name" ;;
     properties <- js_get event "properties" ;;
     l <- logger ;;
     nameText <- js_String name ;;
     Logger_info l
       (LogContext (obj_spread [ ("event", name) ] (own_properties properties))
                   (Some ("Client event: " ++ nameText))))
    None.

Definition processLogEvent (event : value) : M unit :=
  traceAsync "process.client.log"
    (name <- js_get event "name" ;;
     properties <- js_get event "properties" ;;
     if js_is name "client_error" then
       l <- logger ;;
       component <- js_get properties "component" ;;
       err <- js_get properties "error" ;;
       page <- js_get properties "url" ;;
       Logger_error l
         (LogContext [ ("component", component); ("error", err);
                       ("url", page) ]
                     (Some "Client-side error reported"))
     else ret tt)
    None.

(** One round of the loop over the events of a batch. *)
Definition process_event (event : value) : M unit :=
  ty <- js_get event "type" ;;
  nm <- js_get event "name" ;;
  c <- clientEventsReceived ;;
  instrument_record c (VNum 1)
    (Some [ ("event.type", ty); ("event.name", nm) ]) ;;
  if js_is ty "metric" then processMetricEvent event
  else if js_is ty "trace" then processTraceEvent event
  else if js_is ty "log" then processLogEvent event
  else ret tt.

Definition handleTelemetry : ApiHandler :=
  fun request _ =>
    body <- request_json request ;;
    ev <- js_get body "events" ;;
    let events := js_or ev (VArr []) in
    count <- js_get events "length" ;;
    addSpanAttributes [ ("telemetry.event_count", count);
                        ("telemetry.source", VStr "client") ] ;;
    items <- js_iterate events ;;
    for_of items process_event ;;
    processed <- js_get events "length" ;;
    ret (NextResponse_json
           (VObj [ ("success", VBool true); ("processed", processed) ])).

Definition POST : ApiHandler :=
  withTelemetry handleTelemetry
    {| name := "POST /api/telemetry";
       skipPaths := None;
       customAttributes := Some [ ("api.category", "telemetry") ] |}.

(** ** SDK initialisation ([init.ts]) *)

Inductive Exporter : Type :=
| OTLPTraceExporter (endpoint : string)
| OTLPMetricExporter (endpoint : string)
| OTLPLogExporter (endpoint : string)
| ConsoleSpanExporter
| ConsoleLogRecordExporter.

(** The second argument of a batch processor's constructor; a key that is
    not given is left to the SDK. *)
Record BufferConfig : Type := {
  buf_scheduledDelayMillis : option Z;
  buf_maxExportBatchSize : option Z;
  buf_maxQueueSize : option Z
}.

Inductive Processor : Type :=
| BatchSpanProcessor (e : Exporter) (c : BufferConfig)
| SimpleSpanProcessor (e : Exporter)
| BatchLogRecordProcessor (e : Exporter) (c : BufferConfig)
| SimpleLogRecordProcessor (e : Exporter).

(** The sampling strategies the configuration file names. *)
Inductive Sampler : Type :=
| AlwaysOnSampler
| AlwaysOffSampler
| TraceIdRatioBasedSampler (r : Q)
| ParentBasedSampler (root : Sampler).

Record MetricReader : Type := {
  reader_exporter : Exporter;
  exportIntervalMillis : Z
}.

Record Instrumentations : Type := {
  instrumentation_http : bool;
  instrumentation_fs : bool;
  instrumentation_dns : bool
}.

(** The object handed to [new NodeSDK(...)]. *)
Record NodeSDKConfiguration : Type := {
  sdk_resource : Attributes;
  sdk_sampler : option Sampler;
  sdk_spanProcessors : list Processor;
  sdk_metricReader : MetricReader;
  sdk_logRecordProcessors : list Processor;
  sdk_instrumentations : Instrumentations
}.

Definition no_buffer_config : BufferConfig :=
  {| buf_scheduledDelayMillis := None;
     buf_maxExportBatchSize := None;
     buf_maxQueueSize := None |}.

(** [initTelemetry] reads the configuration object and [HOSTNAME]; its
    console messages and the SIGTERM hook are left out. *)
Definition initTelemetry (cfg : TelemetryConfig) (env : ProcessEnv)
  : NodeSDKConfiguration :=
  let resource :=
    [ ("service.name", VStr (serviceName cfg));
      ("service.version", VStr (serviceVersion cfg));
      ("deployment.environment", VStr (environment cfg));
      ("host.name", VStr (env_or (HOSTNAME env) "localhost")) ] in
  let traceExporter := OTLPTraceExporter (tracesEndpoint (otlp cfg)) in
  let spanProcessors :=
    ((if otlpExporter (features cfg) then
        [ BatchSpanProcessor traceExporter
            {| buf_scheduledDelayMillis :=
                 Some (scheduledDelayMillis (batch cfg));
               buf_maxExportBatchSize := Some (maxExportBatchSize (batch cfg));
               buf_maxQueueSize := Some (maxQueueSize (batch cfg)) |} ]
      else [])
     ++ (if consoleExporter (features cfg) then
           [ SimpleSpanProcessor ConsoleSpanExporter ]
         else []))%list in
  let metricReader :=
    {| reader_exporter := OTLPMetricExporter (metricsEndpoint (otlp cfg));
       exportIntervalMillis := 10000 |} in
  let logProcessors :=
    ((if otlpExporter (features cfg) then
        [ BatchLogRecordProcessor (OTLPLogExporter (logsEndpoint (otlp cfg)))
            no_buffer_config ]
      else [])
     ++ (if consoleExporter (features cfg) then
           [ SimpleLogRecordProcessor ConsoleLogRecordExporter ]
         else []))%list in
  let instrumentations :=
    {| instrumentation_http := httpInstrumentation (features cfg);
       instrumentation_fs := false;
       instrumentation_dns := false |} in
  {| sdk_resource := resource;
     sdk_sampler := None;
     sdk_spanProcessors := spanProcessors;
     sdk_metricReader := metricReader;
     sdk_logRecordProcessors := logProcessors;
     sdk_instrumentations := instrumentations |}.

Definition with_ratio (r : Q) (cfg : TelemetryConfig) : TelemetryConfig :=
  {| serviceName := serviceName cfg;
     serviceVersion := serviceVersion cfg;
     environment := environment cfg;
     otlp := otlp cfg;
     sampling := {| ratio := r |};
     batch := batch cfg;
     features := features cfg |}.

(** Modelled from the spec: the sampling decision at span creation (the
    samplers belong to the OpenTelemetry SDK, which is not under src/).  A
    ratio sampler compares a uniform draw in [0, 1) against its ratio; a
    parent-based sampler gives a child its parent's decision and asks its
    root sampler only at the trace root. *)
Fixpoint shouldSample (s : Sampler) (parent : option bool) (draw : Q) : bool :=
  match s with
  | AlwaysOnSampler => true
  | AlwaysOffSampler => false
  | TraceIdRatioBasedSampler r => negb (Qle_bool r draw)
  | ParentBasedSampler root =>
      match parent with
      | Some sampled => sampled
      | None => shouldSample root None draw
      end
  end.

(** The sampler of the tracer provider a [NodeSDK] registers: the one its
    configuration names, else the SDK's own default. *)
Definition tracer_sampler (sdk_default : Sampler) (c : NodeSDKConfiguration)
  : Sampler :=
  match sdk_sampler c with
  | Some s => s
  | None => sdk_default
  end.

Definition span_sampled (sdk_default : Sampler) (c : NodeSDKConfiguration)
  (parent : option bool) (draw : Q) : bool :=
  shouldSample (tracer_sampler sdk_default c) parent draw.

(** What the claim on sampling says of a trace root: sampled exactly when
    the draw is below the configured ratio. *)
Definition ratio_decides_root (sdk_default : Sampler) (env : ProcessEnv)
  : Prop :=
  forall draw : Q,
    span_sampled sdk_default (initTelemetry (TELEMETRY_CONFIG env) env)
      None draw
    = negb (Qle_bool (ratio (sampling (TELEMETRY_CONFIG env))) draw).

(** ** Export queue *)

Module ExportQueue.

(** Modelled from the spec: the bounded queue of a batching processor
    (section 3, ExportBatch, and section 4.5, Batched).  The queue itself
    is the SDK's [BatchSpanProcessor] / [BatchLogRecordProcessor], which the
    repository only constructs.  [pending] holds the closed items that
    await transmission, [exported] the batches handed to the sink so far,
    oldest first, [dropped] counts the items lost to overflow and
    [lastFlush] is the time of the last flush. *)
Record t (A : Type) : Type := {
  pending : list A;
  exported : list (list A);
  dropped : nat;
  lastFlush : Z;
  maxQueueSize : nat;
  maxExportBatchSize : nat;
  scheduledDelayMillis : Z
}.

Arguments pending {A} _.
Arguments exported {A} _.
Arguments dropped {A} _.
Arguments lastFlush {A} _.
Arguments maxQueueSize {A} _.
Arguments maxExportBatchSize {A} _.
Arguments scheduledDelayMillis {A} _.


(** Modelled from the spec: one export call, with at most
    [maxExportBatchSize] of the pending items, oldest first; nothing is
    exported when nothing is pending. *)
Definition export {A} (now : Z) (q : t A) : t A :=
  match pending q with
  | [] => q
  | _ :: _ =>
      {| pending := skipn (maxExportBatchSize q) (pending q);
         exported :=
           (exported q ++ [ firstn (maxExportBatchSize q) (pending q) ])%list;
         dropped := dropped q;
         lastFlush := now;
         maxQueueSize := maxQueueSize q;
         maxExportBatchSize := maxExportBatchSize q;
         scheduledDelayMillis := scheduledDelayMillis q |}
  end.

(** Modelled from the spec: an item closes at time [now].  Beyond
    [maxQueueSize] the new item is dropped, the queue is not grown and the
    producer is not blocked; otherwise the item is queued, and a flush
    follows at once when [maxExportBatchSize] items are queued. *)
Definition enqueue {A} (now : Z) (x : A) (q : t A) : t A :=
  if Nat.ltb (List.length (pending q)) (maxQueueSize q) then
    let q1 := {| pending := (pending q ++ [x])%list;
                 exported := exported q;
                 dropped := dropped q;
                 lastFlush := lastFlush q;
                 maxQueueSize := maxQueueSize q;
                 maxExportBatchSize := maxExportBatchSize q;
                 scheduledDelayMillis := scheduledDelayMillis q |} in
    if Nat.leb (maxExportBatchSize q) (List.length (pending q1))
    then export now q1 else q1
  else
    {| pending := pending q;
       exported := exported q;
       dropped := S (dropped q);
       lastFlush := lastFlush q;
       maxQueueSize := maxQueueSize q;
       maxExportBatchSize := maxExportBatchSize q;
       scheduledDelayMillis := scheduledDelayMillis q |}.

(** Modelled from the spec: the processor's timer looks at the queue at
    time [now], and flushes when [scheduledDelayMillis] has elapsed since
    the last flush. *)
Definition tick {A} (now : Z) (q : t A) : t A :=
  if lastFlush q + scheduledDelayMillis q <=? now then export now q else q.



(** Modelled from the spec: what happens to a queue, an item closes or the
    timer fires. *)
Inductive Input (A : Type) : Type :=
| Closed (now : Z) (x : A)
| Timer (now : Z).

Arguments Closed {A} _ _.
Arguments Timer {A} _.

(** Modelled from the spec: the queue after one input. *)
Definition step {A} (q : t A) (i : Input A) : t A :=
  match i with
  | Closed now x => enqueue now x q
  | Timer now => tick now q
  end.

(** Modelled from the spec: the queue after the inputs, in order. *)
Definition run {A} (inputs : list (Input A)) (q : t A) : t A :=
  fold_left step inputs q.




End ExportQueue.


(** ** Reading the journal *)

Definition same_span (a b : Span) : bool :=
  Nat.eqb (span_handle a) (span_handle b).

(** The calls made on span [s], oldest first. *)
Fixpoint calls_on (s : Span) (j : list Effect) : list SpanCall :=
  match j with
  | [] => []
  | SpanCalled s' c :: rest =>
      if same_span s' s then c :: calls_on s rest else calls_on s rest
  | _ :: rest => calls_on s rest
  end.

Definition is_end (c : SpanCall) : bool :=
  match c with
  | CallEnd => true
  | _ => false
  end.

(** How many times [end()] was called on [s]. *)
Definition end_count (s : Span) (j : list Effect) : nat :=
  List.length (filter is_end (calls_on s j)).

(** Modelled from the spec: the span record of section 3 and its state
    machine open -> closed of section 4.2 (the span class belongs to the
    OpenTelemetry SDK).  Attributes are last-write-wins, a closed span is
    immutable and a second [end()] is a no-op. *)
Record SpanState : Type := {
  st_status : SpanStatus;
  st_attributes : Attributes;
  st_exceptions : list value;
  st_events : list string;
  st_closed : bool
}.

Definition unset_status : SpanStatus :=
  {| code := UNSET; message := VUndefined |}.

Definition open_span : SpanState :=
  {| st_status := unset_status;
     st_attributes := [];
     st_exceptions := [];
     st_events := [];
     st_closed := false |}.

(** Modelled from the spec: the effect of one call on a span; calls on a
    closed span change nothing. *)
Definition apply_call (st : SpanState) (c : SpanCall) : SpanState :=
  if st_closed st then st
  else
    match c with
    | CallSetAttribute k v =>
        {| st_status := st_status st;
           st_attributes := obj_set k v (st_attributes st);
           st_exceptions := st_exceptions st;
           st_events := st_events st;
           st_closed := false |}
    | CallSetAttributes attrs =>
        {| st_status := st_status st;
           st_attributes := obj_spread (st_attributes st) attrs;
           st_exceptions := st_exceptions st;
           st_events := st_events st;
           st_closed := false |}
    | CallAddEvent name _ =>
        {| st_status := st_status st;
           st_attributes := st_attributes st;
           st_exceptions := st_exceptions st;
           st_events := (st_events st ++ [name])%list;
           st_closed := false |}
    | CallRecordException e =>
        {| st_status := st_status st;
           st_attributes := st_attributes st;
           st_exceptions := (st_exceptions st ++ [e])%list;
           st_events := st_events st;
           st_closed := false |}
    | CallSetStatus status =>
        {| st_status := status;
           st_attributes := st_attributes st;
           st_exceptions := st_exceptions st;
           st_events := st_events st;
           st_closed := false |}
    | CallEnd =>
        {| st_status := st_status st;
           st_attributes := st_attributes st;
           st_exceptions := st_exceptions st;
           st_events := st_events st;
           st_closed := true |}
    end.

(** Modelled from the spec: the state of span [s] after the calls the
    journal holds for it. *)
Definition span_state (s : Span) (j : list Effect) : SpanState :=
  fold_left apply_call (calls_on s j) open_span.

(** The records handed to pino, oldest first. *)
Fixpoint pino_records (j : list Effect)
  : list (LogLevel * Attributes * string) :=
  match j with
  | [] => []
  | PinoLogged _ level obj msg :: rest => (level, obj, msg) :: pino_records rest
  | _ :: rest => pino_records rest
  end.

(** The measurements recorded on the instrument called [name]. *)
Fixpoint samples (name : string) (j : list Effect)
  : list (value * option Attributes) :=
  match j with
  | [] => []
  | Measured i v attrs :: rest =>
      if String.eqb (inst_name i) name then (v, attrs) :: samples name rest
      else samples name rest
  | _ :: rest => samples name rest
  end.

Definition sample_delta (x : value * option Attributes) : Z :=
  match fst x with
  | VNum n => n
  | _ => 0
  end.

Definition tagged (key expected : string) (x : value * option Attributes)
  : bool :=
  match snd x with
  | Some attrs => js_is (obj_get key attrs) expected
  | None => false
  end.

(** The value of the active-requests up-down counter for a route. *)
Definition active_requests (route : string) (j : list Effect) : Z :=
  fold_left Z.add
    (map sample_delta
       (filter (tagged "http.route" route)
          (samples METRIC_NAMES.HTTP_ACTIVE_REQUESTS j)))
    0.

(** The span calls a scoped run ([traceSync], [traceAsync]) makes after
    its callback completed with [r]. *)
Definition scoped_calls {T} (r : Completion T) : list SpanCall :=
  match r with
  | Normal _ => [ CallSetStatus {| code := OK; message := VUndefined |};
                  CallEnd ]
  | Throw (VError name msg stack) =>
      [ CallRecordException (VError name msg stack);
        CallSetStatus {| code := ERROR; message := VStr msg |};
        CallEnd ]
  | Throw _ => [ CallEnd ]
  end.

(** [n] zero digits. *)
Fixpoint zeros (n : nat) : string :=
  match n with
  | O => ""
  | S m => String "0"%char (zeros m)
  end.

(** The context a log record is stamped with in world [w]. *)
Definition current_context (w : World) : SpanContext :=
  match activeSpan w with
  | Some s => spanContext s
  | None => zero_context
  end.

(** ** Sample inputs *)

Definition sample_provider : TracerProvider :=
  {| newSpanContext := fun parent n =>
       {| traceId := match parent with
                     | Some p => traceId p
                     | None => "trace-" ++ string_of_nat n
                     end;
          spanId := "span-" ++ string_of_nat n;
          traceFlags := match parent with
                        | Some p => traceFlags p
                        | None => 1
                        end |} |}.

Definition empty_env : ProcessEnv :=
  {| OTEL_SERVICE_NAME := None; npm_package_version := None;
     NODE_ENV := None;
     OTEL_EXPORTER_OTLP_TRACES_ENDPOINT := None;
     OTEL_EXPORTER_OTLP_METRICS_ENDPOINT := None;
     OTEL_EXPORTER_OTLP_LOGS_ENDPOINT := None;
     LOG_LEVEL := None; HOSTNAME := None |}.

Definition production_env : ProcessEnv :=
  {| OTEL_SERVICE_NAME := None; npm_package_version := None;
     NODE_ENV := Some "production";
     OTEL_EXPORTER_OTLP_TRACES_ENDPOINT := None;
     OTEL_EXPORTER_OTLP_METRICS_ENDPOINT := None;
     OTEL_EXPORTER_OTLP_LOGS_ENDPOINT := None;
     LOG_LEVEL := None; HOSTNAME := None |}.

(** The world when the modules have just been loaded. *)
Definition initial_world (p : TracerProvider) (env : ProcessEnv) : World :=
  {| journal := []; activeSpan := None; spansCreated := 0;
     provider := p; now := 0; config := TELEMETRY_CONFIG env;
     httpRequestCounter := None; httpRequestDuration := None;
     httpActiveRequests := None; httpErrorCounter := None |}.

Definition sample_world : World := initial_world sample_provider empty_env.

Definition sample_request (path : string) (b : option value) : NextRequest :=
  {| method := "POST";
     url := "http://localhost:3000" ++ path;
     pathname := path;
     headers := [ ("user-agent", "sample-agent") ];
     body := b |}.

Definition sample_options : TelemetryOptions :=
  {| name := "GET /api/sample";
     skipPaths := Some [ "/api/health" ];
     customAttributes := None |}.

Definition respond (s : Z) : ApiHandler :=
  fun _ _ => ret {| status := s; payload := VNull |}.

Definition reject (e : value) : ApiHandler :=
  fun _ _ => throw e.

(** ** Reading the ingestion route's journal *)

(** How many events the route counted on [client.events.received]. *)
Definition events_counted (j : list Effect) : nat :=
  List.length (samples "client.events.received" j).

(** The events the route's processors take without throwing: an object
    with a string [name] and an object [properties] and, when it is a metric
    event called [web_vital_...], a rating and a page ([properties.good],
    [properties.url || '']) that convert to a string. *)
Definition event_shape_ok (e : value) : bool :=
  match e with
  | VObj fields =>
      match obj_get "name" fields, obj_get "properties" fields with
      | VStr s, VObj props =>
          if js_is (obj_get "type" fields) "metric"
             && String.prefix "web_vital_" s
          then stringable (obj_get "good" props)
               && stringable (js_or (obj_get "url" props) (VStr ""))
          else true
      | _, _ => false
      end
  | _ => false
  end.

Definition success_response (processed : Z) : NextResponse :=
  NextResponse_json
    (VObj [ ("success", VBool true); ("processed", VNum processed) ]).

(** ** The world a wrapped handler starts in *)

(** The world after the wrapper counted the request as active and logged
    it, the server span it then creates, and the world in which the handler
    starts. *)
Definition request_prelude_world (request : NextRequest) (w : World) : World :=
  snd ((incrementActiveRequests
          (Some [ ("http.route", VStr (pathname request)) ]) ;;
        logHttpRequest (request_log request)) w).

Definition request_span (request : NextRequest) (w : World) : Span :=
  new_span (request_prelude_world request w).

Definition request_entry (options : TelemetryOptions) (request : NextRequest)
  (context : option RouteContext) (w : World) : World :=
  span_entry (serviceName (config w)) (name options)
    (server_span_options options request context)
    (request_prelude_world request w).

(** ** Steps of a run *)

(** From [w] to [w'] the effects [ext] were appended to the journal, and
    the tracing context, the clock and the configuration are as before. *)
Definition stepped (w w' : World) (ext : list Effect) : Prop :=
  journal w' = (journal w ++ ext)%list /\
  activeSpan w' = activeSpan w /\
  spansCreated w' = spansCreated w /\
  provider w' = provider w /\
  now w' = now w /\
  config w' = config w.

Definition only_measured (ext : list Effect) : bool :=
  forallb (fun e => match e with
                    | Measured _ _ _ => true
                    | _ => false
                    end) ext.

(** ** The instrument caches *)

Definition named (name : string) (cached : option Instrument) : bool :=
  match cached with
  | Some i => String.eqb (inst_name i) name
  | None => true
  end.

(** Each module-level instrument variable is [null] or holds the instrument
    of its own getter: they are assigned nowhere else. *)
Definition caches_ok (w : World) : bool :=
  named METRIC_NAMES.HTTP_REQUEST_COUNT (httpRequestCounter w)
  && named METRIC_NAMES.HTTP_REQUEST_DURATION (httpRequestDuration w)
  && named METRIC_NAMES.HTTP_ACTIVE_REQUESTS (httpActiveRequests w)
  && named METRIC_NAMES.HTTP_ERROR_COUNT (httpErrorCounter w).

(** The record [logHttpRequest] hands to pino for the sample request on
    [/api/users] when no span is active. *)
Definition obj_of_request_log : Attributes :=
  [ ("http", VObj [ ("method", VStr "POST");
                    ("url", VStr "http://localhost:3000/api/users");
                    ("userAgent", VStr "sample-agent");
                    ("ip", VUndefined) ]);
    ("trace_id", VStr "00000000000000000000000000000000");
    ("span_id", VStr "0000000000000000") ].

Definition any {A : Type} : A -> Prop := fun _ => True.


Definition click_trace : value :=
  VObj [ ("name", VStr "click"); ("timestamp", VNum 2);
         ("properties", VObj [ ("target", VStr "button") ]);
         ("type", VStr "trace") ].

Definition web_vital_metric : value :=
  VObj [ ("name", VStr "web_vital_LCP"); ("timestamp", VNum 3);
         ("properties", VObj [ ("value", VNum 1200); ("good", VBool true);
                               ("url", VStr "/") ]);
         ("type", VStr "metric") ].


Definition batch_of (events : list value) : value :=
  VObj [ ("events", VArr events) ].

(** ** The steps of a run *)

(** An effect without the identity of its span, the description of its
    instrument and the bindings and the object of its log record. *)
Inductive Step : Type :=
| Started (name : string)
| Called (c : SpanCall)
| Sampled (instrument : string) (v : value) (attrs : option Attributes)
| Logged (level : LogLevel) (msg : string)
| Emitted (severityText text : string).

Definition step_of (e : Effect) : Step :=
  match e with
  | SpanStarted _ _ name _ _ => Started name
  | SpanCalled _ c => Called c
  | Measured i v attrs => Sampled (inst_name i) v attrs
  | PinoLogged _ level _ msg => Logged level msg
  | OtelLogEmitted _ _ severityText text _ => Emitted severityText text
  end.

Definition steps (j : list Effect) : list Step := map step_of j.

(** [c] completes normally in every world, with a result that satisfies
    [P]; it adds the steps [o] to the journal, nothing else, and leaves the
    active span as it was. *)
Definition performs {A : Type} (P : A -> Prop) (o : list Step) (c : M A)
  : Prop :=
  forall w : World,
    exists (a : A) (w' : World),
      c w = (Normal a, w') /\
      P a /\
      steps (journal w') = (steps (journal w) ++ o)%list /\
      activeSpan w' = activeSpan w.

(** The events counted among some steps. *)
Definition is_event_count (st : Step) : bool :=
  match st with
  | Sampled name _ _ => String.eqb name "client.events.received"
  | _ => false
  end.

Definition counted_in (o : list Step) : nat :=
  List.length (filter is_event_count o).

(** The steps of a processing span around [body]. *)
Definition in_span (name : string) (body : list Step) : list Step :=
  (Started name :: body
   ++ [ Called (CallSetStatus {| code := OK; message := VUndefined |});
        Called CallEnd ])%list.

(** The steps the ingestion route takes for one event of the shape above:
    it counts the event under its type and name and, for the three known
    types, processes it in a span of its own. *)
Definition event_steps (e : value) : list Step :=
  match e with
  | VObj fields =>
      let ty := obj_get "type" fields in
      let name := obj_get "name" fields in
      let props := match obj_get "properties" fields with
                   | VObj p => p
                   | _ => []
                   end in
      Sampled "client.events.received" (VNum 1)
        (Some [ ("event.type", ty); ("event.name", name) ])
      :: (if js_is ty "metric" then
            in_span "process.client.metric"
              ((if String.prefix "web_vital_" (string_of_value name) then
                  let vitalName :=
                    drop_prefix "web_vital_" (string_of_value name) in
                  [ Sampled "client.web_vitals" (obj_get "value" props)
                      (Some [ ("vital.name", VStr vitalName);
                              ("vital.good",
                               VStr (string_of_value (obj_get "good" props)));
                              ("page.url",
                               VStr (string_of_value
                                       (js_or (obj_get "url" props)
                                          (VStr "")))) ]);
                    Logged info ("Web Vital: " ++ vitalName) ]
                else [])
               ++ (if js_is name "navigation_timing"
                   then [ Logged info "Navigation timing received" ]
                   else [])
               ++ (if js_is name "component_render"
                      && truthy (obj_get "slow" props)
                   then [ Logged warn "Slow component render detected" ]
                   else []))%list
          else if js_is ty "trace" then
            in_span "process.client.trace"
              [ Logged info ("Client event: " ++ string_of_value name) ]
          else if js_is ty "log" then
            in_span "process.client.log"
              (if js_is name "client_error"
               then [ Logged error "Client-side error reported" ]
               else [])
          else [])
  | _ => []
  end.

(** ** What the request wrapper hands back *)

(** The completion [withTelemetry] gives its caller when the handler
    completed with [r]: a thrown value without properties ([null],
    [undefined]) is replaced by the TypeError of the [catch] block's own
    [err.message]. *)
Definition wrapper_completion {A : Type} (r : Completion A) : Completion A :=
  match r with
  | Normal a => Normal a
  | Throw e =>
      match js_prop e "message" with
      | Some _ => Throw e
      | None =>
          Throw (TypeError ("Cannot read properties of " ++ string_of_value e
                             ++ " (reading 'message')"))
      end
  end.

(** The calls the wrapper makes on its server span after the handler
    completed with [r]. *)
Definition wrapper_calls (r : Completion NextResponse) : list SpanCall :=
  match r with
  | Normal response =>
      [ CallSetAttribute "http.status_code" (VNum (status response));
        CallSetStatus
          (if status response >=? 400
           then {| code := ERROR;
                   message :=
                     VStr ("HTTP " ++ string_of_Z (status response)) |}
           else {| code := OK; message := VUndefined |});
        CallEnd ]
  | Throw e =>
      match js_prop e "message" with
      | Some m =>
          [ CallRecordException e;
            CallSetStatus {| code := ERROR; message := m |};
            CallEnd ]
      | None => [ CallRecordException e; CallEnd ]
      end
  end.

(** The status code the wrapper reports to [recordHttpRequest], if it gets
    that far. *)
Definition wrapper_reported_status (r : Completion NextResponse) : option Z :=
  match r with
  | Normal response => Some (status response)
  | Throw e =>
      match js_prop e "message" with
      | Some _ => Some 500
      | None => None
      end
  end.

Definition status_codes (l : list (value * option Attributes)) : list value :=
  map (fun x => match snd x with
                | Some attrs => obj_get "http.status_code" attrs
                | None => VUndefined
                end) l.

(** The levels of a list of pino records. *)
Definition levels (l : list (LogLevel * Attributes * string))
  : list LogLevel :=
  map (fun x => fst (fst x)) l.

(** ** Database spans ([tracer.ts]) *)

(** The argument of [traceDbOperation]; [statement] and [dbSystem] may be
    left out, and [dbSystem] then defaults to ['postgresql']. *)
Record DbOperation (T : Type) : Type := {
  db_operation : string;
  db_table : string;
  db_statement : option string;
  db_dbSystem : option string;
  db_fn : M T
}.

Arguments db_operation {T} d.
Arguments db_table {T} d.
Arguments db_statement {T} d.
Arguments db_dbSystem {T} d.
Arguments db_fn {T} d.

(** [statement && { 'db.statement': statement }] *)
Definition statement_attribute (statement : option string) : value :=
  match statement with
  | Some st =>
      if truthy (VStr st)
      then VObj [ (SEMANTIC_ATTRIBUTES.DB_STATEMENT, VStr st) ]
      else VStr st
  | None => VUndefined
  end.

Definition traceDbOperation {T} (d : DbOperation T) : M T :=
  traceAsync ("db." ++ db_operation d) (db_fn d)
    (Some
       {| opt_kind := Some CLIENT;
          opt_attributes :=
            Some (obj_spread
                    [ (SEMANTIC_ATTRIBUTES.DB_SYSTEM,
                       VStr (match db_dbSystem d with
                             | Some system => system
                             | None => "postgresql"
                             end));
                      (SEMANTIC_ATTRIBUTES.DB_OPERATION,
                       VStr (db_operation d));
                      ("db.sql.table", VStr (db_table d)) ]
                    (own_properties (statement_attribute (db_statement d))))
       |}).

(** The spans started, oldest first: the span, its name, its options and
    the span that was active when it was started. *)
Fixpoint spans_started (j : list Effect)
  : list (Span * string * SpanOptions * option Span) :=
  match j with
  | [] => []
  | SpanStarted _ s name o parent :: rest =>
      (s, name, o, parent) :: spans_started rest
  | _ :: rest => spans_started rest
  end.

(** ** Domain loggers ([logger.ts]) *)

(** An optional field of an object literal: [undefined] when left out. *)
Definition optional_string (x : option string) : value :=
  match x with
  | Some s => VStr s
  | None => VUndefined
  end.

Definition optional_number (x : option Z) : value :=
  match x with
  | Some n => VNum n
  | None => VUndefined
  end.

Record DatabaseQueryLog : Type := {
  q_operation : string;
  q_table : string;
  q_duration : Z;
  q_rowCount : option Z;
  q_query : option string
}.

Definition slowQueryThreshold : Z := 100.

Definition logDatabaseQuery (query : DatabaseQueryLog) : M unit :=
  if q_duration query >? slowQueryThreshold then
    l <- logger ;;
    Logger_warn l
      (LogContext
         [ ("db", VObj [ ("operation", VStr (q_operation query));
                         ("table", VStr (q_table query));
                         ("duration",
                          VStr (toFixed2 (q_duration query) ++ "ms"));
                         ("rowCount", optional_number (q_rowCount query));
                         ("slow", VBool true) ]) ]
         (Some "Slow database query detected"))
  else
    l <- logger ;;
    Logger_debug l
      (LogContext
         [ ("db", VObj [ ("operation", VStr (q_operation query));
                         ("table", VStr (q_table query));
                         ("duration",
                          VStr (toFixed2 (q_duration query) ++ "ms"));
                         ("rowCount", optional_number (q_rowCount query)) ]) ]
         (Some "Database query executed")).

Record BusinessEvent : Type := {
  be_name : string;
  be_userId : option string;
  be_properties : option Attributes
}.

Definition logBusinessEvent (event : BusinessEvent) : M unit :=
  l <- logger ;;
  Logger_info l
    (LogContext
       [ ("event",
          VObj (obj_spread
                  [ ("name", VStr (be_name event));
                    ("userId", optional_string (be_userId event)) ]
                  (own_properties
                     (match be_properties event with
                      | Some p => VObj p
                      | None => VUndefined
                      end)))) ]
       (Some ("Business event: " ++ be_name event))).

Record SecurityEvent : Type := {
  se_action : string;
  se_userId : option string;
  se_success : bool;
  se_reason : option string;
  se_ip : option string
}.

Definition logSecurityEvent (event : SecurityEvent) : M unit :=
  let level := if se_success event then info else warn in
  l <- logger ;;
  Logger_log level l
    (LogContext
       [ ("security",
          VObj [ ("action", VStr (se_action event));
                 ("userId", optional_string (se_userId event));
                 ("success", VBool (se_success event));
                 ("reason", optional_string (se_reason event));
                 ("ip", optional_string (se_ip event)) ]) ]
       (Some ("Security event: " ++ se_action event))).

(** The keys of an object, and whether it is one a literal can build: no
    key twice. *)
Definition keys (o : Attributes) : list string := map fst o.

Definition has_key (k : string) (o : Attributes) : bool :=
  existsb (String.eqb k) (keys o).

(** ** Timed runs ([metrics.ts]) *)

(** The [withMetrics] of [metrics.ts], which times a function call; the
    request wrapper of the same name is [withMetrics] above. *)
Module metrics.

Definition withMetrics {T} (fn : M T) (histogram : Instrument)
  (attributes : option Attributes) : M T :=
  timer <- startTimer ;;
  try_finally fn
    (d <- timer_end timer ;;
     instrument_record histogram (VNum d) attributes).

End metrics.

(** ** Reading the ingestion route's log records *)

Definition messages (l : list (LogLevel * Attributes * string))
  : list string :=
  map snd l.

(** ** Requests the HTTP instrumentation ignores ([init.ts]) *)

(** [s.includes(part)] *)
Definition js_includes (s part : string) : bool :=
  match String.index 0 part s with
  | Some _ => true
  | None => false
  end.

(** The [ignoreIncomingRequestHook] that [initTelemetry] gives the HTTP
    instrumentation; [request.url] may be absent. *)
Definition ignoreIncomingRequestHook (request_url : option string) : bool :=
  let url := env_or request_url "" in
  js_includes url "/health" || js_includes url "/ready"
  || js_includes url "/_next".

(** ** The users API ([app/api/users/route.ts]) *)

Module users.

Definition userApiCalls : M Instrument :=
  createCounter "api.users.calls" "Number of calls to the users API" None.

Record User : Type := {
  user_id : string;
  user_name : string;
  user_email : string;
  user_role : string;
  user_createdAt : string
}.

Definition MOCK_USERS : list User :=
  [ {| user_id := "1"; user_name := "Alice Johnson";
       user_email := "alice@example.com"; user_role := "admin";
       user_createdAt := "2024-01-15" |};
    {| user_id := "2"; user_name := "Bob Smith";
       user_email := "bob@example.com"; user_role := "user";
       user_createdAt := "2024-02-20" |};
    {| user_id := "3"; user_name := "Carol Williams";
       user_email := "carol@example.com"; user_role := "user";
       user_createdAt := "2024-03-10" |};
    {| user_id := "4"; user_name := "David Brown";
       user_email := "david@example.com"; user_role := "moderator";
       user_createdAt := "2024-04-05" |};
    {| user_id := "5"; user_name := "Eve Davis";
       user_email := "eve@example.com"; user_role := "user";
       user_createdAt := "2024-05-12" |} ].

Definition with_now (t : Z) (w : World) : World :=
  {| journal := journal w; activeSpan := activeSpan w;
     spansCreated := spansCreated w; provider := provider w; now := t;
     config := config w;
     httpRequestCounter := httpRequestCounter w;
     httpRequestDuration := httpRequestDuration w;
     httpActiveRequests := httpActiveRequests w;
     httpErrorCounter := httpErrorCounter w |}.

(** [await new Promise(resolve => setTimeout(resolve, ms))], with a timer
    that fires on time. *)
Definition sleep (ms : Z) : M unit :=
  fun w => (Normal tt, with_now (now w + ms) w).

(** [filters?.role && { 'db.filter.role': filters.role }] *)
Definition role_attribute (role : option string) : value :=
  match role with
  | Some r => if truthy (VStr r) then VObj [ ("db.filter.role", VStr r) ]
              else VStr r
  | None => VUndefined
  end.

(** [fetchUsersFromDatabase(filters)]; [latency] is the delay drawn with
    [Math.random()]. *)
Definition fetchUsersFromDatabase (latency : Z) (role : option string)
  : M (list User) :=
  traceAsync "db.users.findAll"
    (addSpanAttributes
       (obj_spread [ ("db.system", VStr "postgresql");
                     ("db.operation", VStr "SELECT");
                     ("db.sql.table", VStr "users") ]
          (own_properties (role_attribute role))) ;;
     sleep latency ;;
     addSpanEvent "query_completed"
       (Some [ ("db.rows_returned",
                VNum (Z.of_nat (List.length MOCK_USERS)));
               ("db.latency_ms", VNum latency) ]) ;;
     ret (match role with
          | Some r =>
              if truthy (VStr r)
              then filter (fun u => String.eqb (user_role u) r) MOCK_USERS
              else MOCK_USERS
          | None => MOCK_USERS
          end))
    (Some {| opt_kind := None;
             opt_attributes :=
               Some [ ("operation.type", VStr "database") ] |}).

(** [['name', 'email'].filter(f => !body[f]).join(',')] *)
Definition missing_fields (body : value) : M string :=
  nm <- js_get body "name" ;;
  em <- js_get body "email" ;;
  ret (string_join ","
         ((if truthy nm then [] else [ "name" ])
          ++ (if truthy em then [] else [ "email" ]))%list).

Definition json_response (code : Z) (data : value) : NextResponse :=
  {| status := code; payload := data |}.

(** [handleCreateUser(request)]; [latency] is the delay of the simulated
    write and [createdAt] is [new Date().toISOString()] at that moment. *)
Definition handleCreateUser (latency : Z) (createdAt : string) : ApiHandler :=
  fun request _ =>
    c <- userApiCalls ;;
    instrument_record c (VNum 1)
      (Some [ ("method", VStr "POST"); ("endpoint", VStr "/api/users") ]) ;;
    try_catch
      (body <- request_json request ;;
       nm <- js_get body "name" ;;
       invalid <- (if truthy nm
                   then em <- js_get body "email" ;; ret (negb (truthy em))
                   else ret true) ;;
       if (invalid : bool) then
         missing <- missing_fields body ;;
         addSpanEvent "validation_failed"
           (Some [ ("validation.missing_fields", VStr missing) ]) ;;
         ret (json_response 400
                (VObj [ ("success", VBool false);
                        ("error", VStr "Name and email are required") ]))
       else
         newUser <- traceAsync "db.users.insert"
                      (addSpanAttributes
                         [ ("db.system", VStr "postgresql");
                           ("db.operation", VStr "INSERT");
                           ("db.sql.table", VStr "users") ] ;;
                       sleep latency ;;
                       id <- js_String
                               (VNum (Z.of_nat (List.length MOCK_USERS) + 1)) ;;
                       nm' <- js_get body "name" ;;
                       em' <- js_get body "email" ;;
                       ret (VObj
                              [ ("id", VStr id);
                                ("name", nm');
                                ("email", em');
                                ("role", VStr "user");
                                ("createdAt", VStr createdAt) ]))
                      None ;;
         uid <- js_get newUser "id" ;;
         role <- js_get newUser "role" ;;
         logBusinessEvent
           {| be_name := "user_created"; be_userId := None;
              be_properties := Some [ ("userId", uid); ("role", role) ] |} ;;
         uid' <- js_get newUser "id" ;;
         role' <- js_get newUser "role" ;;
         addSpanEvent "user_created"
           (Some [ ("user.id", uid'); ("user.role", role') ]) ;;
         ret (json_response 201
                (VObj [ ("success", VBool true); ("data", newUser) ])))
      (fun err =>
         recordException err (Some "Failed to create user") ;;
         l <- logger ;;
         m <- js_get err "message" ;;
         Logger_error l
           (LogContext [ ("error", m) ] (Some "Failed to create user")) ;;
         m' <- js_get err "message" ;;
         emitOtelLog error "Failed to create user" (Some [ ("error", m') ]) ;;
         ret (json_response 500
                (VObj [ ("success", VBool false);
                        ("error", VStr "Failed to create user") ]))).

(** [export const POST = withTelemetry(handleCreateUser, ...)] *)
Definition POST (latency : Z) (createdAt : string) : ApiHandler :=
  withTelemetry (handleCreateUser latency createdAt)
    {| name := "POST /api/users";
       skipPaths := None;
       customAttributes := Some [ ("api.category", "users") ] |}.

End users.

(** What [handleCreateUser] answers for a request: 500 when the body is
    not JSON or is [null], 400 when [name] or [email] is missing or falsy,
    and else 201 with the new user. *)
Definition create_user_response (createdAt : string) (request : NextRequest)
  : NextResponse :=
  let failed :=
    users.json_response 500
      (VObj [ ("success", VBool false);
              ("error", VStr "Failed to create user") ]) in
  match body request with
  | Some b =>
      match js_prop b "name", js_prop b "email" with
      | Some nm, Some em =>
          if truthy nm && truthy em
          then users.json_response 201
                 (VObj [ ("success", VBool true);
                         ("data",
                          VObj [ ("id", VStr "6"); ("name", nm);
                                 ("email", em); ("role", VStr "user");
                                 ("createdAt", VStr createdAt) ]) ])
          else users.json_response 400
                 (VObj [ ("success", VBool false);
                         ("error", VStr "Name and email are required") ])
      | _, _ => failed
      end
  | None => failed
  end.

(** ** Client-side hooks ([hooks.ts]) *)

(** [JSON.parse(JSON.stringify(v))]: what arrives when [v] is sent as
    JSON.  A property whose value is [undefined] is left out, [undefined]
    inside an array becomes [null], and an Error has no enumerable property
    of its own. *)
Fixpoint JSON_roundtrip (v : value) : value :=
  match v with
  | VArr items =>
      VArr (map (fun x => match x with
                          | VUndefined => VNull
                          | _ => JSON_roundtrip x
                          end) items)
  | VObj fields =>
      VObj ((fix go (l : list (string * value)) : list (string * value) :=
               match l with
               | [] => []
               | (k, x) :: rest =>
                   match x with
                   | VUndefined => go rest
                   | _ => (k, JSON_roundtrip x) :: go rest
                   end
               end) fields)
  | VError _ _ _ => VObj []
  | _ => v
  end.

Module hooks.

Inductive EventType : Type := type_trace | type_metric | type_log.

Definition type_string (t : EventType) : string :=
  match t with
  | type_trace => "trace"
  | type_metric => "metric"
  | type_log => "log"
  end.

Record TelemetryEvent : Type := {
  ev_name : string;
  ev_timestamp : Z;
  ev_properties : Attributes;
  ev_type : EventType
}.

(** The event as a JavaScript object. *)
Definition event_value (e : TelemetryEvent) : value :=
  VObj [ ("name", VStr (ev_name e));
         ("timestamp", VNum (ev_timestamp e));
         ("properties", VObj (ev_properties e));
         ("type", VStr (type_string (ev_type e))) ].

(** A timer of the page: the handle [setTimeout] returned and the time it
    is due. *)
Record PageTimer : Type := {
  handle : nat;
  due : Z
}.

(** The module state of [hooks.ts] ([eventQueue], [flushTimeout]), the
    timers of the page that are still to fire, and the batches handed to
    [sendBeacon] or [fetch] for [/api/telemetry], oldest first. *)
Record Client : Type := {
  eventQueue : list TelemetryEvent;
  flushTimeout : option nat;
  timers : list PageTimer;
  nextHandle : nat;
  sent : list (list TelemetryEvent)
}.

Definition initial : Client :=
  {| eventQueue := []; flushTimeout := None; timers := []; nextHandle := 0;
     sent := [] |}.

(** The body [request.json()] gives the route for a batch: the parsed
    [JSON.stringify({ events })]. *)
Definition payload_body (events : list TelemetryEvent) : value :=
  JSON_roundtrip (VObj [ ("events", VArr (map event_value events)) ]).

Definition flushEvents (c : Client) : Client :=
  match eventQueue c with
  | [] => c
  | events =>
      {| eventQueue := [];
         flushTimeout := flushTimeout c;
         timers := timers c;
         nextHandle := nextHandle c;
         sent := (sent c ++ [ events ])%list |}
  end.

(** [clearTimeout(h)] *)
Definition clearTimeout (h : nat) (l : list PageTimer) : list PageTimer :=
  filter (fun tm => negb (Nat.eqb (handle tm) h)) l.

(** [queueEvent(event)] at time [t] of the page's clock. *)
Definition queueEvent (t : Z) (event : TelemetryEvent) (c : Client)
  : Client :=
  let pending := match flushTimeout c with
                 | Some h => clearTimeout h (timers c)
                 | None => timers c
                 end in
  {| eventQueue := (eventQueue c ++ [ event ])%list;
     flushTimeout := Some (nextHandle c);
     timers := (pending ++ [ {| handle := nextHandle c;
                                due := t + 1000 |} ])%list;
     nextHandle := S (nextHandle c);
     sent := sent c |}.

(** The page's clock reaches [t]: every timer that is due fires, and each
    one runs [flushEvents]. *)
Definition tick (t : Z) (c : Client) : Client :=
  let ready := filter (fun tm => due tm <=? t) (timers c) in
  let waiting := filter (fun tm => negb (due tm <=? t)) (timers c) in
  fold_left (fun c' _ => flushEvents c') ready
    {| eventQueue := eventQueue c;
       flushTimeout := flushTimeout c;
       timers := waiting;
       nextHandle := nextHandle c;
       sent := sent c |}.

(** What can happen on the page: a hook queues an event, time passes, the
    page is hidden or unloaded (both listeners call [flushEvents]). *)
Inductive Action : Type :=
| Queue (t : Z) (event : TelemetryEvent)
| Tick (t : Z)
| PageHidden.

Definition step (c : Client) (a : Action) : Client :=
  match a with
  | Queue t event => queueEvent t event c
  | Tick t => tick t c
  | PageHidden => flushEvents c
  end.

Definition run (actions : list Action) : Client :=
  fold_left step actions initial.

(** The events the actions queued, in order. *)
Definition queued (actions : list Action) : list TelemetryEvent :=
  flat_map (fun a => match a with
                     | Queue _ event => [ event ]
                     | _ => []
                     end) actions.

(** At most one timer is pending, it is the one [flushTimeout] names, and
    one is pending whenever an event waits in the queue; no batch sent was
    empty. *)
Definition client_ok (c : Client) : Prop :=
  (List.length (timers c) <= 1)%nat /\
  (forall tm, In tm (timers c) -> flushTimeout c = Some (handle tm)) /\
  (eventQueue c <> [] -> timers c <> []) /\
  Forall (fun batch => batch <> []) (sent c).

(** [useMeasureRender(componentName).end()]: [startTime] is the ref set by
    the first effect ([null] before it ran), [perf] is [performance.now()]
    and [t] is [Date.now()]; the result is the event queued, if any. *)
Definition measureRender_end (componentName : string) (startTime : option Z)
  (perf t : Z) : option TelemetryEvent :=
  match startTime with
  | None => None
  | Some start =>
      let duration := perf - start in
      if duration >? 16 then
        Some {| ev_name := "component_render";
                ev_timestamp := t;
                ev_properties :=
                  [ ("component", VStr componentName);
                    ("duration", VNum duration);
                    ("slow", VBool (duration >? 100)) ];
                ev_type := type_metric |}
      else None
  end.

(** What a hook reads from the page when it builds an event:
    [window.location], [document], [navigator], the window's size and
    [Date.now()]. *)
Record Browser : Type := {
  href : string;
  pathname : string;
  search : string;
  referrer : string;
  title : string;
  userAgent : string;
  innerWidth : Z;
  innerHeight : Z;
  date_now : Z
}.

(** The event [useTrackEvent()]'s [track(name, properties)] queues. *)
Definition track (b : Browser) (name : string) (properties : Attributes)
  : TelemetryEvent :=
  {| ev_name := name;
     ev_timestamp := date_now b;
     ev_properties :=
       obj_spread properties
         [ ("url", VStr (href b));
           ("pathname", VStr (pathname b));
           ("referrer", js_or (VStr (referrer b)) VUndefined);
           ("userAgent", VStr (userAgent b));
           ("screenWidth", VNum (innerWidth b));
           ("screenHeight", VNum (innerHeight b)) ];
     ev_type := type_trace |}.

(** The event [usePageView]'s effect queues. *)
Definition usePageView (b : Browser) : TelemetryEvent :=
  {| ev_name := "page_view";
     ev_timestamp := date_now b;
     ev_properties :=
       [ ("url", VStr (href b));
         ("pathname", VStr (pathname b));
         ("search", VStr (search b));
         ("referrer", js_or (VStr (referrer b)) VUndefined);
         ("title", VStr (title b)) ];
     ev_type := type_trace |}.

Record PerformanceNavigationTiming : Type := {
  startTime : Z;
  domainLookupStart : Z;
  domainLookupEnd : Z;
  connectStart : Z;
  connectEnd : Z;
  requestStart : Z;
  responseStart : Z;
  responseEnd : Z;
  domInteractive : Z;
  domContentLoadedEventStart : Z;
  domContentLoadedEventEnd : Z;
  loadEventStart : Z;
  loadEventEnd : Z
}.

(** [reportNavTiming] of [useWebVitals]; [navigation] is the first
    navigation entry of the page, if it has one. *)
Definition reportNavTiming (b : Browser)
  (navigation : option PerformanceNavigationTiming)
  : option TelemetryEvent :=
  match navigation with
  | Some n =>
      Some {| ev_name := "navigation_timing";
              ev_timestamp := date_now b;
              ev_properties :=
                [ ("dns", VNum (domainLookupEnd n - domainLookupStart n));
                  ("tcp", VNum (connectEnd n - connectStart n));
                  ("ttfb", VNum (responseStart n - requestStart n));
                  ("download", VNum (responseEnd n - responseStart n));
                  ("domParse", VNum (domInteractive n - responseEnd n));
                  ("domContentLoaded",
                   VNum (domContentLoadedEventEnd n
                         - domContentLoadedEventStart n));
                  ("load", VNum (loadEventEnd n - loadEventStart n));
                  ("total", VNum (loadEventEnd n - startTime n)) ];
              ev_type := type_metric |}
  | None => None
  end.

(** The event the largest-contentful-paint observer of [useWebVitals]
    queues; [lastEntryStartTime] is the start time of the last entry of the
    list it is called with. *)
Definition lcpObserver (b : Browser) (lastEntryStartTime : Z)
  : TelemetryEvent :=
  {| ev_name := "web_vital_lcp";
     ev_timestamp := date_now b;
     ev_properties :=
       [ ("value", VNum lastEntryStartTime);
         ("good", VBool (lastEntryStartTime <? 2500)) ];
     ev_type := type_metric |}.

(** [reportCLS] of [useWebVitals]; on a whole number, [clsValue < 0.1] is
    [clsValue < 1]. *)
Definition reportCLS (b : Browser) (clsValue : Z) : TelemetryEvent :=
  {| ev_name := "web_vital_cls";
     ev_timestamp := date_now b;
     ev_properties :=
       [ ("value", VNum clsValue); ("good", VBool (clsValue <? 1)) ];
     ev_type := type_metric |}.

(** The event [useErrorTracking(componentName)]'s
    [trackError(error, context)] queues, for an Error with the given name,
    message and stack. *)
Definition trackError (b : Browser) (componentName : string)
  (error_name error_message error_stack : string) (context : Attributes)
  : TelemetryEvent :=
  {| ev_name := "client_error";
     ev_timestamp := date_now b;
     ev_properties :=
       obj_spread
         (obj_spread
            [ ("component", VStr componentName);
              ("error", VObj [ ("message", VStr error_message);
                               ("name", VStr error_name);
                               ("stack", VStr error_stack) ]) ]
            context)
         [ ("url", VStr (href b)) ];
     ev_type := type_log |}.

(** The event the clean-up of [useTimeOnPage(pageName, properties)]'s
    effect queues; [start] is the [Date.now()] the effect stored.
    [Math.round(x / 1000)] is the floor of [(x + 500) / 1000]. *)
Definition useTimeOnPage (b : Browser) (pageName : string)
  (properties : Attributes) (start : Z) : TelemetryEvent :=
  let timeSpent := date_now b - start in
  {| ev_name := "time_on_page";
     ev_timestamp := date_now b;
     ev_properties :=
       obj_spread
         [ ("page", VStr pageName);
           ("duration", VNum timeSpent);
           ("durationSeconds", VNum ((timeSpent + 500) / 1000)) ]
         properties;
     ev_type := type_metric |}.

(** The places of [hooks.ts] that call [queueEvent], with what each one is
    given. *)
Inductive HookCall : Type :=
| Track (b : Browser) (name : string) (properties : Attributes)
| MeasureRenderEnd (componentName : string) (startTime : option Z)
    (perf t : Z)
| PageView (b : Browser)
| NavTiming (b : Browser) (navigation : option PerformanceNavigationTiming)
| LargestContentfulPaint (b : Browser) (lastEntryStartTime : Z)
| LayoutShift (b : Browser) (clsValue : Z)
| TrackError (b : Browser) (componentName : string)
    (error_name error_message error_stack : string) (context : Attributes)
| TimeOnPage (b : Browser) (pageName : string) (properties : Attributes)
    (start : Z).

(** The event a call queues, if it queues one. *)
Definition queued_by (c : HookCall) : option TelemetryEvent :=
  match c with
  | Track b name properties => Some (track b name properties)
  | MeasureRenderEnd componentName startTime perf t =>
      measureRender_end componentName startTime perf t
  | PageView b => Some (usePageView b)
  | NavTiming b navigation => reportNavTiming b navigation
  | LargestContentfulPaint b v => Some (lcpObserver b v)
  | LayoutShift b v => Some (reportCLS b v)
  | TrackError b componentName n m st context =>
      Some (trackError b componentName n m st context)
  | TimeOnPage b pageName properties start =>
      Some (useTimeOnPage b pageName properties start)
  end.

(** The events a list of calls queues, in order. *)
Definition hook_events (calls : list HookCall) : list TelemetryEvent :=
  flat_map (fun c => match queued_by c with
                     | Some e => [ e ]
                     | None => []
                     end) calls.

(** The event as the route receives it. *)
Definition received (e : TelemetryEvent) : value :=
  JSON_roundtrip (event_value e).

End hooks.

(** * Properties *)

(** ** Objects *)

Lemma obj_get_set_same (k : string) (v : value) (o : Attributes) :
  obj_get k (obj_set k v o) = v.
Proof.
  induction o as [| [k' v'] rest IH]; simpl.
  - now rewrite String.eqb_refl.
  - destruct (String.eqb k k') eqn:E; simpl.
    + now rewrite String.eqb_refl.
    + now rewrite E.
Qed.

Lemma obj_get_set_other (k k' : string) (v : value) (o : Attributes) :
  String.eqb k k' = false ->
  obj_get k (obj_set k' v o) = obj_get k o.
Proof.
  intros Hne.
  induction o as [| [k2 v2] rest IH]; simpl.
  - now rewrite Hne.
  - destruct (String.eqb k' k2) eqn:E; simpl.
    + apply String.eqb_eq in E. subst k2. now rewrite Hne.
    + now rewrite IH.
Qed.

(** ** The journal and the span state machine *)

Lemma calls_on_app (s : Span) (j1 j2 : list Effect) :
  calls_on s (j1 ++ j2) = (calls_on s j1 ++ calls_on s j2)%list.
Proof.
  induction j1 as [| e rest IH]; simpl; auto.
  destruct e; auto.
  destruct (same_span s0 s); simpl; now rewrite IH.
Qed.

Lemma calls_on_own (s : Span) (cs : list SpanCall) :
  calls_on s (map (SpanCalled s) cs) = cs.
Proof.
  induction cs as [| c rest IH]; simpl; auto.
  unfold same_span. rewrite Nat.eqb_refl. now rewrite IH.
Qed.

Lemma end_count_app (s : Span) (j1 j2 : list Effect) :
  end_count s (j1 ++ j2) = (end_count s j1 + end_count s j2)%nat.
Proof.
  unfold end_count.
  now rewrite calls_on_app, filter_app, length_app.
Qed.

Lemma span_state_app (s : Span) (j1 j2 : list Effect) :
  span_state s (j1 ++ j2)
  = fold_left apply_call (calls_on s j2) (span_state s j1).
Proof.
  unfold span_state. now rewrite calls_on_app, fold_left_app.
Qed.

Lemma closed_is_final (cs : list SpanCall) (st : SpanState) :
  st_closed st = true -> fold_left apply_call cs st = st.
Proof.
  intros Hc. induction cs as [| c rest IH]; simpl; auto.
  unfold apply_call at 2. rewrite Hc. exact IH.
Qed.

Lemma open_never_ended (cs : list SpanCall) (st : SpanState) :
  st_closed (fold_left apply_call cs st) = false ->
  filter is_end cs = [].
Proof.
  revert st.
  induction cs as [| c rest IH]; intros st Hopen; simpl in *; auto.
  destruct (st_closed st) eqn:Hst.
  - rewrite closed_is_final in Hopen.
    + unfold apply_call in Hopen. rewrite Hst in Hopen. congruence.
    + unfold apply_call. now rewrite Hst.
  - destruct c; simpl; try (apply (IH _ Hopen)).
    rewrite closed_is_final in Hopen.
    + unfold apply_call in Hopen. rewrite Hst in Hopen. simpl in Hopen.
      discriminate.
    + unfold apply_call. rewrite Hst. reflexivity.
Qed.

Lemma open_span_end_count (s : Span) (j : list Effect) :
  st_closed (span_state s j) = false -> end_count s j = 0%nat.
Proof.
  intros H. unfold end_count.
  now rewrite (open_never_ended _ _ H).
Qed.

(** ** Scoped runs *)

Lemma traceSync_run (T : Type) (spanName : string) (fn : M T)
  (options : option TraceOptions) (w w2 : World) (r : Completion T) :
  fn (span_entry (serviceName (config w)) spanName
        (trace_span_options options) w) = (r, w2) ->
  traceSync spanName fn options w
  = (r, with_activeSpan (activeSpan w)
          (with_journal
             (journal w2 ++ map (SpanCalled (new_span w)) (scoped_calls r))
             w2)).
Proof.
  intros H.
  cbv beta iota delta [traceSync bind getTracer get_config ret
                       startActiveSpan try_catch_finally env_or].
  rewrite H.
  destruct r as [v | e].
  - cbn. unfold with_activeSpan, with_journal. cbn.
    rewrite <- app_assoc. reflexivity.
  - destruct e; cbn; unfold with_activeSpan, with_journal; cbn;
      rewrite <- ?app_assoc; reflexivity.
Qed.

Lemma traceAsync_run (T : Type) (spanName : string) (fn : M T)
  (options : option TraceOptions) (w w2 : World) (r : Completion T) :
  fn (span_entry (serviceName (config w)) spanName
        (trace_span_options options) w) = (r, w2) ->
  traceAsync spanName fn options w
  = (r, with_activeSpan (activeSpan w)
          (with_journal
             (journal w2 ++ map (SpanCalled (new_span w)) (scoped_calls r))
             w2)).
Proof.
  intros H. change (@traceAsync T) with (@traceSync T).
  now apply traceSync_run.
Qed.

(** The calls a scoped run adds to its span end it exactly once, whatever
    the completion of the callback. *)
Lemma scoped_calls_end_once (T : Type) (r : Completion T) :
  List.length (filter is_end (scoped_calls r)) = 1%nat.
Proof.
  destruct r as [v | e]; [reflexivity |]. destruct e; reflexivity.
Qed.

Lemma scoped_final_calls (s : Span) (w2 : World) (cs : list SpanCall)
  (a : option Span) :
  calls_on s
    (journal (with_activeSpan a
                (with_journal (journal w2 ++ map (SpanCalled s) cs) w2)))
  = (calls_on s (journal w2) ++ cs)%list.
Proof.
  cbn. now rewrite calls_on_app, calls_on_own.
Qed.

(** C4, as the code has it: [traceSync] and [traceAsync] return or re-throw
    what the callback completed with, restore the active span, and end the
    created span exactly once on every exit path.  On normal return the
    status is set to ok; on a thrown instance of Error the exception is
    recorded and the status set to error with the error's message, both
    before the span is ended. *)
Theorem scoped_run_contract :
  forall (T : Type) (spanName : string) (fn : M T)
         (options : option TraceOptions) (w w2 : World) (r : Completion T),
    fn (span_entry (serviceName (config w)) spanName
          (trace_span_options options) w) = (r, w2) ->
    let s := new_span w in
    exists final : World,
      traceSync spanName fn options w = (r, final) /\
      traceAsync spanName fn options w = (r, final) /\
      activeSpan final = activeSpan w /\
      calls_on s (journal final)
      = (calls_on s (journal w2) ++ scoped_calls r)%list /\
      end_count s (journal final) = S (end_count s (journal w2)) /\
      (st_closed (span_state s (journal w2)) = false ->
       end_count s (journal final) = 1%nat /\
       st_closed (span_state s (journal final)) = true /\
       match r with
       | Normal _ =>
           st_status (span_state s (journal final))
           = {| code := OK; message := VUndefined |}
       | Throw (VError name msg stack) =>
           st_status (span_state s (journal final))
           = {| code := ERROR; message := VStr msg |} /\
           st_exceptions (span_state s (journal final))
           = (st_exceptions (span_state s (journal w2))
              ++ [VError name msg stack])%list
       | Throw _ => True
       end).
Proof.
  intros T spanName fn options w w2 r Hfn s.
  exists (with_activeSpan (activeSpan w)
            (with_journal
               (journal w2 ++ map (SpanCalled s) (scoped_calls r)) w2)).
  split; [apply (traceSync_run _ _ _ _ _ _ _ Hfn) |].
  split; [apply (traceAsync_run _ _ _ _ _ _ _ Hfn) |].
  split; [reflexivity |].
  split; [apply scoped_final_calls |].
  assert (Hcount :
    end_count s
      (journal (with_activeSpan (activeSpan w)
                  (with_journal
                     (journal w2 ++ map (SpanCalled s) (scoped_calls r)) w2)))
    = S (end_count s (journal w2))).
  { unfold end_count. rewrite scoped_final_calls, filter_app, length_app.
    rewrite scoped_calls_end_once. lia. }
  split; [exact Hcount |].
  intros Hopen.
  split; [rewrite Hcount; now rewrite (open_span_end_count _ _ Hopen) |].
  unfold span_state in *. rewrite scoped_final_calls, fold_left_app.
  destruct (fold_left apply_call (calls_on s (journal w2)) open_span)
    as [st0 at0 ex0 ev0 cl0].
  simpl in Hopen. subst cl0.
  destruct r as [v | e]; [| destruct e]; cbn; auto.
Qed.

(** The contract at a callback that returns 7 in the initial world. *)
Lemma scoped_run_contract_witness :
  exists final : World,
    traceSync "calculateDiscount" (ret 7) None sample_world
    = (Normal 7, final) /\
    end_count (new_span sample_world) (journal final) = 1%nat /\
    st_status (span_state (new_span sample_world) (journal final))
    = {| code := OK; message := VUndefined |}.
Proof.
  destruct (scoped_run_contract Z "calculateDiscount" (ret 7) None
              sample_world _ (Normal 7) eq_refl)
    as [final [Hs [_ [_ [_ [_ Hopen]]]]]].
  exists final. split; [exact Hs |].
  destruct (Hopen eq_refl) as [H1 [_ H3]].
  split; [exact H1 | exact H3].
Defined.

(** C4 as stated fails when the callback throws a value that is not an
    instance of Error: the span is ended, but no exception is recorded and
    the status stays unset. *)
Lemma traceSync_thrown_string_not_recorded :
  let s := new_span sample_world in
  let run := traceSync (T := Z) "calculateDiscount" (throw (VStr "boom")) None
               sample_world in
  fst run = Throw (VStr "boom") /\
  calls_on s (journal (snd run)) = [CallEnd] /\
  st_exceptions (span_state s (journal (snd run))) = [] /\
  code (st_status (span_state s (journal (snd run)))) = UNSET.
Proof.
  repeat split; reflexivity.
Qed.

(** C9: when the callback throws a value that is not an instance of Error,
    [traceSync] and [traceAsync] re-throw that value unchanged and their only
    call on the span is one [end()]: no exception is recorded and no status
    is set, so a span the callback did not touch ends with status unset. *)
Theorem scoped_run_non_Error_throw :
  forall (T : Type) (spanName : string) (fn : M T)
         (options : option TraceOptions) (w w2 : World) (e : value),
    fn (span_entry (serviceName (config w)) spanName
          (trace_span_options options) w) = (Throw e, w2) ->
    instanceof_Error e = false ->
    let s := new_span w in
    exists final : World,
      traceSync spanName fn options w = (Throw e, final) /\
      traceAsync spanName fn options w = (Throw e, final) /\
      journal final = (journal w2 ++ [SpanCalled s CallEnd])%list /\
      end_count s (journal final) = S (end_count s (journal w2)) /\
      (st_closed (span_state s (journal w2)) = false ->
       end_count s (journal final) = 1%nat /\
       st_closed (span_state s (journal final)) = true /\
       st_exceptions (span_state s (journal final))
       = st_exceptions (span_state s (journal w2)) /\
       st_status (span_state s (journal final))
       = st_status (span_state s (journal w2))) /\
      (calls_on s (journal w2) = [] ->
       st_exceptions (span_state s (journal final)) = [] /\
       st_status (span_state s (journal final)) = unset_status).
Proof.
  intros T spanName fn options w w2 e Hfn Hne s.
  assert (Hcalls : scoped_calls (T := T) (Throw e) = [CallEnd])
    by (destruct e; try reflexivity; discriminate).
  pose proof (traceSync_run _ _ _ _ _ _ _ Hfn) as Hs.
  pose proof (traceAsync_run _ _ _ _ _ _ _ Hfn) as Ha.
  rewrite Hcalls in Hs, Ha. fold s in Hs, Ha.
  exists (with_activeSpan (activeSpan w)
            (with_journal (journal w2 ++ map (SpanCalled s) [CallEnd]) w2)).
  split; [exact Hs |]. split; [exact Ha |].
  split; [reflexivity |].
  assert (Hc :
    calls_on s (journal (with_activeSpan (activeSpan w)
       (with_journal (journal w2 ++ map (SpanCalled s) [CallEnd]) w2)))
    = (calls_on s (journal w2) ++ [CallEnd])%list)
    by apply scoped_final_calls.
  assert (Hcount :
    end_count s
      (journal (with_activeSpan (activeSpan w)
                  (with_journal
                     (journal w2 ++ map (SpanCalled s) [CallEnd]) w2)))
    = S (end_count s (journal w2))).
  { unfold end_count. rewrite Hc, filter_app, length_app. simpl. lia. }
  split; [exact Hcount |].
  split.
  - intros Hopen.
    split; [rewrite Hcount; now rewrite (open_span_end_count _ _ Hopen) |].
    unfold span_state in *. rewrite Hc, fold_left_app.
    destruct (fold_left apply_call (calls_on s (journal w2)) open_span)
      as [st0 at0 ex0 ev0 cl0].
    simpl in Hopen. subst cl0. cbn. auto.
  - intros Hnone. unfold span_state. rewrite Hc, Hnone. cbn. auto.
Qed.

(** A callback that throws the string [boom]. *)
Lemma scoped_run_non_Error_throw_witness :
  exists final : World,
    traceAsync (T := Z) "fetchUserProfile" (throw (VStr "boom")) None
      sample_world
    = (Throw (VStr "boom"), final) /\
    end_count (new_span sample_world) (journal final) = 1%nat /\
    st_exceptions (span_state (new_span sample_world) (journal final)) = [] /\
    st_status (span_state (new_span sample_world) (journal final))
    = unset_status.
Proof.
  destruct (scoped_run_non_Error_throw Z "fetchUserProfile"
              (throw (VStr "boom")) None sample_world _ (VStr "boom")
              eq_refl eq_refl)
    as [final [_ [Ha [_ [_ [Hopen Hnone]]]]]].
  exists final. split; [exact Ha |].
  destruct (Hopen eq_refl) as [H1 _].
  destruct (Hnone eq_refl) as [H2 H3].
  repeat split; assumption.
Defined.

(** ** Log correlation *)

Lemma withTraceContext_run (context : option Attributes) (w : World) :
  withTraceContext context w
  = (Normal
       (obj_set "span_id" (VStr (spanId (current_context w)))
          (obj_set "trace_id" (VStr (traceId (current_context w)))
             (obj_spread []
                (match context with Some c => c | None => [] end)))),
     w).
Proof.
  unfold withTraceContext, getTraceContext, getActiveSpan, current_context,
    bind, ret.
  destruct (activeSpan w); reflexivity.
Qed.

(** C5: with no active span [getTraceContext] returns the all-zero context,
    as a normal completion; and every record a level method of the logger
    hands to pino carries, as [trace_id] and [span_id], the identifiers of
    the active span, or the all-zero ones when no span is active; so does
    every record emitted through the OpenTelemetry log bridge. *)
Theorem log_records_carry_trace_context :
  (forall w : World,
     activeSpan w = None ->
     getTraceContext w
     = (Normal {| traceId := zeros 32; spanId := zeros 16; traceFlags := 0 |},
        w)) /\
  (forall (w : World) (s : Span),
     activeSpan w = Some s ->
     exists ctx,
       getTraceContext w = (Normal ctx, w) /\
       traceId ctx = traceId (spanContext s) /\
       spanId ctx = spanId (spanContext s)) /\
  (forall (level : LogLevel) (l : Logger) (args : LogArgs) (w : World),
     exists (obj : Attributes) (msg : string),
       Logger_log level l args w
       = (Normal tt,
          with_journal
            (journal w ++ [PinoLogged (bindings (pinoLogger l)) level obj msg])
            w) /\
       obj_get "trace_id" obj = VStr (traceId (current_context w)) /\
       obj_get "span_id" obj = VStr (spanId (current_context w))) /\
  (forall (level : LogLevel) (text : string) (attrs : option Attributes)
          (w : World),
     exists a : Attributes,
       emitOtelLog level text attrs w
       = (Normal tt,
          with_journal
            (journal w
             ++ [OtelLogEmitted (serviceName (config w))
                   (severityNumber_of level) (upper_name level) text a])
            w) /\
       obj_get "trace_id" a = VStr (traceId (current_context w)) /\
       obj_get "span_id" a = VStr (spanId (current_context w))).
Proof.
  split; [| split; [| split]].
  - intros w Hnone.
    unfold getTraceContext, getActiveSpan, bind, ret. now rewrite Hnone.
  - intros w s Hsome. eexists.
    unfold getTraceContext, getActiveSpan, bind, ret. rewrite Hsome.
    split; [reflexivity | split; reflexivity].
  - intros level l args w.
    destruct args as [text | context text]; do 2 eexists;
      unfold Logger_log, bind; rewrite withTraceContext_run;
      (split; [reflexivity |]);
      (split;
       [ rewrite obj_get_set_other by reflexivity; apply obj_get_set_same
       | apply obj_get_set_same ]).
  - intros level text attrs w.
    unfold emitOtelLog, getTraceContext, getActiveSpan, get_config,
      current_context, bind, ret, emit.
    destruct (activeSpan w); eexists;
      (split; [reflexivity |]);
      (split;
       [ rewrite obj_get_set_other by reflexivity; apply obj_get_set_same
       | apply obj_get_set_same ]).
Qed.

(** The initial world has no active span; the same world with its first
    span active stamps that span's identifiers. *)
Lemma log_records_carry_trace_context_witness :
  getTraceContext sample_world = (Normal zero_context, sample_world) /\
  exists ctx,
    getTraceContext
      (with_activeSpan (Some (new_span sample_world)) sample_world)
    = (Normal ctx,
       with_activeSpan (Some (new_span sample_world)) sample_world) /\
    traceId ctx = "trace-0" /\ spanId ctx = "span-0".
Proof.
  destruct log_records_carry_trace_context as [Hnone [Hsome _]].
  split.
  - apply Hnone. reflexivity.
  - apply (Hsome (with_activeSpan (Some (new_span sample_world)) sample_world)
             (new_span sample_world)).
    reflexivity.
Defined.

(** ** HTTP request metrics *)

Lemma samples_app (name : string) (j1 j2 : list Effect) :
  samples name (j1 ++ j2) = (samples name j1 ++ samples name j2)%list.
Proof.
  induction j1 as [| e rest IH]; simpl; auto.
  destruct e; auto.
  destruct (String.eqb (inst_name i) name); simpl; now rewrite IH.
Qed.

Lemma named_name (name : string) (i : Instrument) :
  named name (Some i) = true -> inst_name i = name.
Proof.
  simpl. apply String.eqb_eq.
Qed.

Ltac name_cached H H' c :=
  destruct c as [c |];
  [ pose proof (named_name _ _ H) as H' | clear H ].

(** C7: a call to [recordHttpRequest] adds exactly one sample to the request
    counter, tagged with the status class, and one sample to the error
    counter exactly when the status code is at least 400: both for 404 (class
    4xx), the request counter alone for 200. *)
Theorem recordHttpRequest_samples :
  forall (r : HttpRequestMetric) (w : World),
    caches_ok w = true ->
    let one := (VNum 1, Some (http_metric_attributes r)) in
    exists w' : World,
      recordHttpRequest r w = (Normal tt, w') /\
      caches_ok w' = true /\
      samples METRIC_NAMES.HTTP_REQUEST_COUNT (journal w')
      = (samples METRIC_NAMES.HTTP_REQUEST_COUNT (journal w) ++ [one])%list /\
      samples METRIC_NAMES.HTTP_ERROR_COUNT (journal w')
      = (samples METRIC_NAMES.HTTP_ERROR_COUNT (journal w)
         ++ (if m_statusCode r >=? 400 then [one] else []))%list /\
      (m_statusCode r = 404 ->
       tagged "http.status_class" "4xx" one = true /\
       samples METRIC_NAMES.HTTP_ERROR_COUNT (journal w')
       = (samples METRIC_NAMES.HTTP_ERROR_COUNT (journal w) ++ [one])%list) /\
      (m_statusCode r = 200 ->
       tagged "http.status_class" "2xx" one = true /\
       samples METRIC_NAMES.HTTP_ERROR_COUNT (journal w')
       = samples METRIC_NAMES.HTTP_ERROR_COUNT (journal w)).
Proof.
  intros r w Hok one.
  assert (Hclass :
    (m_statusCode r = 404 -> tagged "http.status_class" "4xx" one = true) /\
    (m_statusCode r = 200 -> tagged "http.status_class" "2xx" one = true)).
  { split; intros Hs; unfold one, tagged, http_metric_attributes; simpl;
      rewrite Hs; reflexivity. }
  destruct Hclass as [H404 H200].
  destruct w as [j a n p t cfg c d u e].
  unfold caches_ok in Hok. simpl in Hok.
  apply andb_prop in Hok. destruct Hok as [Hok He].
  apply andb_prop in Hok. destruct Hok as [Hok Hu].
  apply andb_prop in Hok. destruct Hok as [Hc Hd].
  unfold METRIC_NAMES.HTTP_REQUEST_COUNT, METRIC_NAMES.HTTP_ERROR_COUNT,
    METRIC_NAMES.HTTP_REQUEST_DURATION, METRIC_NAMES.HTTP_ACTIVE_REQUESTS in *.
  name_cached Hc Nc c; name_cached Hd Nd d; name_cached He Ne e;
    cbv beta iota zeta delta [recordHttpRequest bind ret getHttpRequestCounter
      getHttpRequestDuration getHttpErrorCounter getMeter get_config
      instrument_record emit httpRequestCounter httpRequestDuration
      httpErrorCounter with_journal with_httpRequestCounter
      with_httpRequestDuration with_httpErrorCounter journal activeSpan
      spansCreated provider now config httpActiveRequests];
    destruct (m_statusCode r >=? 400) eqn:Hge;
    eexists; (split; [reflexivity |]);
    (split;
     [ unfold caches_ok, METRIC_NAMES.HTTP_REQUEST_COUNT,
         METRIC_NAMES.HTTP_ERROR_COUNT, METRIC_NAMES.HTTP_REQUEST_DURATION,
         METRIC_NAMES.HTTP_ACTIVE_REQUESTS;
       cbn -[String.eqb named];
       rewrite ?Hc, ?Hd, ?He, ?Hu; reflexivity |]);
    cbn [journal]; rewrite <- ?app_assoc, !samples_app;
    cbn -[String.eqb http_metric_attributes];
    rewrite ?Nc, ?Nd, ?Ne; cbn -[http_metric_attributes];
    rewrite ?app_nil_r;
    (split; [reflexivity |]); (split; [reflexivity |]);
    (split; intros Hs; rewrite Hs in Hge; try discriminate Hge;
     split; auto).
Qed.

(** A 404 on [/api/users] in the initial world. *)
Lemma recordHttpRequest_samples_witness :
  exists w' : World,
    recordHttpRequest
      {| m_method := "GET"; m_route := "/api/users";
         m_statusCode := 404; m_duration := 12 |} sample_world
    = (Normal tt, w') /\
    List.length (samples METRIC_NAMES.HTTP_REQUEST_COUNT (journal w')) = 1%nat /\
    List.length (samples METRIC_NAMES.HTTP_ERROR_COUNT (journal w')) = 1%nat.
Proof.
  destruct (recordHttpRequest_samples
              {| m_method := "GET"; m_route := "/api/users";
                 m_statusCode := 404; m_duration := 12 |}
              sample_world eq_refl)
    as [w' [Hrun [_ [Hreq [_ [H404 _]]]]]].
  exists w'. split; [exact Hrun |].
  destruct (H404 eq_refl) as [_ Herr].
  rewrite Hreq, Herr. split; reflexivity.
Defined.

(** ** Running computations step by step *)

Lemma bind_normal {A B : Type} (c : M A) (k : A -> M B) (w w1 : World)
  (a : A) :
  c w = (Normal a, w1) -> bind c k w = k a w1.
Proof.
  intros H. unfold bind. now rewrite H.
Qed.

Lemma bind_thrown {A B : Type} (c : M A) (k : A -> M B) (w w1 : World)
  (e : value) :
  c w = (Throw e, w1) -> bind c k w = (Throw e, w1).
Proof.
  intros H. unfold bind. now rewrite H.
Qed.

Lemma try_returns {A : Type} (body : M A) (handler : value -> M A)
  (cleanup : M unit) (w w1 w2 : World) (a : A) :
  body w = (Normal a, w1) ->
  cleanup w1 = (Normal tt, w2) ->
  try_catch_finally body handler cleanup w = (Normal a, w2).
Proof.
  intros Hb Hc. unfold try_catch_finally. now rewrite Hb, Hc.
Qed.

Lemma try_caught {A : Type} (body : M A) (handler : value -> M A)
  (cleanup : M unit) (w w1 w2 w3 : World) (e : value) (r : Completion A) :
  body w = (Throw e, w1) ->
  handler e w1 = (r, w2) ->
  cleanup w2 = (Normal tt, w3) ->
  try_catch_finally body handler cleanup w = (r, w3).
Proof.
  intros Hb Hh Hc. unfold try_catch_finally. now rewrite Hb, Hh, Hc.
Qed.

Lemma startActiveSpan_run {A : Type} (tracer name : string) (o : SpanOptions)
  (fn : Span -> M A) (w w2 : World) (r : Completion A) :
  fn (new_span w) (span_entry tracer name o w) = (r, w2) ->
  startActiveSpan tracer name o fn w = (r, with_activeSpan (activeSpan w) w2).
Proof.
  intros H. unfold startActiveSpan. now rewrite H.
Qed.

Lemma emit_run (e : Effect) (w : World) :
  emit e w = (Normal tt, with_journal (journal w ++ [e]) w).
Proof.
  reflexivity.
Qed.

(** ** Steps that only record measurements *)

Lemma only_measured_app (a b : list Effect) :
  only_measured a = true -> only_measured b = true ->
  only_measured (a ++ b) = true.
Proof.
  unfold only_measured. intros Ha Hb. rewrite forallb_app. now rewrite Ha, Hb.
Qed.

Lemma only_measured_calls (s : Span) (ext : list Effect) :
  only_measured ext = true -> calls_on s ext = [].
Proof.
  induction ext as [| e rest IH]; simpl; auto.
  destruct e; simpl; try discriminate. exact IH.
Qed.

Lemma only_measured_pino (ext : list Effect) :
  only_measured ext = true -> pino_records ext = [].
Proof.
  induction ext as [| e rest IH]; simpl; auto.
  destruct e; simpl; try discriminate. exact IH.
Qed.

Lemma stepped_refl (w : World) : stepped w w [].
Proof.
  unfold stepped. rewrite app_nil_r. repeat split.
Qed.

Lemma stepped_trans (w1 w2 w3 : World) (a b : list Effect) :
  stepped w1 w2 a -> stepped w2 w3 b -> stepped w1 w3 (a ++ b).
Proof.
  unfold stepped.
  intros [Hj [Ha [Hn [Hp [Ht Hc]]]]] [Hj' [Ha' [Hn' [Hp' [Ht' Hc']]]]].
  rewrite Hj', Hj, app_assoc. repeat split; congruence.
Qed.

Lemma stepped_emit (e : Effect) (w : World) :
  stepped w (with_journal (journal w ++ [e]) w) [e].
Proof.
  repeat split.
Qed.

Lemma recordHttpRequest_measures (r : HttpRequestMetric) (w : World) :
  exists (w' : World) (ext : list Effect),
    recordHttpRequest r w = (Normal tt, w') /\
    stepped w w' ext /\ only_measured ext = true.
Proof.
  destruct w as [j a n p t cfg c d u e].
  destruct c, d, e;
    cbv beta iota zeta delta [recordHttpRequest bind ret getHttpRequestCounter
      getHttpRequestDuration getHttpErrorCounter getMeter get_config
      instrument_record emit httpRequestCounter httpRequestDuration
      httpErrorCounter with_journal with_httpRequestCounter
      with_httpRequestDuration with_httpErrorCounter journal activeSpan
      spansCreated provider now config httpActiveRequests];
    destruct (m_statusCode r >=? 400);
    do 2 eexists; (split; [reflexivity |]);
    unfold stepped; cbn [journal activeSpan spansCreated provider now config];
    rewrite <- ?app_assoc;
    (split; [repeat split; cbn [app]; reflexivity | reflexivity]).
Qed.

Lemma activeRequests_measures (delta : Z) (attrs : option Attributes)
  (w : World) :
  exists (w' : World) (i : Instrument),
    (a <- getHttpActiveRequests ;; instrument_record a (VNum delta) attrs) w
    = (Normal tt, w') /\
    stepped w w' [Measured i (VNum delta) attrs] /\
    (caches_ok w = true ->
     caches_ok w' = true /\
     inst_name i = METRIC_NAMES.HTTP_ACTIVE_REQUESTS).
Proof.
  destruct w as [j a n p t cfg c d u e].
  destruct u as [u |];
    cbv beta iota zeta delta [bind ret getHttpActiveRequests getMeter
      get_config instrument_record emit httpActiveRequests with_journal
      with_httpActiveRequests journal activeSpan spansCreated provider now
      config httpRequestCounter httpRequestDuration httpErrorCounter];
    do 2 eexists; (split; [reflexivity |]);
    (split; [repeat split |]);
    unfold caches_ok; cbn -[named]; intros Hok.
  - split; [exact Hok |].
    apply andb_prop in Hok. destruct Hok as [Hok _].
    apply andb_prop in Hok. destruct Hok as [_ Hu].
    now apply named_name.
  - split; [| reflexivity].
    apply andb_prop in Hok. destruct Hok as [Hok He].
    apply andb_prop in Hok. destruct Hok as [Hok _].
    rewrite Hok, He. reflexivity.
Qed.

Lemma Logger_log_run (level : LogLevel) (l : Logger) (args : LogArgs)
  (w : World) :
  exists (obj : Attributes) (msg : string),
    Logger_log level l args w
    = (Normal tt,
       with_journal
         (journal w ++ [PinoLogged (bindings (pinoLogger l)) level obj msg])
         w) /\
    msg = match args with
          | LogMessage text => text
          | LogContext _ text => env_or text ""
          end /\
    obj_get "trace_id" obj = VStr (traceId (current_context w)) /\
    obj_get "span_id" obj = VStr (spanId (current_context w)).
Proof.
  destruct args as [text | context text]; do 2 eexists;
    unfold Logger_log, bind; rewrite withTraceContext_run;
    (split; [reflexivity |]); (split; [reflexivity |]);
    (split;
     [ rewrite obj_get_set_other by reflexivity; apply obj_get_set_same
     | apply obj_get_set_same ]).
Qed.

Lemma logHttpResponse_run (r : HttpResponseLog) (w : World) :
  exists (b obj : Attributes),
    logHttpResponse r w
    = (Normal tt,
       with_journal
         (journal w
          ++ [PinoLogged b (response_log_level (rs_statusCode r)) obj
                "HTTP response sent"])
         w).
Proof.
  unfold logHttpResponse, logger, baseLogger, get_config.
  cbv beta iota zeta delta [bind ret].
  match goal with
  | |- context [Logger_log ?lv ?l ?args w] =>
      destruct (Logger_log_run lv l args w) as [obj [msg [Hrun [Hmsg _]]]]
  end.
  rewrite Hrun. simpl in Hmsg. subst msg. do 2 eexists. reflexivity.
Qed.

Lemma logHttpRequest_run (r : HttpRequestLog) (w : World) :
  exists (b obj : Attributes),
    logHttpRequest r w
    = (Normal tt,
       with_journal
         (journal w ++ [PinoLogged b info obj "HTTP request received"]) w).
Proof.
  unfold logHttpRequest, logger, baseLogger, get_config, Logger_info.
  cbv beta iota zeta delta [bind ret].
  match goal with
  | |- context [Logger_log ?lv ?l ?args w] =>
      destruct (Logger_log_run lv l args w) as [obj [msg [Hrun [Hmsg _]]]]
  end.
  rewrite Hrun. simpl in Hmsg. subst msg. do 2 eexists. reflexivity.
Qed.

(** ** The request wrapper *)

Lemma request_prelude_run (request : NextRequest) (w : World) :
  exists (i : Instrument) (b obj : Attributes),
    (incrementActiveRequests
       (Some [ ("http.route", VStr (pathname request)) ]) ;;
     logHttpRequest (request_log request)) w
    = (Normal tt, request_prelude_world request w) /\
    stepped w (request_prelude_world request w)
      [ Measured i (VNum 1)
          (Some [ ("http.route", VStr (pathname request)) ]);
        PinoLogged b info obj "HTTP request received" ] /\
    (caches_ok w = true ->
     caches_ok (request_prelude_world request w) = true /\
     inst_name i = METRIC_NAMES.HTTP_ACTIVE_REQUESTS).
Proof.
  unfold request_prelude_world, incrementActiveRequests.
  destruct (activeRequests_measures 1
              (Some [ ("http.route", VStr (pathname request)) ]) w)
    as [w1 [i [Hinc [Hst Hok]]]].
  destruct (logHttpRequest_run (request_log request) w1) as [b [obj Hlog]].
  exists i, b, obj.
  rewrite (bind_normal _ _ _ _ _ Hinc), Hlog. cbn [snd].
  split; [reflexivity |]. split.
  - apply (stepped_trans _ _ _ [_] [_] Hst). apply stepped_emit.
  - intros H. destruct (Hok H) as [H1 H2]. split; [| exact H2].
    destruct w1; exact H1.
Qed.

(** What the wrapper does once the handler returned [response] in world
    [w2]. *)
Lemma withTelemetry_returns (handler : ApiHandler) (options : TelemetryOptions)
  (request : NextRequest) (context : option RouteContext) (w w2 : World)
  (response : NextResponse) :
  skipped options (pathname request) = false ->
  handler request context (request_entry options request context w)
  = (Normal response, w2) ->
  let s := request_span request w in
  let c := status response in
  exists (final : World) (m1 m2 : list Effect) (b obj : Attributes),
    withTelemetry handler options request context w = (Normal response, final) /\
    activeSpan final = activeSpan w /\
    only_measured m1 = true /\ only_measured m2 = true /\
    journal final
    = (journal w2
       ++ [ SpanCalled s
              (CallSetAttribute SEMANTIC_ATTRIBUTES.HTTP_STATUS_CODE (VNum c));
            SpanCalled s
              (CallSetStatus
                 (if c >=? 400
                  then {| code := ERROR;
                          message := VStr ("HTTP " ++ string_of_Z c) |}
                  else {| code := OK; message := VUndefined |})) ]
       ++ m1
       ++ [ PinoLogged b (response_log_level c) obj "HTTP response sent";
            SpanCalled s CallEnd ]
       ++ m2)%list.
Proof.
  intros Hskip Hh s c.
  destruct (request_prelude_run request w) as [i0 [b0 [obj0 [Hpre [Hst0 _]]]]].
  set (wp := request_prelude_world request w) in *.
  destruct Hst0 as [_ [Hact [_ [_ [Hnow _]]]]].
  set (w3 := with_journal
               (journal w2
                ++ [SpanCalled s
                      (CallSetAttribute SEMANTIC_ATTRIBUTES.HTTP_STATUS_CODE
                         (VNum c))]) w2).
  set (st := if c >=? 400
             then {| code := ERROR;
                     message := VStr ("HTTP " ++ string_of_Z c) |}
             else {| code := OK; message := VUndefined |}).
  set (w4 := with_journal (journal w3 ++ [SpanCalled s (CallSetStatus st)]) w3).
  destruct (recordHttpRequest_measures
              {| m_method := method request; m_route := pathname request;
                 m_statusCode := c; m_duration := now w4 - now w |} w4)
    as [w5 [m1 [Hrec [Hst5 Hm1]]]].
  destruct (logHttpResponse_run
              {| rs_method := method request; rs_url := url request;
                 rs_statusCode := c; rs_duration := now w4 - now w |} w5)
    as [b [obj Hlog]].
  set (w6 := with_journal
               (journal w5
                ++ [PinoLogged b (response_log_level c) obj
                      "HTTP response sent"]) w5) in *.
  set (w7 := with_journal (journal w6 ++ [SpanCalled s CallEnd]) w6).
  destruct (activeRequests_measures (-1)
              (Some [ ("http.route", VStr (pathname request)) ]) w7)
    as [w8 [i8 [Hdec [Hst8 _]]]].
  exists (with_activeSpan (activeSpan wp) w8), m1,
         [Measured i8 (VNum (-1))
            (Some [ ("http.route", VStr (pathname request)) ])], b, obj.
  split.
  - unfold withTelemetry. rewrite Hskip.
    rewrite (bind_normal get_config _ w w (config w) eq_refl). cbv zeta.
    rewrite (bind_normal startTimer _ w w {| timer_start := now w |} eq_refl).
    change (incrementActiveRequests ?a ;; ?k)%js
      with (bind (incrementActiveRequests a) (fun _ => k)).
    unfold bind at 1.
    unfold bind in Hpre.
    destruct (incrementActiveRequests
                (Some [("http.route", VStr (pathname request))]) w)
      as [[[] | e] w1] eqn:Hinc; [| discriminate Hpre].
    rewrite (bind_normal _ _ _ _ _ Hpre).
    apply startActiveSpan_run.
    eapply try_returns.
    + fold wp. fold (request_span request w). fold s.
      change (span_entry (serviceName (config w)) (name options)
                (server_span_options options request context) wp)
        with (request_entry options request context w).
      rewrite (bind_normal _ _ _ _ _ Hh).
      fold c.
      rewrite (bind_normal (span_setAttribute s _ _) _ w2 w3 tt eq_refl).
      assert (Hstatus :
        (if c >=? 400
         then span_setStatus s
                {| code := ERROR; message := VStr ("HTTP " ++ string_of_Z c) |}
         else span_setStatus s {| code := OK; message := VUndefined |}) w3
        = (Normal tt, w4)).
      { unfold w4, st. destruct (c >=? 400); reflexivity. }
      rewrite (bind_normal _ _ _ _ _ Hstatus).
      rewrite (bind_normal (timer_end {| timer_start := now w |}) _ w4 w4
                 (now w4 - now w) eq_refl).
      rewrite (bind_normal _ _ _ _ _ Hrec).
      rewrite (bind_normal _ _ _ _ _ Hlog).
      reflexivity.
    + fold wp. fold (request_span request w). fold s.
      rewrite (bind_normal (span_end s) _ w6 w7 tt eq_refl).
      unfold decrementActiveRequests. exact Hdec.
  - split; [exact Hact |]. split; [exact Hm1 |]. split; [reflexivity |].
    destruct Hst8 as [Hj8 _]. destruct Hst5 as [Hj5 _].
    cbn [journal with_activeSpan]. rewrite Hj8.
    unfold w7, w6. cbn [journal with_journal]. rewrite Hj5.
    unfold w4, w3. cbn [journal with_journal].
    rewrite <- !app_assoc. reflexivity.
Qed.

Lemma pino_records_app (j1 j2 : list Effect) :
  pino_records (j1 ++ j2) = (pino_records j1 ++ pino_records j2)%list.
Proof.
  induction j1 as [| e rest IH]; simpl; auto.
  destruct e; simpl; now rewrite ?IH.
Qed.

Lemma response_log_level_spec (c : Z) :
  (500 <= c -> response_log_level c = error) /\
  (400 <= c < 500 -> response_log_level c = warn) /\
  (c < 400 -> response_log_level c = info).
Proof.
  unfold response_log_level.
  destruct (Z.geb_spec c 500), (Z.geb_spec c 400);
    repeat split; intros; auto; lia.
Qed.

(** C6 as stated fails on a path that matches a [skipPaths] prefix: the
    handler's response is passed through and nothing is attached, set or
    logged, whatever the status code. *)
Lemma skipped_path_has_no_telemetry :
  withTelemetry (respond 503) sample_options
    (sample_request "/api/health/db" None) None sample_world
  = (Normal {| status := 503; payload := VNull |}, sample_world) /\
  journal sample_world = [].
Proof.
  split; reflexivity.
Qed.

(** C6, as the code has it: on a path that matches no [skipPaths] prefix,
    when the handler returns a response with status code [c] the wrapper
    returns that response, attaches [c] to the server span as
    [http.status_code], sets the span status to error with message
    ["HTTP " ++ c] exactly when [c >= 400] and to ok otherwise, ends the span,
    and logs the response at error level for [c >= 500], warn for
    [400 <= c < 500] and info otherwise. *)
Theorem withTelemetry_response_status :
  forall (handler : ApiHandler) (options : TelemetryOptions)
         (request : NextRequest) (context : option RouteContext)
         (w w2 : World) (response : NextResponse),
    skipped options (pathname request) = false ->
    handler request context (request_entry options request context w)
    = (Normal response, w2) ->
    let s := request_span request w in
    let c := status response in
    let st := if c >=? 400
              then {| code := ERROR;
                      message := VStr ("HTTP " ++ string_of_Z c) |}
              else {| code := OK; message := VUndefined |} in
    exists (final : World) (obj : Attributes),
      withTelemetry handler options request context w
      = (Normal response, final) /\
      calls_on s (journal final)
      = (calls_on s (journal w2)
         ++ [ CallSetAttribute "http.status_code" (VNum c);
              CallSetStatus st;
              CallEnd ])%list /\
      (code st = ERROR <-> 400 <= c) /\
      (code st = OK <-> c < 400) /\
      pino_records (journal final)
      = (pino_records (journal w2)
         ++ [ (response_log_level c, obj, "HTTP response sent") ])%list /\
      (500 <= c -> response_log_level c = error) /\
      (400 <= c < 500 -> response_log_level c = warn) /\
      (c < 400 -> response_log_level c = info) /\
      (st_closed (span_state s (journal w2)) = false ->
       obj_get "http.status_code"
         (st_attributes (span_state s (journal final))) = VNum c /\
       st_status (span_state s (journal final)) = st /\
       st_closed (span_state s (journal final)) = true).
Proof.
  intros handler options request context w w2 response Hskip Hh s c st.
  destruct (withTelemetry_returns handler options request context w w2
              response Hskip Hh)
    as [final [m1 [m2 [b [obj [Hrun [_ [Hm1 [Hm2 Hj]]]]]]]]].
  fold s c in Hj. fold st in Hj.
  assert (Hcalls :
    calls_on s (journal final)
    = (calls_on s (journal w2)
       ++ [ CallSetAttribute "http.status_code" (VNum c);
            CallSetStatus st; CallEnd ])%list).
  { rewrite Hj. rewrite !calls_on_app.
    rewrite (only_measured_calls _ _ Hm1), (only_measured_calls _ _ Hm2).
    cbn. unfold same_span. rewrite Nat.eqb_refl. reflexivity. }
  exists final, obj.
  split; [exact Hrun |]. split; [exact Hcalls |].
  split; [| split].
  - unfold st. destruct (Z.geb_spec c 400); simpl; split; intros;
      try lia; try discriminate; auto.
  - unfold st. destruct (Z.geb_spec c 400); simpl; split; intros;
      try lia; try discriminate; auto.
  - split.
    + rewrite Hj. rewrite !pino_records_app.
      rewrite (only_measured_pino _ Hm1), (only_measured_pino _ Hm2).
      reflexivity.
    + destruct (response_log_level_spec c) as [H1 [H2 H3]].
      split; [exact H1 |]. split; [exact H2 |]. split; [exact H3 |].
      intros Hopen. unfold span_state in *. rewrite Hcalls, fold_left_app.
      destruct (fold_left apply_call (calls_on s (journal w2)) open_span)
        as [st0 at0 ex0 ev0 cl0].
      simpl in Hopen. subst cl0. cbn.
      split; [apply obj_get_set_same | split; reflexivity].
Qed.

(** A handler that answers 404 on [/api/users]. *)
Lemma withTelemetry_response_status_witness :
  exists (final : World) (obj : Attributes),
    withTelemetry (respond 404) sample_options
      (sample_request "/api/users" None) None sample_world
    = (Normal {| status := 404; payload := VNull |}, final) /\
    pino_records (journal final)
    = [ (info, obj_of_request_log, "HTTP request received");
        (warn, obj, "HTTP response sent") ] /\
    st_status
      (span_state (request_span (sample_request "/api/users" None)
                     sample_world) (journal final))
    = {| code := ERROR; message := VStr "HTTP 404" |}.
Proof.
  destruct (withTelemetry_response_status (respond 404) sample_options
              (sample_request "/api/users" None) None sample_world _
              {| status := 404; payload := VNull |} eq_refl eq_refl)
    as [final [obj [Hrun [_ [_ [_ [Hlog [_ [_ [_ Hstate]]]]]]]]]].
  exists final, obj.
  split; [exact Hrun |].
  split; [exact Hlog |].
  destruct (Hstate eq_refl) as [_ [Hst _]]. exact Hst.
Defined.

(** What the wrapper does once the handler threw a value [e] that has
    properties (anything but [null] and [undefined]): the catch block runs
    to its end and [e] itself is re-thrown. *)
Lemma withTelemetry_rethrows (handler : ApiHandler) (options : TelemetryOptions)
  (request : NextRequest) (context : option RouteContext) (w w2 : World)
  (e msg : value) :
  skipped options (pathname request) = false ->
  handler request context (request_entry options request context w)
  = (Throw e, w2) ->
  js_prop e "message" = Some msg ->
  let s := request_span request w in
  exists (final w4 w5 : World) (m1 m2 : list Effect) (b obj : Attributes),
    withTelemetry handler options request context w = (Throw e, final) /\
    activeSpan final = activeSpan w /\
    recordHttpRequest
      {| m_method := method request; m_route := pathname request;
         m_statusCode := 500; m_duration := now w2 - now w |} w4
    = (Normal tt, w5) /\
    journal w5 = (journal w4 ++ m1)%list /\
    only_measured m1 = true /\ only_measured m2 = true /\
    journal final
    = (journal w2
       ++ [ SpanCalled s (CallRecordException e);
            SpanCalled s
              (CallSetStatus {| code := ERROR; message := msg |}) ]
       ++ m1
       ++ [ PinoLogged b error obj "Unhandled error in API route";
            SpanCalled s CallEnd ]
       ++ m2)%list.
Proof.
  intros Hskip Hh Hmsg s.
  assert (Hprops : exists st nm,
            js_prop e "stack" = Some st /\ js_prop e "name" = Some nm).
  { destruct e; try discriminate Hmsg; do 2 eexists; split; reflexivity. }
  destruct Hprops as [stk [nm [Hstack Hname]]].
  destruct (request_prelude_run request w) as [i0 [b0 [obj0 [Hpre [Hst0 _]]]]].
  set (wp := request_prelude_world request w) in *.
  destruct Hst0 as [_ [Hact [_ [_ [Hnow _]]]]].
  set (w3 := with_journal
               (journal w2 ++ [SpanCalled s (CallRecordException e)]) w2).
  set (w4 := with_journal
               (journal w3
                ++ [SpanCalled s
                      (CallSetStatus {| code := ERROR; message := msg |})])
               w3).
  destruct (recordHttpRequest_measures
              {| m_method := method request; m_route := pathname request;
                 m_statusCode := 500; m_duration := now w2 - now w |} w4)
    as [w5 [m1 [Hrec [Hst5 Hm1]]]].
  set (args := LogContext
                 [ ("error", VObj [ ("message", msg); ("stack", stk);
                                    ("name", nm) ]);
                   ("http", VObj [ ("method", VStr (method request));
                                   ("url", VStr (url request)) ]) ]
                 (Some "Unhandled error in API route")).
  set (l := {| pinoLogger :=
                 {| bindings :=
                      [ ("service", VStr (serviceName (config w5)));
                        ("version", VStr (serviceVersion (config w5)));
                        ("env", VStr (environment (config w5))) ] |} |}).
  destruct (Logger_log_run error l args w5) as [obj [txt [Hlog [Htxt _]]]].
  simpl in Htxt. subst txt.
  set (w6 := with_journal
               (journal w5
                ++ [PinoLogged (bindings (pinoLogger l)) error obj
                      "Unhandled error in API route"]) w5) in *.
  set (w7 := with_journal (journal w6 ++ [SpanCalled s CallEnd]) w6).
  destruct (activeRequests_measures (-1)
              (Some [ ("http.route", VStr (pathname request)) ]) w7)
    as [w8 [i8 [Hdec [Hst8 _]]]].
  exists (with_activeSpan (activeSpan wp) w8), w4, w5, m1,
         [Measured i8 (VNum (-1))
            (Some [ ("http.route", VStr (pathname request)) ])],
         (bindings (pinoLogger l)), obj.
  split.
  - unfold withTelemetry. rewrite Hskip.
    rewrite (bind_normal get_config _ w w (config w) eq_refl). cbv zeta.
    rewrite (bind_normal startTimer _ w w {| timer_start := now w |} eq_refl).
    change (incrementActiveRequests ?a ;; ?k)%js
      with (bind (incrementActiveRequests a) (fun _ => k)).
    unfold bind at 1.
    unfold bind in Hpre.
    destruct (incrementActiveRequests
                (Some [("http.route", VStr (pathname request))]) w)
      as [[[] | e0] w1] eqn:Hinc; [| discriminate Hpre].
    rewrite (bind_normal _ _ _ _ _ Hpre).
    apply startActiveSpan_run.
    eapply try_caught.
    + fold wp.
      change (span_entry (serviceName (config w)) (name options)
                (server_span_options options request context) wp)
        with (request_entry options request context w).
      apply (bind_thrown _ _ _ _ _ Hh).
    + fold wp. fold (request_span request w). fold s.
      rewrite (bind_normal (span_recordException s e) _ w2 w3 tt eq_refl).
      unfold js_get at 1. rewrite Hmsg.
      rewrite (bind_normal (ret msg) _ w3 w3 msg eq_refl).
      rewrite (bind_normal (span_setStatus s _) _ w3 w4 tt eq_refl).
      rewrite (bind_normal (timer_end {| timer_start := now w |}) _ w4 w4
                 (now w2 - now w) eq_refl).
      rewrite (bind_normal _ _ _ _ _ Hrec).
      rewrite (bind_normal logger _ w5 w5 l eq_refl).
      unfold js_get. rewrite Hmsg, Hstack, Hname.
      rewrite (bind_normal (ret msg) _ w5 w5 msg eq_refl).
      rewrite (bind_normal (ret stk) _ w5 w5 stk eq_refl).
      rewrite (bind_normal (ret nm) _ w5 w5 nm eq_refl).
      unfold Logger_error. fold args.
      rewrite (bind_normal _ _ _ _ _ Hlog).
      reflexivity.
    + fold wp. fold (request_span request w). fold s.
      rewrite (bind_normal (span_end s) _ w6 w7 tt eq_refl).
      unfold decrementActiveRequests. exact Hdec.
  - split; [exact Hact |]. split; [exact Hrec |].
    destruct Hst8 as [Hj8 _]. destruct Hst5 as [Hj5 _].
    split; [exact Hj5 |].
    split; [exact Hm1 |]. split; [reflexivity |].
    cbn [journal with_activeSpan]. rewrite Hj8.
    unfold w7, w6. cbn [journal with_journal]. rewrite Hj5.
    unfold w4, w3. cbn [journal with_journal].
    rewrite <- !app_assoc. reflexivity.
Qed.

(** C1, at a handler that rejects with [null]: the [catch] block reads
    [err.message] and throws a TypeError of its own.  The span is ended and
    the active-requests counter is back at its value before the call, but no
    HTTP request metric is recorded, nothing is logged at error level, and
    the value that reaches the caller is the TypeError, not the [null] the
    handler threw. *)
Theorem withTelemetry_handler_throws_null :
  let request := sample_request "/api/users" None in
  let s := request_span request sample_world in
  let run := withTelemetry (reject VNull) sample_options request None
               sample_world in
  fst run
  = Throw (TypeError "Cannot read properties of null (reading 'message')") /\
  fst run <> Throw VNull /\
  calls_on s (journal (snd run)) = [ CallRecordException VNull; CallEnd ] /\
  samples METRIC_NAMES.HTTP_REQUEST_COUNT (journal (snd run)) = [] /\
  samples METRIC_NAMES.HTTP_ERROR_COUNT (journal (snd run)) = [] /\
  pino_records (journal (snd run))
  = [ (info, obj_of_request_log, "HTTP request received") ] /\
  end_count s (journal (snd run)) = 1%nat /\
  active_requests "/api/users" (journal (snd run))
  = active_requests "/api/users" (journal sample_world).
Proof.
  cbv zeta.
  split; [reflexivity |].
  split; [discriminate |].
  repeat split; reflexivity.
Qed.

(** The sibling wrapper [withMetrics] re-throws the same [null] unchanged
    and records the synthetic 500. *)
Lemma withMetrics_handler_throws_null :
  let run := withMetrics (reject VNull) "/api/users"
               (sample_request "/api/users" None) None sample_world in
  fst run = Throw VNull /\
  map fst (samples METRIC_NAMES.HTTP_REQUEST_COUNT (journal (snd run)))
  = [ VNum 1 ].
Proof.
  split; reflexivity.
Qed.

(** ** Sampling *)

Lemma initTelemetry_names_no_sampler (cfg : TelemetryConfig) (env : ProcessEnv) :
  sdk_sampler (initTelemetry cfg env) = None.
Proof.
  reflexivity.
Qed.

(** C2, on the code: [initTelemetry] hands [NodeSDK] no sampler, so the
    sampling decision of a span is the SDK default's and is the same
    whatever [TELEMETRY_CONFIG.sampling.ratio] holds.  A child gets its
    parent's decision under a parent-based default, but no default sampler
    makes the configured ratio decide the root both in development
    (ratio 1) and in production (ratio 1/10); with the parent-based
    always-on default a production root whose draw is 1/2 is sampled,
    although 1/2 is not below 1/10. *)
Theorem sampling_ratio_not_consulted :
  (forall (sdk_default : Sampler) (env : ProcessEnv) (r : Q)
          (parent : option bool) (draw : Q),
     span_sampled sdk_default
       (initTelemetry (with_ratio r (TELEMETRY_CONFIG env)) env) parent draw
     = span_sampled sdk_default
         (initTelemetry (TELEMETRY_CONFIG env) env) parent draw) /\
  (forall (root : Sampler) (env : ProcessEnv) (sampled : bool) (draw : Q),
     span_sampled (ParentBasedSampler root)
       (initTelemetry (TELEMETRY_CONFIG env) env) (Some sampled) draw
     = sampled) /\
  (forall sdk_default : Sampler,
     ~ (ratio_decides_root sdk_default empty_env /\
        ratio_decides_root sdk_default production_env)) /\
  span_sampled (ParentBasedSampler AlwaysOnSampler)
    (initTelemetry (TELEMETRY_CONFIG production_env) production_env)
    None (1 # 2) = true /\
  negb (Qle_bool (ratio (sampling (TELEMETRY_CONFIG production_env))) (1 # 2))
  = false.
Proof.
  split; [reflexivity |].
  split; [reflexivity |].
  split; [| split; reflexivity].
  intros sdk_default [Hdev Hprod].
  specialize (Hdev (1 # 2)). specialize (Hprod (1 # 2)).
  unfold span_sampled, tracer_sampler in Hdev, Hprod.
  rewrite initTelemetry_names_no_sampler in Hdev, Hprod.
  rewrite Hdev in Hprod. discriminate Hprod.
Qed.

(** ** The export queue *)

Section ExportQueueFacts.

Import ExportQueue.











End ExportQueueFacts.




(** ** The ingestion route *)

Lemma events_counted_app (j1 j2 : list Effect) :
  events_counted (j1 ++ j2)
  = (events_counted j1 + events_counted j2)%nat.
Proof.
  unfold events_counted. now rewrite samples_app, length_app.
Qed.

(** *** Runs by their steps *)

Lemma steps_app (j1 j2 : list Effect) :
  steps (j1 ++ j2) = (steps j1 ++ steps j2)%list.
Proof.
  apply map_app.
Qed.

Lemma performs_ret {A : Type} (P : A -> Prop) (a : A) :
  P a -> performs P [] (ret a).
Proof.
  intros HP w. exists a, w. repeat split; auto. now rewrite app_nil_r.
Qed.

Lemma performs_bind {A B : Type} (P : A -> Prop) (Q : B -> Prop)
  (o1 o2 : list Step) (c : M A) (k : A -> M B) :
  performs P o1 c ->
  (forall a, P a -> performs Q o2 (k a)) ->
  performs Q (o1 ++ o2) (bind c k).
Proof.
  intros Hc Hk w.
  destruct (Hc w) as [a [w1 [Hrun [HP [Hs Ha]]]]].
  destruct (Hk a HP w1) as [b [w2 [Hrun2 [HQ [Hs2 Ha2]]]]].
  exists b, w2. rewrite (bind_normal _ _ _ _ _ Hrun).
  split; [exact Hrun2 |]. split; [exact HQ |].
  split; [now rewrite Hs2, Hs, app_assoc | now rewrite Ha2].
Qed.

Lemma performs_after {A B : Type} (P : A -> Prop) (Q : B -> Prop)
  (o : list Step) (c : M A) (k : A -> M B) :
  performs P [] c ->
  (forall a, P a -> performs Q o (k a)) ->
  performs Q o (bind c k).
Proof.
  apply (performs_bind P Q [] o).
Qed.

Lemma performs_then {A B : Type} (P : A -> Prop) (Q : B -> Prop)
  (o : list Step) (c : M A) (k : A -> M B) :
  performs P o c ->
  (forall a, P a -> performs Q [] (k a)) ->
  performs Q o (bind c k).
Proof.
  intros Hc Hk. rewrite <- (app_nil_r o). now apply (performs_bind P Q).
Qed.

Lemma performs_any {A : Type} (P : A -> Prop) (o : list Step) (c : M A) :
  performs P o c -> performs any o c.
Proof.
  intros Hc w. destruct (Hc w) as [a [w1 [Hrun [_ Hrest]]]].
  exists a, w1. split; [exact Hrun |]. split; [exact I | exact Hrest].
Qed.

Lemma performs_emit (e : Effect) : performs any [ step_of e ] (emit e).
Proof.
  intros w. exists tt, (with_journal (journal w ++ [e]) w).
  repeat split. cbn [journal with_journal]. apply steps_app.
Qed.

Lemma performs_js_get (v : value) (k : string) (x : value) :
  js_prop v k = Some x -> performs (eq x) [] (js_get v k).
Proof.
  intros H. unfold js_get. rewrite H. now apply performs_ret.
Qed.

Lemma performs_js_String (v : value) :
  stringable v = true -> performs (eq (string_of_value v)) [] (js_String v).
Proof.
  intros H. unfold js_String. rewrite H. now apply performs_ret.
Qed.

Lemma performs_logger : performs any [] logger.
Proof.
  intros w. do 2 eexists. split; [reflexivity |]. split; [exact I |].
  split; [now rewrite app_nil_r | reflexivity].
Qed.

Lemma performs_Logger_log (level : LogLevel) (l : Logger) (context : Attributes)
  (msg : string) :
  performs any [ Logged level msg ]
    (Logger_log level l (LogContext context (Some msg))).
Proof.
  intros w.
  destruct (Logger_log_run level l (LogContext context (Some msg)) w)
    as [obj [msg' [Hrun [Hmsg _]]]].
  assert (Hm : msg' = msg).
  { rewrite Hmsg. unfold env_or.
    destruct (String.eqb msg "") eqn:E; [| reflexivity].
    apply String.eqb_eq in E. now subst msg. }
  subst msg'.
  do 2 eexists. split; [exact Hrun |]. split; [exact I |].
  cbn [journal with_journal activeSpan]. split; [| reflexivity].
  rewrite steps_app. cbn [steps map step_of]. now rewrite Hm.
Qed.

Lemma performs_createCounter (name description : string)
  (unit : option string) :
  performs (fun i => inst_name i = name) []
    (createCounter name description unit).
Proof.
  intros w. do 2 eexists. split; [reflexivity |]. split; [reflexivity |].
  split; [now rewrite app_nil_r | reflexivity].
Qed.

Lemma performs_createHistogram (name description : string)
  (unit : option string) :
  performs (fun i => inst_name i = name) []
    (createHistogram name description unit).
Proof.
  intros w. do 2 eexists. split; [reflexivity |]. split; [reflexivity |].
  split; [now rewrite app_nil_r | reflexivity].
Qed.

Lemma performs_instrument_record (i : Instrument) (v : value)
  (attrs : option Attributes) :
  performs any [ Sampled (inst_name i) v attrs ] (instrument_record i v attrs).
Proof.
  apply (performs_emit (Measured i v attrs)).
Qed.

Lemma performs_traceAsync {T : Type} (P : T -> Prop) (o : list Step)
  (spanName : string) (fn : M T) :
  performs P o fn ->
  performs P (in_span spanName o) (traceAsync spanName fn None).
Proof.
  intros Hfn w.
  destruct (Hfn (span_entry (serviceName (config w)) spanName
                   (trace_span_options None) w))
    as [a [w2 [Hrun [HP [Hs _]]]]].
  rewrite (traceAsync_run _ _ _ _ _ _ _ Hrun).
  do 2 eexists. split; [reflexivity |]. split; [exact HP |].
  split; [| reflexivity].
  cbn [journal with_journal with_activeSpan with_spansCreated span_entry] in *.
  rewrite steps_app, Hs, steps_app. unfold in_span. cbn.
  rewrite <- !app_assoc. reflexivity.
Qed.

Lemma performs_for_of (items : list value) (round : value -> M unit)
  (f : value -> list Step) :
  (forall e, In e items -> performs any (f e) (round e)) ->
  performs any (flat_map f items) (for_of items round).
Proof.
  induction items as [| x rest IH]; intros Hround.
  - apply performs_ret. exact I.
  - simpl for_of. cbn [flat_map].
    apply (performs_bind any any).
    + apply Hround. now left.
    + intros _ _. apply IH. intros e He. apply Hround. now right.
Qed.

Ltac read_property :=
  eapply performs_after;
  [ apply performs_js_get; reflexivity | intros ? <- ].

Ltac log_once :=
  eapply performs_after;
  [ apply performs_logger | intros ? _; repeat read_property;
    apply performs_Logger_log ].

Lemma processTraceEvent_performs (fields pf : Attributes) (s : string) :
  obj_get "name" fields = VStr s ->
  obj_get "properties" fields = VObj pf ->
  performs any
    (in_span "process.client.trace" [ Logged info ("Client event: " ++ s) ])
    (processTraceEvent (VObj fields)).
Proof.
  intros Hname Hprops. unfold processTraceEvent.
  apply performs_traceAsync.
  do 2 read_property. rewrite Hname.
  eapply performs_after; [apply performs_logger | intros l _].
  eapply performs_after;
    [ apply (performs_js_String (VStr s)); reflexivity | intros ? <- ].
  apply performs_Logger_log.
Qed.

Lemma processLogEvent_performs (fields pf : Attributes) (s : string) :
  obj_get "name" fields = VStr s ->
  obj_get "properties" fields = VObj pf ->
  performs any
    (in_span "process.client.log"
       (if js_is (VStr s) "client_error"
        then [ Logged error "Client-side error reported" ]
        else []))
    (processLogEvent (VObj fields)).
Proof.
  intros Hname Hprops. unfold processLogEvent.
  apply performs_traceAsync.
  do 2 read_property. rewrite Hname, Hprops.
  destruct (js_is (VStr s) "client_error").
  - log_once.
  - apply performs_ret. exact I.
Qed.

Lemma processMetricEvent_performs (fields pf : Attributes) (s : string) :
  obj_get "name" fields = VStr s ->
  obj_get "properties" fields = VObj pf ->
  (String.prefix "web_vital_" s = true ->
   stringable (obj_get "good" pf) = true /\
   stringable (js_or (obj_get "url" pf) (VStr "")) = true) ->
  performs any
    (in_span "process.client.metric"
       ((if String.prefix "web_vital_" s then
           [ Sampled "client.web_vitals" (obj_get "value" pf)
               (Some [ ("vital.name", VStr (drop_prefix "web_vital_" s));
                       ("vital.good",
                        VStr (string_of_value (obj_get "good" pf)));
                       ("page.url",
                        VStr (string_of_value
                                (js_or (obj_get "url" pf) (VStr "")))) ]);
             Logged info ("Web Vital: " ++ drop_prefix "web_vital_" s) ]
         else [])
        ++ (if js_is (VStr s) "navigation_timing"
            then [ Logged info "Navigation timing received" ]
            else [])
        ++ (if js_is (VStr s) "component_render"
               && truthy (obj_get "slow" pf)
            then [ Logged warn "Slow component render detected" ]
            else []))%list)
    (processMetricEvent (VObj fields)).
Proof.
  intros Hname Hprops Hconv. unfold processMetricEvent.
  apply performs_traceAsync.
  do 2 read_property. rewrite Hname, Hprops.
  eapply performs_after;
    [ apply (performs_ret (eq (String.prefix "web_vital_" s))); reflexivity
    | intros ? <- ].
  eapply (performs_bind any); [| intros _ _; eapply (performs_bind any);
                                 [| intros _ _] ].
  - destruct (String.prefix "web_vital_" s); [| apply performs_ret; exact I].
    destruct (Hconv eq_refl) as [Hgood Hpage]. cbv zeta.
    change (string_of_value (VStr s)) with s.
    do 2 read_property.
    eapply performs_after; [apply (performs_js_String _ Hgood) | intros ? <-].
    read_property.
    eapply performs_after; [apply (performs_js_String _ Hpage) | intros ? <-].
    eapply performs_after; [apply performs_createHistogram |].
    intros h Hh.
    eapply (performs_bind any any [ _ ] [ _ ]).
    + generalize (performs_instrument_record h (obj_get "value" pf)
                    (Some
                       [ ("vital.name", VStr (drop_prefix "web_vital_" s));
                         ("vital.good",
                          VStr (string_of_value (obj_get "good" pf)));
                         ("page.url",
                          VStr (string_of_value
                                  (js_or (obj_get "url" pf) (VStr "")))) ])).
      rewrite Hh. exact (fun H => H).
    + intros _ _. log_once.
  - destruct (js_is (VStr s) "navigation_timing");
      [log_once | apply performs_ret; exact I].
  - destruct (js_is (VStr s) "component_render");
      [| apply performs_ret; exact I].
    do 2 read_property. cbn [andb].
    destruct (truthy (obj_get "slow" pf)); [| apply performs_ret; exact I].
    log_once.
Qed.

(** One round of the loop, for an event of the shape the processors take:
    the event is counted and processed, step by step as [event_steps]
    says. *)
Lemma process_event_performs (e : value) :
  event_shape_ok e = true -> performs any (event_steps e) (process_event e).
Proof.
  intros Hshape. destruct e as [| | | | | | fields |]; try discriminate.
  simpl in Hshape. unfold event_steps.
  destruct (obj_get "name" fields) as [| | | | s | | |] eqn:Hname;
    try discriminate.
  destruct (obj_get "properties" fields) as [| | | | | | pf |] eqn:Hprops;
    try discriminate.
  cbv zeta. change (string_of_value (VStr s)) with s.
  unfold process_event.
  read_property. read_property.
  eapply performs_after; [apply performs_createCounter |].
  intros c Hc. rewrite Hname.
  eapply (performs_bind any any [ _ ]).
  - generalize (performs_instrument_record c (VNum 1)
                  (Some [ ("event.type", obj_get "type" fields);
                          ("event.name", VStr s) ])).
    rewrite Hc. exact (fun H => H).
  - intros _ _.
    destruct (js_is (obj_get "type" fields) "metric").
    + apply (processMetricEvent_performs _ _ _ Hname Hprops).
      intros Hp. rewrite Hp in Hshape. cbn [andb] in Hshape.
      now apply andb_prop in Hshape.
    + destruct (js_is (obj_get "type" fields) "trace");
        [exact (processTraceEvent_performs _ _ _ Hname Hprops) |].
      destruct (js_is (obj_get "type" fields) "log");
        [exact (processLogEvent_performs _ _ _ Hname Hprops) |].
      apply performs_ret. exact I.
Qed.

Lemma events_counted_steps (j : list Effect) :
  events_counted j = counted_in (steps j).
Proof.
  unfold events_counted, counted_in, steps.
  induction j as [| e j IH]; [reflexivity |].
  destruct e; simpl; try exact IH.
  destruct (String.eqb (inst_name i) "client.events.received"); simpl;
    now rewrite IH.
Qed.

Lemma event_steps_counted (e : value) :
  event_shape_ok e = true -> counted_in (event_steps e) = 1%nat.
Proof.
  intros Hshape. destruct e as [| | | | | | fields |]; try discriminate.
  unfold event_steps, counted_in, in_span. cbv zeta.
  cbn [filter is_event_count String.eqb Ascii.eqb Bool.eqb List.length].
  f_equal.
  destruct (js_is (obj_get "type" fields) "metric").
  - cbn [filter is_event_count app].
    rewrite !filter_app, !length_app.
    destruct (String.prefix "web_vital_" _);
      destruct (js_is (obj_get "name" fields) "navigation_timing");
      destruct (js_is (obj_get "name" fields) "component_render"
                && truthy _); reflexivity.
  - destruct (js_is (obj_get "type" fields) "trace"); [reflexivity |].
    destruct (js_is (obj_get "type" fields) "log"); [| reflexivity].
    cbn [filter is_event_count app]. rewrite filter_app, length_app.
    destruct (js_is (obj_get "name" fields) "client_error"); reflexivity.
Qed.

Lemma counted_in_app (o1 o2 : list Step) :
  counted_in (o1 ++ o2) = (counted_in o1 + counted_in o2)%nat.
Proof.
  unfold counted_in. now rewrite filter_app, length_app.
Qed.

Lemma batch_steps_counted (events : list value) :
  forallb event_shape_ok events = true ->
  counted_in (flat_map event_steps events) = List.length events.
Proof.
  induction events as [| e events IH]; intros Hshape; [reflexivity |].
  simpl in Hshape. apply andb_prop in Hshape. destruct Hshape as [He Hrest].
  cbn [flat_map List.length].
  now rewrite counted_in_app, (event_steps_counted e He), IH.
Qed.

(** The handler on a batch of events of the shape the processors take: it
    sets the event count on the active span, if there is one, then takes
    the events in turn, and answers with the number of events. *)
Lemma handleTelemetry_steps (request : NextRequest)
  (context : option RouteContext) (b : value) (events : list value)
  (w : World) :
  body request = Some b ->
  js_prop b "events" = Some (VArr events) ->
  forallb event_shape_ok events = true ->
  exists w' : World,
    handleTelemetry request context w
    = (Normal (success_response (Z.of_nat (List.length events))), w') /\
    steps (journal w')
    = (steps (journal w)
       ++ match activeSpan w with
          | Some _ =>
              [ Called
                  (CallSetAttributes
                     [ ("telemetry.event_count",
                        VNum (Z.of_nat (List.length events)));
                       ("telemetry.source", VStr "client") ]) ]
          | None => []
          end
       ++ flat_map event_steps events)%list /\
    activeSpan w' = activeSpan w.
Proof.
  intros Hbody Hevents Hshape.
  set (attrs := [ ("telemetry.event_count",
                   VNum (Z.of_nat (List.length events)));
                  ("telemetry.source", VStr "client") ]).
  assert (Hattrs :
            exists w1,
              addSpanAttributes attrs w = (Normal tt, w1) /\
              steps (journal w1)
              = (steps (journal w)
                 ++ match activeSpan w with
                    | Some _ => [ Called (CallSetAttributes attrs) ]
                    | None => []
                    end)%list /\
              activeSpan w1 = activeSpan w).
  { unfold addSpanAttributes, getActiveSpan, bind.
    destruct (activeSpan w) as [s |] eqn:Hs; eexists;
      (split; [reflexivity |]); cbn [journal with_journal activeSpan].
    - split; [apply steps_app | exact Hs].
    - split; [now rewrite app_nil_r | exact Hs]. }
  destruct Hattrs as [w1 [Hrun1 [Hs1 Ha1]]].
  assert (Hloop : performs any (flat_map event_steps events)
                    (for_of events process_event)).
  { apply performs_for_of. intros e He. apply process_event_performs.
    rewrite forallb_forall in Hshape. now apply Hshape. }
  destruct (Hloop w1) as [[] [w2 [Hrun2 [_ [Hs2 Ha2]]]]].
  exists w2. split; [| split].
  - unfold handleTelemetry, request_json. rewrite Hbody.
    rewrite (bind_normal (ret b) _ w w b eq_refl).
    rewrite (bind_normal (js_get b "events") _ w w (VArr events))
      by (unfold js_get; now rewrite Hevents).
    cbv zeta. change (js_or (VArr events) (VArr [])) with (VArr events).
    rewrite (bind_normal (js_get (VArr events) "length") _ w w
               (VNum (Z.of_nat (List.length events))) eq_refl).
    fold attrs. rewrite (bind_normal _ _ _ _ _ Hrun1).
    rewrite (bind_normal (js_iterate (VArr events)) _ w1 w1 events eq_refl).
    rewrite (bind_normal _ _ _ _ _ Hrun2).
    reflexivity.
  - rewrite Hs2, Hs1, <- app_assoc. reflexivity.
  - now rewrite Ha2, Ha1.
Qed.




(** C10 as stated fails on the JSON body [null]: it has no [events] field,
    and reading [body.events] throws. *)
Lemma null_body_is_rejected :
  fst (handleTelemetry (sample_request "/api/telemetry" (Some VNull)) None
         sample_world)
  = Throw (TypeError "Cannot read properties of null (reading 'events')") /\
  fst (POST (sample_request "/api/telemetry" (Some VNull)) None sample_world)
  = Throw (TypeError "Cannot read properties of null (reading 'events')").
Proof.
  split; reflexivity.
Qed.

(** C10, as the code has it: when the JSON body is not [null] and has no
    [events] field, or has one that is falsy or the empty list, the handler
    treats it as an empty batch: its only effect is to set the event count 0
    and the source on the active span, if there is one, and it answers with
    a success payload whose [processed] field is 0. *)
Theorem handleTelemetry_empty_batch :
  forall (request : NextRequest) (context : option RouteContext) (w : World)
         (b ev : value),
    body request = Some b ->
    js_prop b "events" = Some ev ->
    truthy ev = false \/ ev = VArr [] ->
    handleTelemetry request context w
    = (Normal (success_response 0),
       match activeSpan w with
       | Some s =>
           with_journal
             (journal w
              ++ [ SpanCalled s
                     (CallSetAttributes
                        [ ("telemetry.event_count", VNum 0);
                          ("telemetry.source", VStr "client") ]) ])
             w
       | None => w
       end) /\
    events_counted
      (journal (snd (handleTelemetry request context w)))
    = events_counted (journal w).
Proof.
  intros request context w b ev Hbody Hprop Hev.
  assert (Hor : js_or ev (VArr []) = VArr []).
  { destruct Hev as [Hf | ->]; [| reflexivity]. unfold js_or. now rewrite Hf. }
  assert (Hrun :
    handleTelemetry request context w
    = (Normal (success_response 0),
       match activeSpan w with
       | Some s =>
           with_journal
             (journal w
              ++ [ SpanCalled s
                     (CallSetAttributes
                        [ ("telemetry.event_count", VNum 0);
                          ("telemetry.source", VStr "client") ]) ])
             w
       | None => w
       end)).
  { unfold handleTelemetry, request_json. rewrite Hbody.
    rewrite (bind_normal (ret b) _ w w b eq_refl).
    unfold js_get at 1. rewrite Hprop.
    rewrite (bind_normal (ret ev) _ w w ev eq_refl).
    cbv zeta. rewrite Hor.
    unfold addSpanAttributes, getActiveSpan.
    cbv beta iota zeta delta [bind ret js_get js_prop].
    destruct (activeSpan w); reflexivity. }
  split; [exact Hrun |].
  rewrite Hrun. cbn [snd].
  destruct (activeSpan w); [| reflexivity].
  cbn [journal with_journal]. rewrite events_counted_app. cbn. lia.
Qed.

(** A JSON object without an [events] field. *)
Lemma handleTelemetry_empty_batch_witness :
  handleTelemetry
    (sample_request "/api/telemetry" (Some (VObj [ ("batch", VNum 7) ])))
    None sample_world
  = (Normal (success_response 0), sample_world).
Proof.
  destruct (handleTelemetry_empty_batch
              (sample_request "/api/telemetry"
                 (Some (VObj [ ("batch", VNum 7) ])))
              None sample_world (VObj [ ("batch", VNum 7) ]) VUndefined
              eq_refl eq_refl (or_introl eq_refl))
    as [Hrun _].
  exact Hrun.
Defined.

(** * Further properties *)

(** ** The request wrapper on every exit path *)

Lemma recordHttpRequest_adds (r : HttpRequestMetric) (w : World) :
  caches_ok w = true ->
  let attrs := Some (http_metric_attributes r) in
  exists (w' : World) (ext : list Effect),
    recordHttpRequest r w = (Normal tt, w') /\
    stepped w w' ext /\
    only_measured ext = true /\
    caches_ok w' = true /\
    samples METRIC_NAMES.HTTP_ACTIVE_REQUESTS ext = [] /\
    samples METRIC_NAMES.HTTP_REQUEST_COUNT ext = [ (VNum 1, attrs) ] /\
    samples METRIC_NAMES.HTTP_REQUEST_DURATION ext
    = [ (VNum (m_duration r), attrs) ] /\
    samples METRIC_NAMES.HTTP_ERROR_COUNT ext
    = (if m_statusCode r >=? 400 then [ (VNum 1, attrs) ] else []).
Proof.
  intros Hok attrs.
  destruct w as [j a n p t cfg c d u e].
  unfold caches_ok in Hok. simpl in Hok.
  apply andb_prop in Hok. destruct Hok as [Hok He].
  apply andb_prop in Hok. destruct Hok as [Hok Hu].
  apply andb_prop in Hok. destruct Hok as [Hc Hd].
  unfold METRIC_NAMES.HTTP_REQUEST_COUNT, METRIC_NAMES.HTTP_ERROR_COUNT,
    METRIC_NAMES.HTTP_REQUEST_DURATION, METRIC_NAMES.HTTP_ACTIVE_REQUESTS in *.
  name_cached Hc Nc c; name_cached Hd Nd d; name_cached He Ne e;
    cbv beta iota zeta delta [recordHttpRequest bind ret getHttpRequestCounter
      getHttpRequestDuration getHttpErrorCounter getMeter get_config
      instrument_record emit httpRequestCounter httpRequestDuration
      httpErrorCounter with_journal with_httpRequestCounter
      with_httpRequestDuration with_httpErrorCounter journal activeSpan
      spansCreated provider now config httpActiveRequests];
    destruct (m_statusCode r >=? 400) eqn:Hge;
    do 2 eexists; (split; [reflexivity |]);
    (split;
     [ unfold stepped;
       cbn [journal activeSpan spansCreated provider now config];
       rewrite <- ?app_assoc; repeat split; cbn [app]; reflexivity |]);
    (split; [reflexivity |]);
    (split;
     [ unfold caches_ok, METRIC_NAMES.HTTP_REQUEST_COUNT,
         METRIC_NAMES.HTTP_ERROR_COUNT, METRIC_NAMES.HTTP_REQUEST_DURATION,
         METRIC_NAMES.HTTP_ACTIVE_REQUESTS;
       cbn -[String.eqb named];
       rewrite ?Hc, ?Hd, ?He, ?Hu; reflexivity |]);
    cbn -[String.eqb http_metric_attributes];
    rewrite ?Nc, ?Nd, ?Ne; cbn -[http_metric_attributes];
    repeat split; reflexivity.
Qed.

Lemma caches_ok_journal (j : list Effect) (w : World) :
  caches_ok (with_journal j w) = caches_ok w.
Proof.
  reflexivity.
Qed.

(** The [finally] block: one [end()] on the span, one decrement. *)
Lemma wrapper_cleanup_run (s : Span) (tag : option Attributes) (wb : World) :
  exists (wc : World) (i : Instrument),
    (span_end s ;; decrementActiveRequests tag) wb = (Normal tt, wc) /\
    journal wc
    = (journal wb ++ [ SpanCalled s CallEnd; Measured i (VNum (-1)) tag ])%list /\
    (caches_ok wb = true ->
     inst_name i = METRIC_NAMES.HTTP_ACTIVE_REQUESTS /\ caches_ok wc = true).
Proof.
  set (w7 := with_journal (journal wb ++ [SpanCalled s CallEnd]) wb).
  destruct (activeRequests_measures (-1) tag w7) as [wc [i [Hdec [Hst Hok]]]].
  exists wc, i.
  rewrite (bind_normal (span_end s) _ wb w7 tt eq_refl).
  split; [exact Hdec |].
  destruct Hst as [Hj _]. split.
  - rewrite Hj. unfold w7. cbn [journal with_journal].
    now rewrite <- app_assoc.
  - intros H. destruct (Hok H) as [H1 H2]. auto.
Qed.

Lemma samples_calls (name : string) (s : Span) (cs : list SpanCall) :
  samples name (map (SpanCalled s) cs) = [].
Proof.
  induction cs; auto.
Qed.

Ltac enter_wrapper Hskip Hpre wp :=
  unfold withTelemetry; rewrite Hskip;
  match goal with
  | |- bind get_config _ ?w = _ =>
      rewrite (bind_normal get_config _ w w (config w) eq_refl); cbv zeta;
      rewrite (bind_normal startTimer _ w w {| timer_start := now w |} eq_refl);
      change (incrementActiveRequests ?a ;; ?k)%js
        with (bind (incrementActiveRequests a) (fun _ => k));
      unfold bind at 1; unfold bind in Hpre;
      let Hinc := fresh "Hinc" in
      match goal with
      | |- context [incrementActiveRequests ?a w] =>
          destruct (incrementActiveRequests a w)
            as [[[] | ?] ?] eqn:Hinc; [| discriminate Hpre]
      end;
      rewrite (bind_normal _ _ _ _ _ Hpre);
      apply startActiveSpan_run; fold wp
  end.

(** Every exit path of the wrapper, with what it adds to the journal. *)
Lemma withTelemetry_exit (handler : ApiHandler) (options : TelemetryOptions)
  (request : NextRequest) (context : option RouteContext) (w w2 : World)
  (r : Completion NextResponse) :
  skipped options (pathname request) = false ->
  handler request context (request_entry options request context w) = (r, w2) ->
  let s := request_span request w in
  let tag := Some [ ("http.route", VStr (pathname request)) ] in
  exists (final : World) (mid : list Effect) (i : Instrument),
    withTelemetry handler options request context w
    = (wrapper_completion r, final) /\
    activeSpan final = activeSpan w /\
    journal final
    = (journal w2 ++ mid
       ++ [ SpanCalled s CallEnd; Measured i (VNum (-1)) tag ])%list /\
    (calls_on s mid ++ [ CallEnd ])%list = wrapper_calls r /\
    map (fun x => fst (fst x)) (pino_records mid)
    = match r with
      | Normal response => [ response_log_level (status response) ]
      | Throw e => match js_prop e "message" with
                   | Some _ => [ error ]
                   | None => []
                   end
      end /\
    (caches_ok w2 = true ->
     caches_ok final = true /\
     inst_name i = METRIC_NAMES.HTTP_ACTIVE_REQUESTS /\
     samples METRIC_NAMES.HTTP_ACTIVE_REQUESTS mid = [] /\
     status_codes (samples METRIC_NAMES.HTTP_REQUEST_COUNT mid)
     = match wrapper_reported_status r with
       | Some c => [ VNum c ]
       | None => []
       end /\
     status_codes (samples METRIC_NAMES.HTTP_ERROR_COUNT mid)
     = match wrapper_reported_status r with
       | Some c => if c >=? 400 then [ VNum c ] else []
       | None => []
       end).
Proof.
  intros Hskip Hh s tag.
  destruct (request_prelude_run request w) as [i0 [b0 [obj0 [Hpre [Hst0 _]]]]].
  set (wp := request_prelude_world request w) in *.
  destruct Hst0 as [_ [Hact [_ [_ [Hnow _]]]]].
  destruct r as [response | e]; [| destruct (js_prop e "message") as [msg |] eqn:Hmsg].
  - (* the handler returned *)
    set (c := status response).
    set (A1 := SpanCalled s
                 (CallSetAttribute SEMANTIC_ATTRIBUTES.HTTP_STATUS_CODE (VNum c))).
    set (st := if c >=? 400
               then {| code := ERROR;
                       message := VStr ("HTTP " ++ string_of_Z c) |}
               else {| code := OK; message := VUndefined |}).
    set (w3 := with_journal (journal w2 ++ [A1]) w2).
    set (w4 := with_journal (journal w3 ++ [SpanCalled s (CallSetStatus st)]) w3).
    set (rec := {| m_method := method request; m_route := pathname request;
                   m_statusCode := c; m_duration := now w4 - now w |}).
    destruct (recordHttpRequest_measures rec w4) as [w5 [m1 [Hrec [Hst5 Hm1]]]].
    destruct (logHttpResponse_run
                {| rs_method := method request; rs_url := url request;
                   rs_statusCode := c; rs_duration := now w4 - now w |} w5)
      as [b [obj Hlog]].
    set (P := PinoLogged b (response_log_level c) obj "HTTP response sent").
    set (w6 := with_journal (journal w5 ++ [P]) w5) in *.
    destruct (wrapper_cleanup_run s tag w6) as [wc [i [Hclean [Hjc Hokc]]]].
    exists (with_activeSpan (activeSpan wp) wc),
           ([A1; SpanCalled s (CallSetStatus st)] ++ m1 ++ [P])%list, i.
    assert (Hj5 : journal w5 = (journal w4 ++ m1)%list) by apply Hst5.
    split; [| split; [exact Hact | split; [| split; [| split]]]].
    + enter_wrapper Hskip Hpre wp.
      eapply try_returns; [| exact Hclean].
      change (span_entry (serviceName (config w)) (name options)
                (server_span_options options request context) wp)
        with (request_entry options request context w).
      rewrite (bind_normal _ _ _ _ _ Hh). fold c.
      rewrite (bind_normal (span_setAttribute s _ _) _ w2 w3 tt eq_refl).
      assert (Hstatus :
        (if c >=? 400
         then span_setStatus s
                {| code := ERROR; message := VStr ("HTTP " ++ string_of_Z c) |}
         else span_setStatus s {| code := OK; message := VUndefined |}) w3
        = (Normal tt, w4)).
      { unfold w4, st. destruct (c >=? 400); reflexivity. }
      rewrite (bind_normal _ _ _ _ _ Hstatus).
      rewrite (bind_normal (timer_end {| timer_start := now w |}) _ w4 w4
                 (now w4 - now w) eq_refl).
      rewrite (bind_normal _ _ _ _ _ Hrec).
      rewrite (bind_normal _ _ _ _ _ Hlog).
      reflexivity.
    + cbn [journal with_activeSpan]. rewrite Hjc.
      unfold w6. cbn [journal with_journal]. rewrite Hj5.
      unfold w4, w3. cbn [journal with_journal].
      rewrite <- !app_assoc. reflexivity.
    + rewrite !calls_on_app, (only_measured_calls _ _ Hm1).
      unfold A1, P. cbn. unfold same_span. rewrite Nat.eqb_refl. reflexivity.
    + rewrite !pino_records_app, (only_measured_pino _ Hm1). reflexivity.
    + intros Hok.
      destruct (recordHttpRequest_adds rec w4 Hok)
        as [w5' [m1' [Hrec' [Hst5' [_ [Hok5 [Sa [Sc [_ Se]]]]]]]]].
      rewrite Hrec in Hrec'. injection Hrec' as <-.
      assert (m1' = m1).
      { destruct Hst5' as [Hj5' _]. rewrite Hj5 in Hj5'.
        now apply app_inv_head in Hj5'. }
      subst m1'.
      destruct (Hokc Hok5) as [Hname Hokf].
      split; [exact Hokf |]. split; [exact Hname |].
      rewrite !samples_app, Sa, Sc, Se. unfold A1, P.
      cbn -[http_metric_attributes]. split; [reflexivity |].
      unfold rec at 1 2. cbn [m_statusCode].
      unfold wrapper_reported_status. fold c.
      destruct (c >=? 400); split; reflexivity.
  - (* the handler threw a value that has properties *)
    assert (Hprops : exists st nm,
              js_prop e "stack" = Some st /\ js_prop e "name" = Some nm).
    { destruct e; try discriminate Hmsg; do 2 eexists; split; reflexivity. }
    destruct Hprops as [stk [nm [Hstack Hname]]].
    set (A1 := SpanCalled s (CallRecordException e)).
    set (A2 := SpanCalled s
                 (CallSetStatus {| code := ERROR; message := msg |})).
    set (w3 := with_journal (journal w2 ++ [A1]) w2).
    set (w4 := with_journal (journal w3 ++ [A2]) w3).
    set (rec := {| m_method := method request; m_route := pathname request;
                   m_statusCode := 500; m_duration := now w4 - now w |}).
    destruct (recordHttpRequest_measures rec w4) as [w5 [m1 [Hrec [Hst5 Hm1]]]].
    set (args := LogContext
                   [ ("error", VObj [ ("message", msg); ("stack", stk);
                                      ("name", nm) ]);
                     ("http", VObj [ ("method", VStr (method request));
                                     ("url", VStr (url request)) ]) ]
                   (Some "Unhandled error in API route")).
    set (l := {| pinoLogger :=
                   {| bindings :=
                        [ ("service", VStr (serviceName (config w5)));
                          ("version", VStr (serviceVersion (config w5)));
                          ("env", VStr (environment (config w5))) ] |} |}).
    destruct (Logger_log_run error l args w5) as [obj [txt [Hlog [Htxt _]]]].
    simpl in Htxt. subst txt.
    set (P := PinoLogged (bindings (pinoLogger l)) error obj
                "Unhandled error in API route").
    set (w6 := with_journal (journal w5 ++ [P]) w5) in *.
    destruct (wrapper_cleanup_run s tag w6) as [wc [i [Hclean [Hjc Hokc]]]].
    exists (with_activeSpan (activeSpan wp) wc),
           ([A1; A2] ++ m1 ++ [P])%list, i.
    assert (Hj5 : journal w5 = (journal w4 ++ m1)%list) by apply Hst5.
    split; [| split; [exact Hact | split; [| split; [| split]]]].
    + unfold wrapper_completion. rewrite Hmsg.
      enter_wrapper Hskip Hpre wp.
      eapply try_caught; [| | exact Hclean].
      * change (span_entry (serviceName (config w)) (name options)
                  (server_span_options options request context) wp)
          with (request_entry options request context w).
        apply (bind_thrown _ _ _ _ _ Hh).
      * rewrite (bind_normal (span_recordException s e) _ w2 w3 tt eq_refl).
        unfold js_get at 1. rewrite Hmsg.
        rewrite (bind_normal (ret msg) _ w3 w3 msg eq_refl).
        rewrite (bind_normal (span_setStatus s _) _ w3 w4 tt eq_refl).
        rewrite (bind_normal (timer_end {| timer_start := now w |}) _ w4 w4
                   (now w4 - now w) eq_refl).
        rewrite (bind_normal _ _ _ _ _ Hrec).
        rewrite (bind_normal logger _ w5 w5 l eq_refl).
        unfold js_get. rewrite Hmsg, Hstack, Hname.
        rewrite (bind_normal (ret msg) _ w5 w5 msg eq_refl).
        rewrite (bind_normal (ret stk) _ w5 w5 stk eq_refl).
        rewrite (bind_normal (ret nm) _ w5 w5 nm eq_refl).
        unfold Logger_error. fold args.
        rewrite (bind_normal _ _ _ _ _ Hlog).
        reflexivity.
    + cbn [journal with_activeSpan]. rewrite Hjc.
      unfold w6. cbn [journal with_journal]. rewrite Hj5.
      unfold w4, w3. cbn [journal with_journal].
      rewrite <- !app_assoc. reflexivity.
    + rewrite !calls_on_app, (only_measured_calls _ _ Hm1).
      unfold A1, A2, P, wrapper_calls. rewrite Hmsg.
      cbn. unfold same_span. rewrite Nat.eqb_refl. reflexivity.
    + rewrite !pino_records_app, (only_measured_pino _ Hm1). reflexivity.
    + intros Hok.
      destruct (recordHttpRequest_adds rec w4 Hok)
        as [w5' [m1' [Hrec' [Hst5' [_ [Hok5 [Sa [Sc [_ Se]]]]]]]]].
      rewrite Hrec in Hrec'. injection Hrec' as <-.
      assert (m1' = m1).
      { destruct Hst5' as [Hj5' _]. rewrite Hj5 in Hj5'.
        now apply app_inv_head in Hj5'. }
      subst m1'.
      destruct (Hokc Hok5) as [Hnm Hokf].
      split; [exact Hokf |]. split; [exact Hnm |].
      rewrite !samples_app, Sa, Sc, Se. unfold A1, A2, P.
      unfold wrapper_reported_status. rewrite Hmsg.
      cbn. repeat split; reflexivity.
  - (* the handler threw null or undefined *)
    set (A1 := SpanCalled s (CallRecordException e)).
    set (w3 := with_journal (journal w2 ++ [A1]) w2).
    destruct (wrapper_cleanup_run s tag w3) as [wc [i [Hclean [Hjc Hokc]]]].
    exists (with_activeSpan (activeSpan wp) wc), [A1], i.
    split; [| split; [exact Hact | split; [| split; [| split]]]].
    + unfold wrapper_completion. rewrite Hmsg.
      enter_wrapper Hskip Hpre wp.
      eapply try_caught; [| | exact Hclean].
      * change (span_entry (serviceName (config w)) (name options)
                  (server_span_options options request context) wp)
          with (request_entry options request context w).
        apply (bind_thrown _ _ _ _ _ Hh).
      * rewrite (bind_normal (span_recordException s e) _ w2 w3 tt eq_refl).
        unfold js_get at 1. rewrite Hmsg. reflexivity.
    + cbn [journal with_activeSpan]. rewrite Hjc.
      unfold w3. cbn [journal with_journal].
      rewrite <- !app_assoc. reflexivity.
    + unfold A1, wrapper_calls. rewrite Hmsg.
      cbn. unfold same_span. rewrite Nat.eqb_refl. reflexivity.
    + reflexivity.
    + intros Hok. destruct (Hokc Hok) as [Hnm Hokf].
      split; [exact Hokf |]. split; [exact Hnm |].
      unfold wrapper_reported_status. rewrite Hmsg.
      repeat split; reflexivity.
Qed.

Lemma wrapper_calls_end_once (r : Completion NextResponse) :
  List.length (filter is_end (wrapper_calls r)) = 1%nat.
Proof.
  destruct r as [response | e]; [reflexivity |].
  unfold wrapper_calls. destruct (js_prop e "message"); reflexivity.
Qed.

Lemma wrapper_calls_end_last (r : Completion NextResponse) :
  exists cs : list SpanCall,
    wrapper_calls r = (cs ++ [ CallEnd ])%list /\ filter is_end cs = [].
Proof.
  destruct r as [response | e].
  - eexists [ _; _ ]. split; reflexivity.
  - unfold wrapper_calls. destruct (js_prop e "message").
    + eexists [ _; _ ]. split; reflexivity.
    + eexists [ _ ]. split; reflexivity.
Qed.

Lemma wrapper_completion_keeps (e : value) :
  e <> VNull -> e <> VUndefined ->
  wrapper_completion (A := NextResponse) (Throw e) = Throw e.
Proof.
  intros Hn Hu. unfold wrapper_completion.
  destruct e; try reflexivity; congruence.
Qed.

(** On every exit path of a wrapped handler (it returns, it throws a value
    with properties, it throws [null] or [undefined]) the wrapper restores
    the active span and ends its server span exactly once, as its last call
    on that span; a response is returned unchanged and a thrown value other
    than [null] and [undefined] is re-thrown unchanged. *)
Theorem withTelemetry_ends_span_on_every_exit :
  forall (handler : ApiHandler) (options : TelemetryOptions)
         (request : NextRequest) (context : option RouteContext)
         (w w2 : World) (r : Completion NextResponse),
    skipped options (pathname request) = false ->
    handler request context (request_entry options request context w)
    = (r, w2) ->
    let s := request_span request w in
    exists (final : World) (r' : Completion NextResponse)
           (cs : list SpanCall),
      withTelemetry handler options request context w = (r', final) /\
      (forall response, r = Normal response -> r' = Normal response) /\
      (forall e, r = Throw e -> e <> VNull -> e <> VUndefined ->
       r' = Throw e) /\
      activeSpan final = activeSpan w /\
      calls_on s (journal final)
      = (calls_on s (journal w2) ++ cs ++ [ CallEnd ])%list /\
      filter is_end cs = [] /\
      end_count s (journal final) = S (end_count s (journal w2)).
Proof.
  intros handler options request context w w2 r Hskip Hh s.
  destruct (withTelemetry_exit handler options request context w w2 r Hskip Hh)
    as [final [mid [i [Hrun [Hact [Hj [Hcalls _]]]]]]].
  fold s in Hj, Hcalls.
  assert (Hc : calls_on s (journal final)
               = (calls_on s (journal w2) ++ wrapper_calls r)%list).
  { rewrite Hj, !calls_on_app, <- Hcalls. cbn.
    unfold same_span. rewrite Nat.eqb_refl. reflexivity. }
  destruct (wrapper_calls_end_last r) as [cs [Hcs Hnone]].
  exists final, (wrapper_completion r), cs.
  split; [exact Hrun |].
  split; [intros response ->; reflexivity |].
  split; [intros e -> Hn0 Hu0; now apply wrapper_completion_keeps |].
  split; [exact Hact |].
  split; [rewrite Hc, Hcs; reflexivity |].
  split; [exact Hnone |].
  unfold end_count. rewrite Hc, filter_app, length_app.
  rewrite wrapper_calls_end_once. lia.
Qed.

(** A handler that rejects with [undefined], as [Promise.reject()] does:
    the caller gets the TypeError of the [catch] block, and the server span
    is ended once. *)
Lemma withTelemetry_ends_span_on_every_exit_witness :
  exists (final : World) (r' : Completion NextResponse),
    withTelemetry (reject VUndefined) sample_options
      (sample_request "/api/users" None) None sample_world
    = (r', final) /\
    end_count (request_span (sample_request "/api/users" None) sample_world)
      (journal final) = 1%nat.
Proof.
  destruct (withTelemetry_ends_span_on_every_exit (reject VUndefined)
              sample_options (sample_request "/api/users" None) None
              sample_world _ (Throw VUndefined) eq_refl eq_refl)
    as [final [r' [cs [Hrun [_ [_ [_ [_ [_ Hend]]]]]]]]].
  exists final, r'. split; [exact Hrun |]. exact Hend.
Defined.

Lemma fold_add_from (l : list Z) (a : Z) :
  fold_left Z.add l a = a + fold_left Z.add l 0.
Proof.
  revert a. induction l as [| x rest IH]; intros a; simpl; [lia |].
  rewrite IH, (IH x). lia.
Qed.

Lemma active_requests_app (route : string) (j1 j2 : list Effect) :
  active_requests route (j1 ++ j2)
  = active_requests route j1 + active_requests route j2.
Proof.
  unfold active_requests.
  rewrite samples_app, filter_app, map_app, fold_left_app.
  now rewrite fold_add_from.
Qed.

Lemma active_requests_none (route : string) (j : list Effect) :
  samples METRIC_NAMES.HTTP_ACTIVE_REQUESTS j = [] ->
  active_requests route j = 0.
Proof.
  intros H. unfold active_requests. now rewrite H.
Qed.

Lemma active_requests_one (route : string) (i : Instrument) (n : Z) :
  inst_name i = METRIC_NAMES.HTTP_ACTIVE_REQUESTS ->
  active_requests route
    [ Measured i (VNum n) (Some [ ("http.route", VStr route) ]) ] = n.
Proof.
  intros H. unfold active_requests. simpl. rewrite H. simpl.
  unfold tagged. simpl. rewrite String.eqb_refl. reflexivity.
Qed.

(** The active-requests gauge of the request's route is one higher while
    the handler runs and, on every exit path, one lower after the wrapper
    than the handler left it: a handler that does not touch the gauge leaves
    it, after the call, at its value before the call. *)
Theorem withTelemetry_active_requests_balance :
  forall (handler : ApiHandler) (options : TelemetryOptions)
         (request : NextRequest) (context : option RouteContext)
         (w w2 : World) (r : Completion NextResponse),
    skipped options (pathname request) = false ->
    handler request context (request_entry options request context w)
    = (r, w2) ->
    caches_ok w = true ->
    caches_ok w2 = true ->
    let route := pathname request in
    let entry := request_entry options request context w in
    let final := snd (withTelemetry handler options request context w) in
    active_requests route (journal entry)
    = active_requests route (journal w) + 1 /\
    active_requests route (journal final)
    = active_requests route (journal w2) - 1 /\
    caches_ok final = true /\
    (active_requests route (journal w2) = active_requests route (journal entry) ->
     active_requests route (journal final) = active_requests route (journal w)).
Proof.
  intros handler options request context w w2 r Hskip Hh Hok Hok2
         route entry final.
  destruct (withTelemetry_exit handler options request context w w2 r Hskip Hh)
    as [final' [mid [i [Hrun [_ [Hj [_ [_ Hcaches]]]]]]]].
  destruct (Hcaches Hok2) as [Hokf [Hname [Hmid _]]].
  assert (final = final') by (unfold final; now rewrite Hrun). subst final'.
  destruct (request_prelude_run request w)
    as [i0 [b0 [obj0 [_ [[Hj0 _] Hok0]]]]].
  destruct (Hok0 Hok) as [_ Hname0].
  assert (Hentry : active_requests route (journal entry)
                   = active_requests route (journal w) + 1).
  { unfold entry, request_entry, span_entry.
    cbn [journal with_journal with_activeSpan with_spansCreated].
    rewrite Hj0, !active_requests_app.
    change (active_requests route
              [Measured i0 (VNum 1) (Some [("http.route", VStr (pathname request))]);
               PinoLogged b0 info obj0 "HTTP request received"])
      with (active_requests route
              ([Measured i0 (VNum 1) (Some [("http.route", VStr route)])]
               ++ [PinoLogged b0 info obj0 "HTTP request received"])).
    rewrite active_requests_app, (active_requests_one _ _ _ Hname0).
    cbn. lia. }
  assert (Hfinal : active_requests route (journal final)
                   = active_requests route (journal w2) - 1).
  { rewrite Hj, !active_requests_app, (active_requests_none _ _ Hmid).
    change ([SpanCalled (request_span request w) CallEnd;
             Measured i (VNum (-1)) (Some [("http.route", VStr (pathname request))])])
      with ([SpanCalled (request_span request w) CallEnd]
            ++ [Measured i (VNum (-1)) (Some [("http.route", VStr route)])])%list.
    rewrite active_requests_app, (active_requests_one _ _ _ Hname).
    cbn. lia. }
  split; [exact Hentry |]. split; [exact Hfinal |]. split; [exact Hokf |].
  intros Hsame. rewrite Hfinal, Hsame, Hentry. lia.
Qed.

(** A handler that rejects with [null] in the initial world. *)
Lemma withTelemetry_active_requests_balance_witness :
  active_requests "/api/users"
    (journal (snd (withTelemetry (reject VNull) sample_options
                     (sample_request "/api/users" None) None sample_world)))
  = active_requests "/api/users" (journal sample_world).
Proof.
  destruct (withTelemetry_active_requests_balance (reject VNull)
              sample_options (sample_request "/api/users" None) None
              sample_world _ (Throw VNull) eq_refl eq_refl eq_refl eq_refl)
    as [_ [_ [_ Hsame]]].
  apply Hsame. reflexivity.
Defined.

Lemma status_codes_app (a b : list (value * option Attributes)) :
  status_codes (a ++ b) = (status_codes a ++ status_codes b)%list.
Proof.
  apply map_app.
Qed.

(** What the wrapper reports on each exit path: one request sample with the
    response's status code, or with the synthetic 500 when the handler threw
    a value with properties, and an error sample when that code is at least
    400; one log record, at the response's level or at error level.  When
    the handler threw [null] or [undefined] it reports neither. *)
Theorem withTelemetry_reports_on_every_exit :
  forall (handler : ApiHandler) (options : TelemetryOptions)
         (request : NextRequest) (context : option RouteContext)
         (w w2 : World) (r : Completion NextResponse),
    skipped options (pathname request) = false ->
    handler request context (request_entry options request context w)
    = (r, w2) ->
    caches_ok w2 = true ->
    let final := snd (withTelemetry handler options request context w) in
    let reported :=
      match r with
      | Normal response => Some (status response)
      | Throw VNull | Throw VUndefined => None
      | Throw _ => Some 500
      end in
    status_codes (samples METRIC_NAMES.HTTP_REQUEST_COUNT (journal final))
    = (status_codes (samples METRIC_NAMES.HTTP_REQUEST_COUNT (journal w2))
       ++ match reported with Some c => [ VNum c ] | None => [] end)%list /\
    status_codes (samples METRIC_NAMES.HTTP_ERROR_COUNT (journal final))
    = (status_codes (samples METRIC_NAMES.HTTP_ERROR_COUNT (journal w2))
       ++ match reported with
          | Some c => if c >=? 400 then [ VNum c ] else []
          | None => []
          end)%list /\
    levels (pino_records (journal final))
    = (levels (pino_records (journal w2))
       ++ match r with
          | Normal response => [ response_log_level (status response) ]
          | Throw VNull | Throw VUndefined => []
          | Throw _ => [ error ]
          end)%list.
Proof.
  intros handler options request context w w2 r Hskip Hh Hok2 final reported.
  destruct (withTelemetry_exit handler options request context w w2 r Hskip Hh)
    as [final' [mid [i [Hrun [_ [Hj [_ [Hlev Hcaches]]]]]]]].
  destruct (Hcaches Hok2) as [_ [Hname [_ [Hreq Herr]]]].
  assert (final = final') by (unfold final; now rewrite Hrun). subst final'.
  assert (Hrep : wrapper_reported_status r = reported).
  { unfold wrapper_reported_status, reported.
    destruct r as [response | e]; [reflexivity |]. destruct e; reflexivity. }
  rewrite Hrep in Hreq, Herr.
  unfold METRIC_NAMES.HTTP_ACTIVE_REQUESTS in Hname.
  rewrite Hj, !samples_app, !status_codes_app, Hreq, Herr.
  unfold levels. rewrite !pino_records_app, !map_app, Hlev.
  cbn -[Z.geb]. rewrite Hname. cbn -[Z.geb]. rewrite !app_nil_r.
  repeat split.
  destruct r as [response | e]; [reflexivity |]. destruct e; reflexivity.
Qed.

(** A handler that throws an Error in the initial world: one sample with
    the synthetic 500 on both counters, one record at error level after the
    request's own. *)
Lemma withTelemetry_reports_on_every_exit_witness :
  let final :=
    snd (withTelemetry (reject (VError "Error" "boom" "")) sample_options
           (sample_request "/api/users" None) None sample_world) in
  status_codes (samples METRIC_NAMES.HTTP_REQUEST_COUNT (journal final))
  = [ VNum 500 ] /\
  status_codes (samples METRIC_NAMES.HTTP_ERROR_COUNT (journal final))
  = [ VNum 500 ] /\
  levels (pino_records (journal final)) = [ info; error ].
Proof.
  exact (withTelemetry_reports_on_every_exit (reject (VError "Error" "boom" ""))
           sample_options (sample_request "/api/users" None) None
           sample_world _ (Throw (VError "Error" "boom" "")) eq_refl eq_refl
           eq_refl).
Defined.

(** ** The metrics-only wrapper *)

(** [withMetrics] hands back the handler's completion unchanged, whatever
    was thrown, and adds measurements only: one request sample with the
    response's status code, or with 500 when the handler threw, tagged with
    the route name it was given.  It makes no call on a span and logs
    nothing. *)
Theorem withMetrics_only_measures :
  forall (handler : ApiHandler) (routeName : string) (request : NextRequest)
         (context : option RouteContext) (w w2 : World)
         (r : Completion NextResponse),
    handler request context w = (r, w2) ->
    caches_ok w2 = true ->
    let code := match r with
                | Normal response => status response
                | Throw _ => 500
                end in
    exists (final : World) (m : list Effect),
      withMetrics handler routeName request context w = (r, final) /\
      journal final = (journal w2 ++ m)%list /\
      only_measured m = true /\
      activeSpan final = activeSpan w2 /\
      (forall s, calls_on s (journal final) = calls_on s (journal w2)) /\
      pino_records (journal final) = pino_records (journal w2) /\
      samples METRIC_NAMES.HTTP_REQUEST_COUNT m
      = [ (VNum 1,
           Some [ ("http.method", VStr (method request));
                  ("http.route", VStr routeName);
                  ("http.status_code", VNum code);
                  ("http.status_class",
                   VStr (string_of_Z (code / 100) ++ "xx")) ]) ] /\
      samples METRIC_NAMES.HTTP_REQUEST_DURATION m
      = [ (VNum (now w2 - now w),
           Some [ ("http.method", VStr (method request));
                  ("http.route", VStr routeName);
                  ("http.status_code", VNum code);
                  ("http.status_class",
                   VStr (string_of_Z (code / 100) ++ "xx")) ]) ].
Proof.
  intros handler routeName request context w w2 r Hh Hok code.
  set (rec := {| m_method := method request; m_route := routeName;
                 m_statusCode := code; m_duration := now w2 - now w |}).
  destruct (recordHttpRequest_adds rec w2 Hok)
    as [w3 [m [Hrec [Hst [Hm [_ [_ [Sc [Sd _]]]]]]]]].
  destruct Hst as [Hj [Hact _]].
  exists w3, m.
  split.
  - unfold withMetrics.
    rewrite (bind_normal startTimer _ w w {| timer_start := now w |} eq_refl).
    unfold try_catch.
    destruct r as [response | e].
    + eapply try_returns; [| reflexivity].
      rewrite (bind_normal _ _ _ _ _ Hh).
      rewrite (bind_normal (timer_end {| timer_start := now w |}) _ w2 w2
                 (now w2 - now w) eq_refl).
      fold code. fold rec. rewrite (bind_normal _ _ _ _ _ Hrec). reflexivity.
    + eapply try_caught; [apply (bind_thrown _ _ _ _ _ Hh) | | reflexivity].
      rewrite (bind_normal (timer_end {| timer_start := now w |}) _ w2 w2
                 (now w2 - now w) eq_refl).
      fold code. fold rec. rewrite (bind_normal _ _ _ _ _ Hrec). reflexivity.
  - split; [exact Hj |]. split; [exact Hm |]. split; [exact Hact |].
    split; [| split; [| split; [exact Sc | exact Sd]]].
    + intros s. rewrite Hj, calls_on_app, (only_measured_calls _ _ Hm).
      apply app_nil_r.
    + rewrite Hj, pino_records_app, (only_measured_pino _ Hm).
      apply app_nil_r.
Qed.

(** A health check that throws [null]: the same [null] comes back, with one
    sample for a 500 on [/api/health]. *)
Lemma withMetrics_only_measures_witness :
  exists (final : World) (m : list Effect),
    withMetrics (reject VNull) "/api/health"
      (sample_request "/api/health" None) None sample_world
    = (Throw VNull, final) /\
    status_codes (samples METRIC_NAMES.HTTP_REQUEST_COUNT m) = [ VNum 500 ] /\
    journal final = m.
Proof.
  destruct (withMetrics_only_measures (reject VNull) "/api/health"
              (sample_request "/api/health" None) None sample_world _
              (Throw VNull) eq_refl eq_refl)
    as [final [m [Hrun [Hj [_ [_ [_ [_ [Sc _]]]]]]]]].
  exists final, m. split; [exact Hrun |].
  split; [rewrite Sc; reflexivity | exact Hj].
Defined.

(** ** Scoped runs inside scoped runs *)

Lemma spans_started_app (j1 j2 : list Effect) :
  spans_started (j1 ++ j2)
  = (spans_started j1 ++ spans_started j2)%list.
Proof.
  induction j1 as [| e j1 IH]; [reflexivity |].
  destruct e; simpl; now rewrite IH.
Qed.

Lemma spans_started_calls (s : Span) (cs : list SpanCall) :
  spans_started (map (SpanCalled s) cs) = [].
Proof.
  induction cs as [| c cs IH]; [reflexivity | exact IH].
Qed.

(** A scoped run inside a scoped run: the inner span is a new span whose
    parent is the outer one, which in turn has the caller's active span as
    parent; the inner span is finished before the outer one, both with the
    calls of the callback's completion, which reaches the caller unchanged;
    the caller's active span is restored.  This holds where the outer run
    waits for the inner one: [traceAsync] around [traceAsync], and, for a
    callback that returns no promise, [traceAsync] or [traceSync] around
    [traceSync].  [traceSync] does not await what its callback returns, so
    an asynchronous run is not nested in it. *)
Theorem scoped_runs_nest :
  forall (T : Type) (outer inner : string) (fn : M T)
         (oo oi : option TraceOptions) (w w2 : World) (r : Completion T),
    let we := span_entry (serviceName (config w)) outer
                (trace_span_options oo) w in
    let wi := span_entry (serviceName (config w)) inner
                (trace_span_options oi) we in
    fn wi = (r, w2) ->
    let so := new_span w in
    let si := new_span we in
    exists final : World,
      traceAsync outer (traceAsync inner fn oi) oo w = (r, final) /\
      traceAsync outer (traceSync inner fn oi) oo w = (r, final) /\
      traceSync outer (traceSync inner fn oi) oo w = (r, final) /\
      same_span so si = false /\
      spans_started (journal wi)
      = (spans_started (journal w)
         ++ [ (so, outer, trace_span_options oo, activeSpan w);
              (si, inner, trace_span_options oi, Some so) ])%list /\
      activeSpan wi = Some si /\
      journal final
      = (journal w2
         ++ map (SpanCalled si) (scoped_calls r)
         ++ map (SpanCalled so) (scoped_calls r))%list /\
      activeSpan final = activeSpan w.
Proof.
  intros T outer inner fn oo oi w w2 r we wi Hfn so si.
  assert (Hasync : traceAsync inner fn oi we
                   = (r, with_activeSpan (activeSpan we)
                           (with_journal
                              (journal w2
                               ++ map (SpanCalled si) (scoped_calls r))
                              w2))).
  { apply traceAsync_run. exact Hfn. }
  assert (Hsync : traceSync inner fn oi we
                  = (r, with_activeSpan (activeSpan we)
                          (with_journal
                             (journal w2
                              ++ map (SpanCalled si) (scoped_calls r))
                             w2))).
  { apply traceSync_run. exact Hfn. }
  eexists. split; [apply traceAsync_run; exact Hasync |].
  split; [apply traceAsync_run; exact Hsync |].
  split; [apply traceSync_run; exact Hsync |].
  split.
  { unfold same_span, so, si, we. cbn. apply Nat.eqb_neq. lia. }
  split.
  { unfold wi, we. cbn. rewrite !spans_started_app. cbn.
    rewrite <- app_assoc. reflexivity. }
  split; [reflexivity |].
  split; [cbn; rewrite <- app_assoc; reflexivity | reflexivity].
Qed.

(** A callback that returns 7 without touching anything. *)
Lemma scoped_runs_nest_witness :
  exists final : World,
    traceAsync "outer" (traceAsync "inner" (ret 7%Z) None) None sample_world
    = (Normal 7%Z, final) /\
    calls_on (new_span sample_world) (journal final)
    = [ CallSetStatus {| code := OK; message := VUndefined |}; CallEnd ] /\
    activeSpan final = None.
Proof.
  destruct (scoped_runs_nest Z "outer" "inner" (ret 7%Z) None None
              sample_world _ (Normal 7%Z) eq_refl)
    as [final [Hrun [_ [_ [_ [_ [_ [Hj Hact]]]]]]]].
  exists final. split; [exact Hrun |].
  split; [rewrite Hj; reflexivity | exact Hact].
Defined.

(** ** Logging inside a scoped run *)

(** A record logged inside [traceAsync] carries the identifiers of the span
    the run created, not those of the caller's span; once the run is over,
    records are stamped with the caller's context again. *)
Theorem log_in_scoped_run_carries_its_span :
  forall (level : LogLevel) (l : Logger) (args : LogArgs)
         (spanName : string) (options : option TraceOptions) (w : World),
    let s := new_span w in
    exists (final : World) (obj : Attributes) (msg : string),
      traceAsync spanName (Logger_log level l args) options w
      = (Normal tt, final) /\
      pino_records (journal final)
      = (pino_records (journal w) ++ [ (level, obj, msg) ])%list /\
      obj_get "trace_id" obj = VStr (traceId (spanContext s)) /\
      obj_get "span_id" obj = VStr (spanId (spanContext s)) /\
      calls_on s (journal final)
      = (calls_on s (journal w)
         ++ [ CallSetStatus {| code := OK; message := VUndefined |};
              CallEnd ])%list /\
      current_context final = current_context w.
Proof.
  intros level l args spanName options w s.
  destruct (Logger_log_run level l args
              (span_entry (serviceName (config w)) spanName
                 (trace_span_options options) w))
    as [obj [msg [Hrun [_ [Ht Hs]]]]].
  eexists. exists obj, msg.
  split; [apply traceAsync_run; exact Hrun |].
  split.
  { cbn. rewrite !pino_records_app. cbn.
    rewrite !app_nil_r. reflexivity. }
  split; [exact Ht |]. split; [exact Hs |].
  split; [| reflexivity].
  cbn. rewrite !calls_on_app. cbn.
  rewrite Nat.eqb_refl, !app_nil_r. reflexivity.
Qed.

(** ** Helpers on the active span *)

(** [recordException] with a span active: the exception is recorded first;
    the status message is the given message when it is a non-empty string
    and the error's own [message] otherwise; and when that has to be read
    off [null] or [undefined] the helper throws a TypeError, after the
    exception was recorded and without setting a status. *)
Theorem recordException_message_fallback :
  forall (err : value) (msg : option string) (w : World) (s : Span),
    activeSpan w = Some s ->
    let given := match msg with
                 | Some text => negb (String.eqb text "")
                 | None => false
                 end in
    (given = true ->
     recordException err msg w
     = (Normal tt,
        with_journal
          (journal w
           ++ [ SpanCalled s (CallRecordException err);
                SpanCalled s
                  (CallSetStatus
                     {| code := ERROR;
                        message := VStr (env_or msg "") |}) ])
          w)) /\
    (given = false ->
     forall m, js_prop err "message" = Some m ->
     recordException err msg w
     = (Normal tt,
        with_journal
          (journal w
           ++ [ SpanCalled s (CallRecordException err);
                SpanCalled s
                  (CallSetStatus {| code := ERROR; message := m |}) ])
          w)) /\
    (given = false ->
     js_prop err "message" = None ->
     exists e,
       recordException err msg w
       = (Throw e,
          with_journal
            (journal w ++ [ SpanCalled s (CallRecordException err) ]) w) /\
       instanceof_Error e = true).
Proof.
  intros err msg w s Hs given. subst given.
  unfold recordException, getActiveSpan.
  cbv beta iota delta [bind]. rewrite Hs.
  split; [| split].
  - intros Hg. destruct msg as [text |]; [| discriminate Hg].
    simpl in Hg. cbn. rewrite Hg.
    apply Bool.negb_true_iff in Hg. rewrite Hg.
    unfold ret, span_setStatus, emit, with_journal. cbn.
    rewrite <- app_assoc. reflexivity.
  - intros Hg m Hm.
    assert (Hread :
              (match msg with
               | Some s' =>
                   if truthy (VStr s') then ret (VStr s')
                   else js_get err "message"
               | None => js_get err "message"
               end) = js_get err "message").
    { destruct msg as [text |]; [| reflexivity].
      simpl in Hg. cbn. now rewrite Hg. }
    rewrite Hread. unfold js_get. rewrite Hm.
    unfold ret, span_setStatus, emit, with_journal. cbn.
    rewrite <- app_assoc. reflexivity.
  - intros Hg Hm.
    assert (Hread :
              (match msg with
               | Some s' =>
                   if truthy (VStr s') then ret (VStr s')
                   else js_get err "message"
               | None => js_get err "message"
               end) = js_get err "message").
    { destruct msg as [text |]; [| reflexivity].
      simpl in Hg. cbn. now rewrite Hg. }
    rewrite Hread. unfold js_get. rewrite Hm.
    eexists. split; reflexivity.
Qed.

(** An empty message falls back to the message of the Error. *)
Lemma recordException_message_fallback_witness :
  calls_on (new_span sample_world)
    (journal
       (snd (recordException (VError "Error" "boom" "") (Some "")
               (with_activeSpan (Some (new_span sample_world))
                  sample_world))))
  = [ CallRecordException (VError "Error" "boom" "");
      CallSetStatus {| code := ERROR; message := VStr "boom" |} ].
Proof.
  destruct (recordException_message_fallback (VError "Error" "boom" "")
              (Some "")
              (with_activeSpan (Some (new_span sample_world)) sample_world)
              (new_span sample_world) eq_refl)
    as [_ [Hfall _]].
  rewrite (Hfall eq_refl (VStr "boom") eq_refl). reflexivity.
Defined.

(** Without an active span the three helpers do nothing at all: no call is
    made, nothing is read off the error (so none of them can throw, even on
    [null]), and the world is left as it was. *)
Theorem span_helpers_without_active_span :
  forall (w : World) (attrs : Attributes) (name : string)
         (eattrs : option Attributes) (err : value) (msg : option string),
    activeSpan w = None ->
    addSpanAttributes attrs w = (Normal tt, w) /\
    addSpanEvent name eattrs w = (Normal tt, w) /\
    recordException err msg w = (Normal tt, w).
Proof.
  intros w attrs name eattrs err msg Hnone.
  unfold addSpanAttributes, addSpanEvent, recordException, getActiveSpan.
  cbv beta iota delta [bind]. rewrite Hnone.
  repeat split.
Qed.

Lemma span_helpers_without_active_span_witness :
  recordException VNull None sample_world = (Normal tt, sample_world).
Proof.
  apply (span_helpers_without_active_span sample_world [] "" None VNull None
           eq_refl).
Defined.

(** ** Database spans *)

(** [traceDbOperation] runs its callback in a client span called
    [db.<operation>]; the span carries the system (['postgresql'] unless
    one is given), the operation and the table, and a [db.statement]
    attribute exactly when a non-empty statement was given.  The callback's
    completion reaches the caller unchanged and the span is ended once. *)
Theorem traceDbOperation_span :
  forall (T : Type) (d : DbOperation T) (w : World),
  exists (o : SpanOptions) (attrs : Attributes),
    kind o = CLIENT /\
    attributes o = Some attrs /\
    obj_get "db.system" attrs
    = VStr (match db_dbSystem d with
            | Some system => system
            | None => "postgresql"
            end) /\
    obj_get "db.operation" attrs = VStr (db_operation d) /\
    obj_get "db.sql.table" attrs = VStr (db_table d) /\
    obj_get "db.statement" attrs
    = match db_statement d with
      | Some st => if String.eqb st "" then VUndefined else VStr st
      | None => VUndefined
      end /\
    List.length attrs
    = match db_statement d with
      | Some st => if String.eqb st "" then 3%nat else 4%nat
      | None => 3%nat
      end /\
    forall (w2 : World) (r : Completion T),
      db_fn d (span_entry (serviceName (config w))
                 ("db." ++ db_operation d) o w) = (r, w2) ->
      exists final : World,
        traceDbOperation d w = (r, final) /\
        activeSpan final = activeSpan w /\
        end_count (new_span w) (journal final)
        = S (end_count (new_span w) (journal w2)).
Proof.
  intros T d w.
  set (attrs :=
         obj_spread
           [ (SEMANTIC_ATTRIBUTES.DB_SYSTEM,
              VStr (match db_dbSystem d with
                    | Some system => system
                    | None => "postgresql"
                    end));
             (SEMANTIC_ATTRIBUTES.DB_OPERATION, VStr (db_operation d));
             ("db.sql.table", VStr (db_table d)) ]
           (own_properties (statement_attribute (db_statement d)))).
  exists {| kind := CLIENT; attributes := Some attrs |}, attrs.
  subst attrs.
  split; [reflexivity |]. split; [reflexivity |].
  assert (Hcases : db_statement d = None \/ db_statement d = Some ""
                   \/ exists st, db_statement d = Some st
                                  /\ String.eqb st "" = false).
  { destruct (db_statement d) as [st |]; [| now left].
    right. destruct (String.eqb st "") eqn:E.
    - left. apply String.eqb_eq in E. now subst st.
    - right. now exists st. }
  repeat split.
  - destruct Hcases as [-> | [-> | [st [-> E]]]]; try reflexivity.
    cbn. rewrite E. reflexivity.
  - destruct Hcases as [-> | [-> | [st [-> E]]]]; try reflexivity.
    cbn. rewrite E. reflexivity.
  - destruct Hcases as [-> | [-> | [st [-> E]]]]; try reflexivity.
    cbn. rewrite E. reflexivity.
  - destruct Hcases as [-> | [-> | [st [-> E]]]]; try reflexivity.
    cbn. rewrite E. reflexivity.
  - destruct Hcases as [-> | [-> | [st [-> E]]]]; try reflexivity.
    cbn. rewrite E. reflexivity.
  - intros w2 r Hfn.
    eexists. split; [apply traceAsync_run; exact Hfn |].
    split; [reflexivity |].
    unfold end_count. rewrite scoped_final_calls, filter_app, length_app.
    rewrite scoped_calls_end_once. lia.
Qed.

(** A query without a statement that fails with an Error. *)
Lemma traceDbOperation_span_witness :
  exists final : World,
    traceDbOperation
      {| db_operation := "findMany"; db_table := "users";
         db_statement := None; db_dbSystem := None;
         db_fn := throw (A := value) (VError "Error" "down" "") |}
      sample_world
    = (Throw (VError "Error" "down" ""), final) /\
    end_count (new_span sample_world) (journal final) = 1%nat.
Proof.
  destruct (traceDbOperation_span value
              {| db_operation := "findMany"; db_table := "users";
                 db_statement := None; db_dbSystem := None;
                 db_fn := throw (A := value) (VError "Error" "down" "") |}
              sample_world)
    as [o [attrs [_ [_ [_ [_ [_ [_ [_ Hrun]]]]]]]]].
  destruct (Hrun _ (Throw (VError "Error" "down" "")) eq_refl)
    as [final [Hf [_ Hend]]].
  exists final. split; [exact Hf | exact Hend].
Defined.

(** ** Object spread *)

Lemma obj_get_app (k : string) (a b : Attributes) :
  obj_get k (a ++ b)%list
  = if has_key k a then obj_get k a else obj_get k b.
Proof.
  induction a as [| [k' v'] a IH]; [reflexivity |].
  unfold has_key in *. simpl.
  destruct (String.eqb k k'); [reflexivity | exact IH].
Qed.

Lemma has_key_set (k k' : string) (v : value) (o : Attributes) :
  has_key k (obj_set k' v o) = (String.eqb k k' || has_key k o)%bool.
Proof.
  unfold has_key, keys.
  induction o as [| [k2 v2] o IH]; simpl.
  - reflexivity.
  - destruct (String.eqb k' k2) eqn:E; simpl.
    + apply String.eqb_eq in E. subst k2.
      destruct (String.eqb k k'); reflexivity.
    + rewrite IH.
      destruct (String.eqb k k'), (String.eqb k k2); reflexivity.
Qed.

Lemma obj_get_no_key (k : string) (o : Attributes) :
  has_key k o = false -> obj_get k o = VUndefined.
Proof.
  unfold has_key, keys.
  induction o as [| [k' v'] o IH]; [reflexivity |].
  simpl. destruct (String.eqb k k'); [discriminate | exact IH].
Qed.

(** [{...a, ...b}.k] is [b.k] when [b] has the key and [a.k] otherwise; a
    key [b] binds more than once takes its last value. *)
Lemma obj_get_spread (k : string) (a b : Attributes) :
  obj_get k (obj_spread a b) = obj_get k (rev b ++ a)%list.
Proof.
  unfold obj_spread. revert a.
  induction b as [| [k' v'] b IH]; intros a; [reflexivity |].
  simpl. rewrite IH, <- app_assoc, 2!(obj_get_app k (rev b)).
  destruct (has_key k (rev b)); [reflexivity |]. simpl.
  destruct (String.eqb k k') eqn:E.
  - apply String.eqb_eq in E. subst k'. apply obj_get_set_same.
  - now apply obj_get_set_other.
Qed.

Lemma has_key_rev (k : string) (o : Attributes) :
  has_key k (rev o) = has_key k o.
Proof.
  unfold has_key, keys.
  induction o as [| [k' v'] o IH]; [reflexivity |].
  simpl. rewrite map_app, existsb_app, IH. simpl.
  rewrite Bool.orb_false_r. apply Bool.orb_comm.
Qed.

Lemma obj_get_in (k : string) (v : value) (o : Attributes) :
  NoDup (keys o) -> In (k, v) o -> obj_get k o = v.
Proof.
  unfold keys.
  induction o as [| [k' v'] o IH]; intros Hnd Hin; [destruct Hin |].
  simpl in *. inversion Hnd as [| ? ? Hnot Hnd']; subst.
  destruct Hin as [Heq | Hin].
  - inversion Heq; subst. now rewrite String.eqb_refl.
  - destruct (String.eqb k k') eqn:E.
    + apply String.eqb_eq in E. subst k'.
      exfalso. apply Hnot. now apply (in_map fst _ (k, v)).
    + now apply IH.
Qed.

Lemma obj_get_rev (k : string) (o : Attributes) :
  NoDup (keys o) -> obj_get k (rev o) = obj_get k o.
Proof.
  unfold keys.
  induction o as [| [k' v'] o IH]; intros Hnd; [reflexivity |].
  inversion Hnd as [| ? ? Hnot Hnd']; subst.
  simpl. rewrite obj_get_app, has_key_rev. simpl.
  destruct (String.eqb k k') eqn:E.
  - apply String.eqb_eq in E. subst k'.
    destruct (has_key k o) eqn:Hk; [| reflexivity].
    exfalso. apply Hnot. unfold has_key, keys in Hk.
    apply existsb_exists in Hk. destruct Hk as [x [Hx Heq]].
    apply String.eqb_eq in Heq. now subst x.
  - destruct (has_key k o) eqn:Hk; [now apply IH |].
    symmetry. now apply obj_get_no_key.
Qed.

(** ** Trace context on a log record *)

(** [withTraceContext] keeps every field of the caller's context except
    [trace_id] and [span_id]: those two always come from the active span
    (or are the all-zero identifiers), whatever the caller put there. *)
Theorem withTraceContext_keeps_context_fields :
  forall (context : Attributes) (w : World),
    NoDup (keys context) ->
    exists obj : Attributes,
      withTraceContext (Some context) w = (Normal obj, w) /\
      (forall k, k <> "trace_id" -> k <> "span_id" ->
                 obj_get k obj = obj_get k context) /\
      obj_get "trace_id" obj = VStr (traceId (current_context w)) /\
      obj_get "span_id" obj = VStr (spanId (current_context w)).
Proof.
  intros context w Hnd. eexists.
  split; [apply withTraceContext_run |].
  split; [| split].
  - intros k Ht Hs.
    rewrite !obj_get_set_other by (now apply String.eqb_neq).
    rewrite obj_get_spread, app_nil_r. now apply obj_get_rev.
  - rewrite obj_get_set_other by reflexivity. apply obj_get_set_same.
  - apply obj_get_set_same.
Qed.

(** A caller that tries to set [trace_id] itself. *)
Lemma withTraceContext_keeps_context_fields_witness :
  exists obj : Attributes,
    withTraceContext (Some [ ("userId", VStr "u1");
                             ("trace_id", VStr "forged") ]) sample_world
    = (Normal obj, sample_world) /\
    obj_get "userId" obj = VStr "u1" /\
    obj_get "trace_id" obj = VStr (zeros 32).
Proof.
  destruct (withTraceContext_keeps_context_fields
              [ ("userId", VStr "u1"); ("trace_id", VStr "forged") ]
              sample_world)
    as [obj [Hrun [Hkeep [Ht _]]]].
  - repeat constructor; simpl; intuition discriminate.
  - exists obj. split; [exact Hrun |].
    split; [| exact Ht].
    rewrite Hkeep by discriminate. reflexivity.
Defined.

(** ** Domain loggers *)

Lemma logger_run (w : World) :
  exists l : Logger, logger w = (Normal l, w).
Proof.
  eexists. reflexivity.
Qed.

(** [logDatabaseQuery] writes exactly one record: a warning marked
    [slow: true] when the query took more than 100 ms, and otherwise (100 ms
    included) a debug record without a [slow] field. *)
Theorem logDatabaseQuery_threshold :
  forall (query : DatabaseQueryLog) (w : World),
  exists (b obj db : Attributes) (msg : string),
    logDatabaseQuery query w
    = (Normal tt,
       with_journal
         (journal w
          ++ [ PinoLogged b
                 (if q_duration query >? 100 then warn else debug) obj msg ])
         w) /\
    obj_get "db" obj = VObj db /\
    obj_get "operation" db = VStr (q_operation query) /\
    obj_get "table" db = VStr (q_table query) /\
    obj_get "slow" db
    = (if q_duration query >? 100 then VBool true else VUndefined) /\
    has_key "slow" db = (q_duration query >? 100) /\
    msg = (if q_duration query >? 100
           then "Slow database query detected"
           else "Database query executed") /\
    obj_get "trace_id" obj = VStr (traceId (current_context w)).
Proof.
  intros query w.
  unfold logDatabaseQuery, slowQueryThreshold.
  destruct (q_duration query >? 100);
    unfold logger, baseLogger, get_config, Logger_warn, Logger_debug,
      Logger_log;
    cbv beta iota zeta delta [bind ret];
    rewrite withTraceContext_run;
    do 4 eexists; (split; [reflexivity |]);
    repeat split; reflexivity.
Qed.

(** [logSecurityEvent] writes exactly one record, at info level for a
    successful action and at warn level for a failed one, with the outcome
    in [security.success] and the action in the message. *)
Theorem logSecurityEvent_level :
  forall (event : SecurityEvent) (w : World),
  exists (b obj sec : Attributes),
    logSecurityEvent event w
    = (Normal tt,
       with_journal
         (journal w
          ++ [ PinoLogged b (if se_success event then info else warn) obj
                 ("Security event: " ++ se_action event) ])
         w) /\
    obj_get "security" obj = VObj sec /\
    obj_get "success" sec = VBool (se_success event) /\
    obj_get "action" sec = VStr (se_action event) /\
    obj_get "trace_id" obj = VStr (traceId (current_context w)) /\
    obj_get "span_id" obj = VStr (spanId (current_context w)).
Proof.
  intros event w.
  unfold logSecurityEvent, logger, baseLogger, get_config, Logger_log.
  cbv beta iota zeta delta [bind ret].
  rewrite withTraceContext_run.
  do 3 eexists. split; [reflexivity |].
  repeat split; reflexivity.
Qed.

(** [logBusinessEvent] spreads the event's properties after its [name] and
    [userId]: every property is in the record, so a property called [name]
    or [userId] replaces the event's own, while the message always carries
    the event's name; without such a property the event's own name is
    kept. *)
Theorem logBusinessEvent_properties_win :
  forall (event : BusinessEvent) (properties : Attributes) (w : World),
    be_properties event = Some properties ->
    NoDup (keys properties) ->
    exists (b obj fields : Attributes),
      logBusinessEvent event w
      = (Normal tt,
         with_journal
           (journal w
            ++ [ PinoLogged b info obj
                   ("Business event: " ++ be_name event) ])
           w) /\
      obj_get "event" obj = VObj fields /\
      (forall k v, In (k, v) properties -> obj_get k fields = v) /\
      (has_key "name" properties = false ->
       obj_get "name" fields = VStr (be_name event)) /\
      (has_key "userId" properties = false ->
       obj_get "userId" fields = optional_string (be_userId event)).
Proof.
  intros event properties w Hp Hnd.
  unfold logBusinessEvent, logger, baseLogger, get_config, Logger_info,
    Logger_log.
  cbv beta iota zeta delta [bind ret].
  rewrite withTraceContext_run, Hp.
  do 3 eexists. split; [reflexivity |].
  split; [reflexivity |].
  cbn [own_properties].
  split; [| split].
  - intros k v Hin. rewrite obj_get_spread, obj_get_app, has_key_rev.
    assert (Hk : has_key k properties = true).
    { unfold has_key, keys. apply existsb_exists. exists k.
      split; [now apply (in_map fst _ (k, v)) | apply String.eqb_refl]. }
    rewrite Hk, obj_get_rev by assumption. now apply obj_get_in.
  - intros Hk. rewrite obj_get_spread, obj_get_app, has_key_rev, Hk.
    reflexivity.
  - intros Hk. rewrite obj_get_spread, obj_get_app, has_key_rev, Hk.
    reflexivity.
Qed.

(** A signup event whose properties carry a [name] of their own. *)
Lemma logBusinessEvent_properties_win_witness :
  exists (b obj fields : Attributes),
    logBusinessEvent
      {| be_name := "signup"; be_userId := None;
         be_properties := Some [ ("name", VStr "override") ] |}
      sample_world
    = (Normal tt,
       with_journal
         (journal sample_world
          ++ [ PinoLogged b info obj "Business event: signup" ])
         sample_world) /\
    obj_get "event" obj = VObj fields /\
    obj_get "name" fields = VStr "override".
Proof.
  destruct (logBusinessEvent_properties_win
              {| be_name := "signup"; be_userId := None;
                 be_properties := Some [ ("name", VStr "override") ] |}
              [ ("name", VStr "override") ] sample_world eq_refl)
    as [b [obj [fields [Hrun [Hev [Hin _]]]]]].
  - repeat constructor; simpl; intuition.
  - exists b, obj, fields. split; [exact Hrun |].
    split; [exact Hev |]. apply Hin. now left.
Defined.

(** ** Lazily created instruments *)

(** Each of the four HTTP instruments is created at most once: a getter
    records nothing, and after its first call every further call returns
    the same instrument and leaves the module state as it is. *)
Theorem http_instruments_are_created_once :
  forall w : World,
    (exists i w1,
        getHttpRequestCounter w = (Normal i, w1) /\
        journal w1 = journal w /\
        httpRequestCounter w1 = Some i /\
        getHttpRequestCounter w1 = (Normal i, w1)) /\
    (exists i w1,
        getHttpRequestDuration w = (Normal i, w1) /\
        journal w1 = journal w /\
        httpRequestDuration w1 = Some i /\
        getHttpRequestDuration w1 = (Normal i, w1)) /\
    (exists i w1,
        getHttpActiveRequests w = (Normal i, w1) /\
        journal w1 = journal w /\
        httpActiveRequests w1 = Some i /\
        getHttpActiveRequests w1 = (Normal i, w1)) /\
    (exists i w1,
        getHttpErrorCounter w = (Normal i, w1) /\
        journal w1 = journal w /\
        httpErrorCounter w1 = Some i /\
        getHttpErrorCounter w1 = (Normal i, w1)).
Proof.
  intros [j a n p t cfg c d u e].
  split; [| split; [| split]].
  - destruct c as [c |]; cbv; do 2 eexists; repeat split.
  - destruct d as [d |]; cbv; do 2 eexists; repeat split.
  - destruct u as [u |]; cbv; do 2 eexists; repeat split.
  - destruct e as [e |]; cbv; do 2 eexists; repeat split.
Qed.

(** ** Timed runs *)

(** [withMetrics] of [metrics.ts] records exactly one sample on the given
    histogram, the time that passed while the function ran, with the given
    attributes, whether the function returned or threw; the function's
    completion reaches the caller unchanged. *)
Theorem timed_run_records_one_sample :
  forall (T : Type) (fn : M T) (histogram : Instrument)
         (attributes : option Attributes) (w w2 : World) (r : Completion T),
    fn w = (r, w2) ->
    metrics.withMetrics fn histogram attributes w
    = (r, with_journal
            (journal w2
             ++ [ Measured histogram (VNum (now w2 - now w)) attributes ])
            w2).
Proof.
  intros T fn histogram attributes w w2 r Hfn.
  unfold metrics.withMetrics.
  rewrite (bind_normal startTimer _ w w {| timer_start := now w |} eq_refl).
  unfold try_finally, try_catch_finally. rewrite Hfn.
  destruct r as [a | e]; reflexivity.
Qed.

(** A function that throws [null] is still timed. *)
Lemma timed_run_records_one_sample_witness :
  samples "job.time"
    (journal
       (snd (metrics.withMetrics (throw (A := value) VNull)
               (meter_createHistogram "m" "job.time" "" "ms" None) None
               sample_world)))
  = [ (VNum 0, None) ].
Proof.
  rewrite (timed_run_records_one_sample value (throw VNull)
             (meter_createHistogram "m" "job.time" "" "ms" None) None
             sample_world sample_world (Throw VNull) eq_refl).
  reflexivity.
Defined.

(** ** Status classes *)

(** The [http.status_class] attribute groups status codes by hundreds: a
    code from [100 d] to [100 d + 99] is in class [d xx], so every code
    counted as an error (400 and above) below 600 is tagged 4xx or 5xx. *)
Theorem http_status_class_groups_by_hundreds :
  forall (r : HttpRequestMetric) (d : Z),
    0 <= d <= 9 ->
    100 * d <= m_statusCode r < 100 * d + 100 ->
    obj_get "http.status_class" (http_metric_attributes r)
    = VStr (String (ascii_of_nat (48 + Z.to_nat d)) "xx") /\
    (m_statusCode r >=? 400) = (4 <=? d).
Proof.
  intros r d Hd Hs.
  assert (Hq : m_statusCode r / 100 = d).
  { symmetry. apply (Z.div_unique _ 100 d (m_statusCode r - 100 * d)); lia. }
  split.
  - unfold http_metric_attributes. cbn [obj_get String.eqb Ascii.eqb Bool.eqb].
    rewrite Hq.
    assert (Hcases : d = 0 \/ d = 1 \/ d = 2 \/ d = 3 \/ d = 4 \/ d = 5
                     \/ d = 6 \/ d = 7 \/ d = 8 \/ d = 9) by lia.
    repeat (destruct Hcases as [-> | Hcases]; [reflexivity |]).
    rewrite Hcases. reflexivity.
  - destruct (Z.geb_spec (m_statusCode r) 400), (Z.leb_spec 4 d);
      try reflexivity; lia.
Qed.

(** 404 is in class 4xx and is counted as an error. *)
Lemma http_status_class_groups_by_hundreds_witness :
  obj_get "http.status_class"
    (http_metric_attributes
       {| m_method := "GET"; m_route := "/api/users";
          m_statusCode := 404; m_duration := 3 |})
  = VStr "4xx".
Proof.
  apply (http_status_class_groups_by_hundreds
           {| m_method := "GET"; m_route := "/api/users";
              m_statusCode := 404; m_duration := 3 |} 4);
    simpl; lia.
Defined.

(** ** The ingestion loop *)

Lemma for_of_app (a b : list value) (round : value -> M unit) (w : World) :
  for_of (a ++ b) round w = (for_of a round ;; for_of b round) w.
Proof.
  revert w. induction a as [| x a IH]; intros w; [reflexivity |].
  simpl. unfold bind.
  destruct (round x w) as [[[] | e] w1]; [| reflexivity].
  rewrite IH. reflexivity.
Qed.

Lemma handleTelemetry_loop (request : NextRequest)
  (context : option RouteContext) (b : value) (items : list value)
  (w : World) :
  body request = Some b ->
  js_prop b "events" = Some (VArr items) ->
  exists w1 : World,
    steps (journal w1)
    = (steps (journal w)
       ++ match activeSpan w with
          | Some _ =>
              [ Called
                  (CallSetAttributes
                     [ ("telemetry.event_count",
                        VNum (Z.of_nat (List.length items)));
                       ("telemetry.source", VStr "client") ]) ]
          | None => []
          end)%list /\
    activeSpan w1 = activeSpan w /\
    forall (e : value) (w2 : World),
      for_of items process_event w1 = (Throw e, w2) ->
      handleTelemetry request context w = (Throw e, w2).
Proof.
  intros Hbody Hevents.
  set (attrs := [ ("telemetry.event_count",
                   VNum (Z.of_nat (List.length items)));
                  ("telemetry.source", VStr "client") ]).
  assert (Hattrs :
            exists w1,
              addSpanAttributes attrs w = (Normal tt, w1) /\
              steps (journal w1)
              = (steps (journal w)
                 ++ match activeSpan w with
                    | Some _ => [ Called (CallSetAttributes attrs) ]
                    | None => []
                    end)%list /\
              activeSpan w1 = activeSpan w).
  { unfold addSpanAttributes, getActiveSpan, bind.
    destruct (activeSpan w) as [s |] eqn:Hs; eexists;
      (split; [reflexivity |]); cbn [journal with_journal activeSpan].
    - split; [apply steps_app | exact Hs].
    - split; [now rewrite app_nil_r | exact Hs]. }
  destruct Hattrs as [w1 [Hrun [Hs Ha]]].
  exists w1. split; [exact Hs |]. split; [exact Ha |].
  intros e w2 Hloop.
  unfold handleTelemetry, request_json. rewrite Hbody.
  rewrite (bind_normal (ret b) _ w w b eq_refl).
  rewrite (bind_normal (js_get b "events") _ w w (VArr items))
    by (unfold js_get; now rewrite Hevents).
  cbv zeta. change (js_or (VArr items) (VArr [])) with (VArr items).
  rewrite (bind_normal (js_get (VArr items) "length") _ w w
             (VNum (Z.of_nat (List.length items))) eq_refl).
  fold attrs. rewrite (bind_normal _ _ _ _ _ Hrun).
  rewrite (bind_normal (js_iterate (VArr items)) _ w1 w1 items eq_refl).
  apply bind_thrown. exact Hloop.
Qed.

(** One event that is [null] or [undefined] aborts the whole batch: the
    events before it, when they have the shape the processors take (a
    string name, an object of properties and, for a web vital, a rating and
    a page that convert to a string), are counted and processed one by one;
    the event itself and everything after it is never looked at, and the
    handler rejects with a TypeError instead of answering. *)
Theorem null_event_aborts_the_batch :
  forall (request : NextRequest) (context : option RouteContext) (w : World)
         (b bad : value) (good rest : list value),
    body request = Some b ->
    js_prop b "events" = Some (VArr (good ++ bad :: rest)) ->
    forallb event_shape_ok good = true ->
    bad = VNull \/ bad = VUndefined ->
    exists (e : value) (w' : World),
      handleTelemetry request context w = (Throw e, w') /\
      instanceof_Error e = true /\
      steps (journal w')
      = (steps (journal w)
         ++ match activeSpan w with
            | Some _ =>
                [ Called
                    (CallSetAttributes
                       [ ("telemetry.event_count",
                          VNum (Z.of_nat
                                  (List.length (good ++ bad :: rest))));
                         ("telemetry.source", VStr "client") ]) ]
            | None => []
            end
         ++ flat_map event_steps good)%list /\
      events_counted (journal w')
      = (events_counted (journal w) + List.length good)%nat.
Proof.
  intros request context w b bad good rest Hbody Hevents Hshape Hbad.
  destruct (handleTelemetry_loop request context b _ w Hbody Hevents)
    as [w1 [Hs1 [_ Hloop]]].
  assert (Hgood : performs any (flat_map event_steps good)
                    (for_of good process_event)).
  { apply performs_for_of. intros e He. apply process_event_performs.
    rewrite forallb_forall in Hshape. now apply Hshape. }
  destruct (Hgood w1) as [[] [w2 [Hrun [_ [Hs2 _]]]]].
  assert (Hthrow : exists e, process_event bad w2 = (Throw e, w2)
                             /\ instanceof_Error e = true).
  { destruct Hbad as [-> | ->]; eexists; split; reflexivity. }
  destruct Hthrow as [e [Hthrow He]].
  assert (Hs : steps (journal w2)
               = (steps (journal w)
                  ++ match activeSpan w with
                     | Some _ =>
                         [ Called
                             (CallSetAttributes
                                [ ("telemetry.event_count",
                                   VNum (Z.of_nat
                                           (List.length
                                              (good ++ bad :: rest))));
                                  ("telemetry.source", VStr "client") ]) ]
                     | None => []
                     end
                  ++ flat_map event_steps good)%list)
    by (rewrite Hs2, Hs1, <- app_assoc; reflexivity).
  exists e, w2. split; [| split; [exact He | split; [exact Hs |]]].
  - apply Hloop. rewrite for_of_app, (bind_normal _ _ _ _ _ Hrun).
    simpl for_of. apply bind_thrown. exact Hthrow.
  - rewrite !events_counted_steps, Hs, !counted_in_app.
    rewrite (batch_steps_counted good Hshape).
    destruct (activeSpan w); cbn; lia.
Qed.

(** A click, then [null], then a web vital: the click is counted and
    logged, and nothing else happens. *)
Lemma null_event_aborts_the_batch_witness :
  exists (e : value) (w' : World),
    handleTelemetry
      (sample_request "/api/telemetry"
         (Some (batch_of [ click_trace; VNull; web_vital_metric ])))
      None sample_world
    = (Throw e, w') /\
    steps (journal w')
    = [ Sampled "client.events.received" (VNum 1)
          (Some [ ("event.type", VStr "trace");
                  ("event.name", VStr "click") ]);
        Started "process.client.trace";
        Logged info "Client event: click";
        Called (CallSetStatus {| code := OK; message := VUndefined |});
        Called CallEnd ] /\
    events_counted (journal w') = 1%nat.
Proof.
  destruct (null_event_aborts_the_batch
              (sample_request "/api/telemetry"
                 (Some (batch_of [ click_trace; VNull; web_vital_metric ])))
              None sample_world
              (batch_of [ click_trace; VNull; web_vital_metric ]) VNull
              [ click_trace ] [ web_vital_metric ]
              eq_refl eq_refl eq_refl (or_introl eq_refl))
    as [e [w' [Hrun [_ [Hs Hn]]]]].
  exists e, w'. split; [exact Hrun |]. split; [exact Hs | exact Hn].
Defined.

(** An event whose [type] is none of ['metric'], ['trace'] and ['log'] is
    counted and otherwise ignored: no span is started for it and nothing is
    logged.  This includes events that are not objects at all, such as
    numbers. *)
Theorem unknown_event_type_is_only_counted :
  forall (event ty nm : value) (w : World),
    js_prop event "type" = Some ty ->
    js_prop event "name" = Some nm ->
    js_is ty "metric" = false ->
    js_is ty "trace" = false ->
    js_is ty "log" = false ->
    exists i : Instrument,
      process_event event w
      = (Normal tt,
         with_journal
           (journal w
            ++ [ Measured i (VNum 1)
                   (Some [ ("event.type", ty); ("event.name", nm) ]) ])
           w) /\
      inst_name i = "client.events.received".
Proof.
  intros event ty nm w Hty Hnm Hm Ht Hl.
  unfold process_event.
  rewrite (bind_normal (js_get event "type") _ w w ty)
    by (unfold js_get; now rewrite Hty).
  rewrite (bind_normal (js_get event "name") _ w w nm)
    by (unfold js_get; now rewrite Hnm).
  rewrite Hm, Ht, Hl.
  eexists. split; reflexivity.
Qed.

(** The number 42 sent as an event. *)
Lemma unknown_event_type_is_only_counted_witness :
  events_counted (journal (snd (process_event (VNum 42) sample_world)))
  = 1%nat /\
  spansCreated (snd (process_event (VNum 42) sample_world)) = 0%nat.
Proof.
  destruct (unknown_event_type_is_only_counted (VNum 42) VUndefined
              VUndefined sample_world eq_refl eq_refl eq_refl eq_refl
              eq_refl)
    as [i [Hrun Hname]].
  rewrite Hrun. cbn [snd journal with_journal spansCreated].
  split; [| reflexivity].
  rewrite events_counted_app. unfold events_counted at 2. simpl.
  rewrite Hname. reflexivity.
Defined.

(** A truthy [events] field that is neither a list nor a string makes the
    handler reject with a TypeError before any event is counted; all it
    has done by then is set the event count on the active span. *)
Theorem non_iterable_events_are_rejected :
  forall (request : NextRequest) (context : option RouteContext) (w : World)
         (b ev : value),
    body request = Some b ->
    js_prop b "events" = Some ev ->
    truthy ev = true ->
    (forall items, ev <> VArr items) ->
    (forall s, ev <> VStr s) ->
    exists (w' : World) (count : value),
      handleTelemetry request context w
      = (Throw (TypeError "events is not iterable"), w') /\
      js_prop ev "length" = Some count /\
      w' = match activeSpan w with
           | Some s =>
               with_journal
                 (journal w
                  ++ [ SpanCalled s
                         (CallSetAttributes
                            [ ("telemetry.event_count", count);
                              ("telemetry.source", VStr "client") ]) ])
                 w
           | None => w
           end.
Proof.
  intros request context w b ev Hbody Hevents Htruthy Harr Hstr.
  assert (Hor : js_or ev (VArr []) = ev) by (unfold js_or; now rewrite Htruthy).
  assert (Hlen : exists count, js_prop ev "length" = Some count).
  { destruct ev; try discriminate; eexists; reflexivity. }
  destruct Hlen as [count Hlen].
  assert (Hiter : forall w0, js_iterate ev w0
                             = (Throw (TypeError "events is not iterable"), w0)).
  { intros w0. destruct ev; try reflexivity.
    - now destruct (Hstr s).
    - now destruct (Harr items). }
  eexists. exists count.
  split; [| split; [exact Hlen | reflexivity]].
  unfold handleTelemetry, request_json. rewrite Hbody.
  rewrite (bind_normal (ret b) _ w w b eq_refl).
  rewrite (bind_normal (js_get b "events") _ w w ev)
    by (unfold js_get; now rewrite Hevents).
  cbv zeta. rewrite Hor.
  rewrite (bind_normal (js_get ev "length") _ w w count)
    by (unfold js_get; now rewrite Hlen).
  unfold addSpanAttributes, getActiveSpan.
  cbv beta iota delta [bind].
  destruct (activeSpan w) as [s |];
    cbv beta iota delta [span_setAttributes emit ret];
    rewrite Hiter; reflexivity.
Qed.

(** [{"events": 7}] *)
Lemma non_iterable_events_are_rejected_witness :
  handleTelemetry
    (sample_request "/api/telemetry" (Some (VObj [ ("events", VNum 7) ])))
    None sample_world
  = (Throw (TypeError "events is not iterable"), sample_world).
Proof.
  destruct (non_iterable_events_are_rejected
              (sample_request "/api/telemetry"
                 (Some (VObj [ ("events", VNum 7) ])))
              None sample_world (VObj [ ("events", VNum 7) ]) (VNum 7)
              eq_refl eq_refl eq_refl)
    as [w' [count [Hrun [_ Hw]]]]; try discriminate.
  rewrite Hrun, Hw. reflexivity.
Defined.

(** ** Web vitals and client events *)

Lemma prefix_app (p x : string) : String.prefix p (p ++ x) = true.
Proof.
  induction p as [| c p IH]; simpl.
  - now destruct x.
  - destruct (ascii_dec c c) as [_ | Hne]; [exact IH | now destruct Hne].
Qed.

Lemma substring_all (x : string) :
  String.substring 0 (String.length x) x = x.
Proof.
  induction x as [| c x IH]; [reflexivity |]. simpl. now rewrite IH.
Qed.

(** [(p + x).replace(p, '')] is [x]. *)
Lemma drop_prefix_app (p x : string) : drop_prefix p (p ++ x) = x.
Proof.
  unfold drop_prefix.
  induction p as [| c p IH]; simpl.
  - rewrite Nat.sub_0_r. apply substring_all.
  - exact IH.
Qed.

(** A metric event called [web_vital_<x>] whose rating and page convert to
    a string (anything but an object with a [toString] property of its own,
    or an array holding one) is recorded on the web-vitals histogram under
    the short name [<x>], with the value, the rating and the page of its
    properties (an absent page becomes the empty string), and logged once as
    [Web Vital: <x>]. *)
Theorem web_vital_is_recorded_under_its_short_name :
  forall (fields props : Attributes) (vital : string) (w : World),
    obj_get "name" fields = VStr ("web_vital_" ++ vital) ->
    obj_get "properties" fields = VObj props ->
    stringable (obj_get "good" props) = true ->
    stringable (js_or (obj_get "url" props) (VStr "")) = true ->
    exists final : World,
      processMetricEvent (VObj fields) w = (Normal tt, final) /\
      samples "client.web_vitals" (journal final)
      = (samples "client.web_vitals" (journal w)
         ++ [ (obj_get "value" props,
               Some [ ("vital.name", VStr vital);
                      ("vital.good",
                       VStr (string_of_value (obj_get "good" props)));
                      ("page.url",
                       VStr (string_of_value
                               (js_or (obj_get "url" props) (VStr "")))) ])
            ])%list /\
      messages (pino_records (journal final))
      = (messages (pino_records (journal w))
         ++ [ ("Web Vital: " ++ vital)%string ])%list /\
      activeSpan final = activeSpan w.
Proof.
  intros fields props vital w Hname Hprops Hgood Hurl.
  set (w1 := span_entry (serviceName (config w)) "process.client.metric"
               (trace_span_options None) w).
  assert (Hnav : js_is (VStr ("web_vital_" ++ vital)) "navigation_timing"
                 = false) by reflexivity.
  assert (Hcomp : js_is (VStr ("web_vital_" ++ vital)) "component_render"
                  = false) by reflexivity.
  assert (Hg : js_String (obj_get "good" props)
               = ret (string_of_value (obj_get "good" props)))
    by (unfold js_String; now rewrite Hgood).
  assert (Hu : js_String (js_or (obj_get "url" props) (VStr ""))
               = ret (string_of_value
                        (js_or (obj_get "url" props) (VStr ""))))
    by (unfold js_String; now rewrite Hurl).
  eexists. split.
  { unfold processMetricEvent. apply traceAsync_run. fold w1.
    rewrite (bind_normal (js_get (VObj fields) "name") _ w1 w1
               (VStr ("web_vital_" ++ vital)))
      by (unfold js_get; cbn [js_prop]; now rewrite Hname).
    rewrite (bind_normal (js_get (VObj fields) "properties") _ w1 w1
               (VObj props))
      by (unfold js_get; cbn [js_prop]; now rewrite Hprops).
    rewrite (bind_normal (js_startsWith (VStr ("web_vital_" ++ vital))
                            "web_vital_") _ w1 w1 true)
      by (cbn [js_startsWith]; unfold ret; now rewrite prefix_app).
    rewrite Hnav, Hcomp. cbn [string_of_value]. rewrite drop_prefix_app.
    cbv beta iota zeta delta [bind ret js_get js_prop].
    rewrite Hg. cbv beta iota zeta delta [bind ret js_get js_prop].
    rewrite Hu.
    cbv beta iota zeta delta [bind ret js_get js_prop webVitalsHistogram
      createHistogram getMeter get_config instrument_record emit logger
      baseLogger Logger_info Logger_log pino_log].
    rewrite withTraceContext_run.
    reflexivity. }
  split; [| split; [| reflexivity]].
  - subst w1.
    cbn [journal with_journal with_activeSpan with_spansCreated span_entry].
    rewrite !samples_app. cbn. rewrite !app_nil_r. reflexivity.
  - subst w1.
    cbn [journal with_journal with_activeSpan with_spansCreated span_entry].
    unfold messages.
    rewrite !pino_records_app, !map_app. cbn. rewrite !app_nil_r.
    reflexivity.
Qed.

(** The sample LCP measurement. *)
Lemma web_vital_is_recorded_under_its_short_name_witness :
  exists final : World,
    processMetricEvent web_vital_metric sample_world = (Normal tt, final) /\
    samples "client.web_vitals" (journal final)
    = [ (VNum 1200,
         Some [ ("vital.name", VStr "LCP"); ("vital.good", VStr "true");
                ("page.url", VStr "/") ]) ].
Proof.
  destruct (web_vital_is_recorded_under_its_short_name
              [ ("name", VStr "web_vital_LCP"); ("timestamp", VNum 3);
                ("properties",
                 VObj [ ("value", VNum 1200); ("good", VBool true);
                        ("url", VStr "/") ]);
                ("type", VStr "metric") ]
              [ ("value", VNum 1200); ("good", VBool true);
                ("url", VStr "/") ]
              "LCP" sample_world eq_refl eq_refl eq_refl eq_refl)
    as [final [Hrun [Hs _]]].
  exists final. split; [exact Hrun | exact Hs].
Defined.

Lemma keys_obj_set (k : string) (v : value) (o : Attributes) :
  keys (obj_set k v o)
  = if has_key k o then keys o else (keys o ++ [ k ])%list.
Proof.
  unfold has_key, keys.
  induction o as [| [k' v'] o IH]; [reflexivity |].
  simpl. destruct (String.eqb k k') eqn:E; simpl.
  - apply String.eqb_eq in E. now subst k'.
  - rewrite IH. now destruct (existsb (String.eqb k) (map fst o)).
Qed.

Lemma has_key_in (k : string) (o : Attributes) :
  has_key k o = false -> ~ In k (keys o).
Proof.
  unfold has_key. intros H Hin.
  assert (Ht : existsb (String.eqb k) (keys o) = true).
  { apply existsb_exists. exists k. split; [exact Hin | apply String.eqb_refl]. }
  rewrite H in Ht. discriminate.
Qed.

Lemma obj_set_nodup (k : string) (v : value) (o : Attributes) :
  NoDup (keys o) -> NoDup (keys (obj_set k v o)).
Proof.
  intros Hnd. rewrite keys_obj_set.
  destruct (has_key k o) eqn:Hk; [exact Hnd |].
  apply NoDup_app; [exact Hnd | repeat constructor; intros [] |].
  intros x Hx [<- | []]. now apply (has_key_in _ _ Hk).
Qed.

(** An object built by spreading has no key twice. *)
Lemma obj_spread_nodup (a b : Attributes) :
  NoDup (keys a) -> NoDup (keys (obj_spread a b)).
Proof.
  unfold obj_spread. revert a.
  induction b as [| [k v] b IH]; intros a Hnd; [exact Hnd |].
  simpl. apply IH. now apply obj_set_nodup.
Qed.

(** A trace event whose name converts to a string (a string, as the
    client sends it, or anything but an object with a [toString] property
    of its own or an array holding one) is logged once, at info level, from
    inside its own processing span: the record carries that span's
    identifiers and every property the client sent, except that a client
    property called [trace_id] or [span_id] is overwritten; a client
    property called [event] replaces the event's name in the record, but
    not in the message. *)
Theorem trace_event_log_record :
  forall (fields props : Attributes) (nm : value) (w : World),
    obj_get "name" fields = nm ->
    obj_get "properties" fields = VObj props ->
    NoDup (keys props) ->
    stringable nm = true ->
    let s := new_span w in
    exists (final : World) (obj : Attributes),
      processTraceEvent (VObj fields) w = (Normal tt, final) /\
      pino_records (journal final)
      = (pino_records (journal w)
         ++ [ (info, obj,
               ("Client event: " ++ string_of_value nm)%string) ])%list
      /\
      obj_get "trace_id" obj = VStr (traceId (spanContext s)) /\
      obj_get "span_id" obj = VStr (spanId (spanContext s)) /\
      (forall k v, In (k, v) props ->
                   k <> "trace_id" -> k <> "span_id" ->
                   obj_get k obj = v) /\
      (has_key "event" props = false -> obj_get "event" obj = nm).
Proof.
  intros fields props nm w Hname Hprops Hnd Hnm s.
  set (w1 := span_entry (serviceName (config w)) "process.client.trace"
               (trace_span_options None) w).
  set (ctx := obj_spread [ ("event", nm) ] props).
  assert (Hctx : NoDup (keys ctx)).
  { apply obj_spread_nodup. repeat constructor. intros []. }
  assert (Hget : forall t sp k, k <> "trace_id" -> k <> "span_id" ->
                 obj_get k
                   (obj_set "span_id" sp
                      (obj_set "trace_id" t (obj_spread [] ctx)))
                 = obj_get k (rev props ++ [ ("event", nm) ])%list).
  { intros t sp k Ht Hs.
    rewrite !obj_get_set_other by (now apply String.eqb_neq).
    rewrite obj_get_spread, app_nil_r, (obj_get_rev _ _ Hctx).
    apply obj_get_spread. }
  eexists. eexists. split.
  { unfold processTraceEvent. apply traceAsync_run. fold w1.
    rewrite (bind_normal (js_get (VObj fields) "name") _ w1 w1 nm)
      by (unfold js_get; cbn [js_prop]; now rewrite Hname).
    rewrite (bind_normal (js_get (VObj fields) "properties") _ w1 w1
               (VObj props))
      by (unfold js_get; cbn [js_prop]; now rewrite Hprops).
    cbn [own_properties]. fold ctx.
    unfold js_String. rewrite Hnm.
    cbv beta iota zeta delta [bind ret logger baseLogger get_config
      Logger_info Logger_log pino_log emit].
    rewrite withTraceContext_run. reflexivity. }
  split.
  { unfold w1 at 1 2.
    cbn [journal with_journal with_activeSpan with_spansCreated span_entry].
    rewrite !pino_records_app. cbn. rewrite !app_nil_r. reflexivity. }
  split; [rewrite obj_get_set_other by reflexivity; apply obj_get_set_same |].
  split; [apply obj_get_set_same |].
  split.
  - intros k v Hin Ht Hs. rewrite (Hget _ _ k Ht Hs).
    rewrite obj_get_app, has_key_rev.
    assert (Hk : has_key k props = true).
    { unfold has_key, keys. apply existsb_exists. exists k.
      split; [now apply (in_map fst _ (k, v)) | apply String.eqb_refl]. }
    rewrite Hk, obj_get_rev by assumption. now apply obj_get_in.
  - intros Hk. rewrite Hget by discriminate.
    rewrite obj_get_app, has_key_rev, Hk. reflexivity.
Qed.

(** The sample click event. *)
Lemma trace_event_log_record_witness :
  exists (final : World) (obj : Attributes),
    processTraceEvent click_trace sample_world = (Normal tt, final) /\
    obj_get "span_id" obj = VStr "span-0" /\
    obj_get "target" obj = VStr "button" /\
    obj_get "event" obj = VStr "click" /\
    pino_records (journal final) = [ (info, obj, "Client event: click") ].
Proof.
  destruct (trace_event_log_record
              [ ("name", VStr "click"); ("timestamp", VNum 2);
                ("properties", VObj [ ("target", VStr "button") ]);
                ("type", VStr "trace") ]
              [ ("target", VStr "button") ] (VStr "click") sample_world
              eq_refl eq_refl
              (NoDup_cons "target" (fun H : In "target" [] => H)
                 (NoDup_nil string))
              eq_refl)
    as [final [obj [Hrun [Hlog [_ [Hs [Hprops Hev]]]]]]].
  exists final, obj. split; [exact Hrun |].
  split; [exact Hs |].
  split; [apply Hprops; [now left | discriminate | discriminate] |].
  split; [now apply Hev | exact Hlog].
Defined.

(** ** SDK initialisation *)

(** Which processors [initTelemetry] hands to the SDK: one span processor
    and one log processor per enabled exporter flag, the OTLP one first;
    none at all when both flags are off, although the metric reader is
    configured whatever the flags say.  The OTLP span processor carries the
    three batch settings of the configuration; the OTLP log processor is
    built without any of them. *)
Theorem initTelemetry_processors_follow_flags :
  forall (cfg : TelemetryConfig) (env : ProcessEnv),
    let sdk := initTelemetry cfg env in
    let enabled := ((if otlpExporter (features cfg) then 1 else 0)
                    + (if consoleExporter (features cfg) then 1 else 0))%nat in
    List.length (sdk_spanProcessors sdk) = enabled /\
    List.length (sdk_logRecordProcessors sdk) = enabled /\
    (otlpExporter (features cfg) = true ->
     hd_error (sdk_spanProcessors sdk)
     = Some (BatchSpanProcessor (OTLPTraceExporter (tracesEndpoint (otlp cfg)))
               {| buf_scheduledDelayMillis :=
                    Some (scheduledDelayMillis (batch cfg));
                  buf_maxExportBatchSize :=
                    Some (maxExportBatchSize (batch cfg));
                  buf_maxQueueSize := Some (maxQueueSize (batch cfg)) |}) /\
     hd_error (sdk_logRecordProcessors sdk)
     = Some (BatchLogRecordProcessor
               (OTLPLogExporter (logsEndpoint (otlp cfg)))
               {| buf_scheduledDelayMillis := None;
                  buf_maxExportBatchSize := None;
                  buf_maxQueueSize := None |})) /\
    (consoleExporter (features cfg) = true ->
     In (SimpleSpanProcessor ConsoleSpanExporter) (sdk_spanProcessors sdk) /\
     In (SimpleLogRecordProcessor ConsoleLogRecordExporter)
        (sdk_logRecordProcessors sdk)) /\
    reader_exporter (sdk_metricReader sdk)
    = OTLPMetricExporter (metricsEndpoint (otlp cfg)) /\
    exportIntervalMillis (sdk_metricReader sdk) = 10000.
Proof.
  intros cfg env sdk enabled. subst sdk enabled.
  unfold initTelemetry. cbn.
  destruct (otlpExporter (features cfg)), (consoleExporter (features cfg));
    cbn; repeat split; intros; try discriminate; auto.
Qed.

(** With the configuration of the repository the span queue is bounded by
    the configured 2048 and the log processor is left to the SDK's
    defaults. *)
Lemma initTelemetry_processors_follow_flags_witness :
  sdk_spanProcessors (initTelemetry (TELEMETRY_CONFIG empty_env) empty_env)
  = [ BatchSpanProcessor (OTLPTraceExporter "http://localhost:4318/v1/traces")
        {| buf_scheduledDelayMillis := Some 5000;
           buf_maxExportBatchSize := Some 512;
           buf_maxQueueSize := Some 2048 |} ].
Proof.
  destruct (initTelemetry_processors_follow_flags (TELEMETRY_CONFIG empty_env)
              empty_env) as [_ [_ [Hotlp _]]].
  destruct (Hotlp eq_refl) as [Hspan _].
  reflexivity.
Defined.

(** ** Configuration *)

Lemma env_or_not_empty (x : option string) (fallback : string) :
  fallback <> "" -> env_or x fallback <> "".
Proof.
  intros Hf. unfold env_or. destruct x as [s |]; [| exact Hf].
  destruct (String.eqb s "") eqn:E; [exact Hf |].
  now apply String.eqb_neq.
Qed.

(** Whatever the environment holds, no configured name or endpoint is the
    empty string (an empty variable counts as unset), and the sampling
    ratio is one tenth exactly when [NODE_ENV] is ['production'] and one
    otherwise. *)
Theorem TELEMETRY_CONFIG_is_never_empty :
  forall env : ProcessEnv,
    let cfg := TELEMETRY_CONFIG env in
    serviceName cfg <> "" /\
    serviceVersion cfg <> "" /\
    environment cfg <> "" /\
    tracesEndpoint (otlp cfg) <> "" /\
    metricsEndpoint (otlp cfg) <> "" /\
    logsEndpoint (otlp cfg) <> "" /\
    (OTEL_SERVICE_NAME env = Some "" ->
     serviceName cfg = "nextjs-telem-app") /\
    (NODE_ENV env = Some "production" -> ratio (sampling cfg) = 1 # 10) /\
    (NODE_ENV env <> Some "production" -> ratio (sampling cfg) = 1%Q).
Proof.
  intros env cfg. subst cfg. unfold TELEMETRY_CONFIG. cbn.
  repeat split; try (apply env_or_not_empty; discriminate).
  - intros ->. reflexivity.
  - intros ->. reflexivity.
  - intros Hne. unfold env_is.
    destruct (NODE_ENV env) as [s |]; [| reflexivity].
    destruct (String.eqb s "production") eqn:E; [| reflexivity].
    apply String.eqb_eq in E. subst s. now destruct Hne.
Qed.

(** An environment that sets the service name to the empty string. *)
Lemma TELEMETRY_CONFIG_is_never_empty_witness :
  serviceName
    (TELEMETRY_CONFIG
       {| OTEL_SERVICE_NAME := Some ""; npm_package_version := None;
          NODE_ENV := None; OTEL_EXPORTER_OTLP_TRACES_ENDPOINT := None;
          OTEL_EXPORTER_OTLP_METRICS_ENDPOINT := None;
          OTEL_EXPORTER_OTLP_LOGS_ENDPOINT := None; LOG_LEVEL := None;
          HOSTNAME := None |})
  = "nextjs-telem-app".
Proof.
  destruct (TELEMETRY_CONFIG_is_never_empty
              {| OTEL_SERVICE_NAME := Some ""; npm_package_version := None;
                 NODE_ENV := None; OTEL_EXPORTER_OTLP_TRACES_ENDPOINT := None;
                 OTEL_EXPORTER_OTLP_METRICS_ENDPOINT := None;
                 OTEL_EXPORTER_OTLP_LOGS_ENDPOINT := None; LOG_LEVEL := None;
                 HOSTNAME := None |})
    as [_ [_ [_ [_ [_ [_ [Hname _]]]]]]].
  apply Hname. reflexivity.
Defined.

(** ** Requests the HTTP instrumentation ignores *)

Lemma substring_here (m : nat) (s : string) :
  String.length (String.substring 0 m s) = m ->
  exists post, s = String.substring 0 m s ++ post.
Proof.
  revert s. induction m as [| m IH]; intros s Hlen.
  - exists s. now destruct s.
  - destruct s as [| c s]; [discriminate Hlen |].
    simpl in *. injection Hlen as Hlen.
    destruct (IH s Hlen) as [post Hpost].
    exists post. now rewrite <- Hpost.
Qed.

Lemma substring_split (n m : nat) (s : string) :
  String.length (String.substring n m s) = m ->
  exists pre post, s = pre ++ String.substring n m s ++ post.
Proof.
  revert s. induction n as [| n IH]; intros s Hlen.
  - destruct (substring_here m s Hlen) as [post Hpost].
    exists "", post. exact Hpost.
  - destruct s as [| c s].
    + exists "", "". destruct m; reflexivity.
    + simpl in *. destruct (IH s Hlen) as [pre [post Hs]].
      exists (String c pre), post. simpl. now rewrite <- Hs.
Qed.

Lemma substring_middle (pre part post : string) :
  String.substring (String.length pre) (String.length part)
    (pre ++ part ++ post) = part.
Proof.
  induction pre as [| c pre IH]; [| exact IH].
  simpl. induction part as [| d part IHp]; simpl.
  - now destruct post.
  - now rewrite IHp.
Qed.

(** [s.includes(part)] says whether [part] occurs somewhere in [s]. *)
Lemma js_includes_spec (s part : string) :
  part <> "" ->
  js_includes s part = true <-> exists pre post, s = pre ++ part ++ post.
Proof.
  intros Hne. unfold js_includes. split.
  - destruct (String.index 0 part s) as [m |] eqn:Hi; [| discriminate].
    intros _. apply index_correct1 in Hi.
    destruct (substring_split m (String.length part) s) as [pre [post Hs]].
    + now rewrite Hi.
    + exists pre, post. now rewrite Hi in Hs.
  - intros [pre [post ->]].
    destruct (String.index 0 part (pre ++ part ++ post)) eqn:Hi;
      [reflexivity |].
    exfalso.
    apply (index_correct3 0 (String.length pre) part _ Hi Hne);
      [lia | apply substring_middle].
Qed.

(** The HTTP instrumentation ignores a request exactly when [/health],
    [/ready] or [/_next] occurs anywhere in its URL, not only at the start
    of the path; a request without a URL is never ignored. *)
Theorem ignoreIncomingRequestHook_matches_anywhere :
  ignoreIncomingRequestHook None = false /\
  forall u : string,
    ignoreIncomingRequestHook (Some u) = true <->
    exists pre part post,
      In part [ "/health"; "/ready"; "/_next" ] /\
      u = pre ++ part ++ post.
Proof.
  split; [reflexivity |].
  intros u.
  assert (Hurl : env_or (Some u) "" = u).
  { unfold env_or. destruct (String.eqb u "") eqn:E; [| reflexivity].
    apply String.eqb_eq in E. now subst u. }
  unfold ignoreIncomingRequestHook. cbv zeta. rewrite Hurl.
  rewrite !Bool.orb_true_iff, !js_includes_spec by discriminate.
  split.
  - intros [[[pre [post ->]] | [pre [post ->]]] | [pre [post ->]]];
      do 3 eexists; (split; [| reflexivity]); simpl; auto.
  - intros [pre [part [post [Hin ->]]]].
    destruct Hin as [<- | [<- | [<- | []]]]; eauto.
Qed.

(** ** The users API *)

Lemma try_catch_normal {A : Type} (body : M A) (handler : value -> M A)
  (w w1 : World) (a : A) :
  body w = (Normal a, w1) -> try_catch body handler w = (Normal a, w1).
Proof.
  intros H. unfold try_catch. now apply (try_returns _ _ _ _ _ _ _ H).
Qed.

Lemma try_catch_thrown {A : Type} (body : M A) (handler : value -> M A)
  (w w1 : World) (e : value) :
  body w = (Throw e, w1) -> try_catch body handler w = handler e w1.
Proof.
  intros H. unfold try_catch, try_catch_finally. rewrite H.
  destruct (handler e w1) as [r w2]. reflexivity.
Qed.

Lemma js_prop_total (v : value) (k k' : string) (x : value) :
  js_prop v k = Some x -> exists y, js_prop v k' = Some y.
Proof.
  destruct v; try discriminate; intros _; eexists; reflexivity.
Qed.

Lemma create_user_failed_run (name msg stack : string) (w : World) :
  exists w' : World,
    (recordException (VError name msg stack) (Some "Failed to create user") ;;
     l <- logger ;;
     m <- js_get (VError name msg stack) "message" ;;
     Logger_error l
       (LogContext [ ("error", m) ] (Some "Failed to create user")) ;;
     m' <- js_get (VError name msg stack) "message" ;;
     emitOtelLog error "Failed to create user" (Some [ ("error", m') ]) ;;
     ret (users.json_response 500
            (VObj [ ("success", VBool false);
                    ("error", VStr "Failed to create user") ]))) w
    = (Normal
         (users.json_response 500
            (VObj [ ("success", VBool false);
                    ("error", VStr "Failed to create user") ])), w').
Proof.
  destruct w as [j a n p t cfg c d u e].
  destruct a as [s |]; eexists; reflexivity.
Qed.

(** [handleCreateUser] never rejects: it answers 500 when the body is not
    JSON or is [null], 400 when [name] or [email] is missing or falsy, and
    201 otherwise; the user it reports as created always has the id 6,
    whatever was created before.  So does the exported [POST], whose
    wrapper therefore never takes its error path. *)
Theorem handleCreateUser_always_answers :
  forall (latency : Z) (createdAt : string) (request : NextRequest)
         (context : option RouteContext) (w : World),
    (exists final : World,
        users.handleCreateUser latency createdAt request context w
        = (Normal (create_user_response createdAt request), final)) /\
    (exists final : World,
        users.POST latency createdAt request context w
        = (Normal (create_user_response createdAt request), final)).
Proof.
  assert (Hhandler :
            forall latency createdAt request context w,
            exists final : World,
              users.handleCreateUser latency createdAt request context w
              = (Normal (create_user_response createdAt request), final)).
  { intros latency createdAt request context w.
    unfold users.handleCreateUser, create_user_response.
    rewrite (bind_normal users.userApiCalls _ w w _ eq_refl).
    match goal with
    | |- context [bind (instrument_record ?i ?v ?a) _ w] =>
        rewrite (bind_normal (instrument_record i v a) _ w _ tt eq_refl)
    end.
    match goal with
    | |- context [try_catch _ _ ?w1] => generalize w1
    end.
    clear w. intros w0.
    destruct (body request) as [b |] eqn:Hbody.
    - destruct (js_prop b "name") as [nm |] eqn:Hn.
      + destruct (js_prop_total b "name" "email" nm Hn) as [em He].
        rewrite He.
        assert (Hgn : js_get b "name" = ret nm)
          by (unfold js_get; now rewrite Hn).
        assert (Hge : js_get b "email" = ret em)
          by (unfold js_get; now rewrite He).
        unfold request_json. rewrite Hbody.
        assert (Hbody_run :
                  forall (k : value -> M NextResponse) (r : Completion NextResponse)
                         (w1 : World),
                    k b w0 = (r, w1) -> bind (ret b) k w0 = (r, w1)).
        { intros k r w1 Hk. now rewrite (bind_normal (ret b) k w0 w0 b eq_refl). }
        destruct (truthy nm) eqn:Tn; [destruct (truthy em) eqn:Te |].
        * destruct w0 as [j a n p t cfg c d u e]. destruct a as [s |];
            eexists; apply try_catch_normal; apply Hbody_run;
            unfold users.missing_fields; rewrite Hgn, Hge;
            cbv beta iota zeta delta [bind ret]; rewrite Tn, Te;
            reflexivity.
        * destruct w0 as [j a n p t cfg c d u e]. destruct a as [s |];
            eexists; apply try_catch_normal; apply Hbody_run;
            unfold users.missing_fields; rewrite Hgn, Hge;
            cbv beta iota zeta delta [bind ret]; rewrite Tn, Te;
            reflexivity.
        * destruct w0 as [j a n p t cfg c d u e].
          destruct a as [s |]; destruct (truthy em);
            eexists; apply try_catch_normal; apply Hbody_run;
            unfold users.missing_fields; rewrite Hgn, Hge;
            cbv beta iota zeta delta [bind ret]; rewrite Tn;
            reflexivity.
      + assert (Hthrow : exists msg,
                   js_get b "name" w0 = (Throw (TypeError msg), w0)).
        { unfold js_get. rewrite Hn. eexists. reflexivity. }
        destruct Hthrow as [msg Hthrow].
        destruct (create_user_failed_run "TypeError" msg "" w0) as [w' Hf].
        exists w'. unfold request_json. rewrite Hbody.
        erewrite try_catch_thrown;
          [exact Hf
          | rewrite (bind_normal (ret b) _ w0 w0 b eq_refl);
            apply bind_thrown; exact Hthrow].
    - destruct (create_user_failed_run "SyntaxError"
                  "Unexpected token in JSON" "" w0) as [w' Hf].
      exists w'. unfold request_json. rewrite Hbody.
      erewrite try_catch_thrown; [exact Hf | reflexivity]. }
  intros latency createdAt request context w.
  split; [apply Hhandler |].
  set (options := {| name := "POST /api/users";
                     skipPaths := None;
                     customAttributes := Some [ ("api.category", "users") ] |}).
  destruct (Hhandler latency createdAt request context
              (request_entry options request context w)) as [w2 Hrun].
  destruct (withTelemetry_returns (users.handleCreateUser latency createdAt)
              options request context w w2 _ eq_refl Hrun)
    as [final [m1 [m2 [lb [obj [Hpost _]]]]]].
  exists final. exact Hpost.
Qed.

(** ** The simulated users query *)

(** [fetchUsersFromDatabase] returns the users with the requested role, or
    all five when no role (or an empty one) is given; the [query_completed]
    event always reports five rows, the size of the table, whatever the
    filter left; the query runs in a span of its own that is ended once,
    and takes [latency] on the clock. *)
Theorem fetchUsers_reports_unfiltered_row_count :
  forall (latency : Z) (role : option string) (w : World),
    let s := new_span w in
    exists (final : World) (found : list users.User)
           (attrs : Attributes),
      users.fetchUsersFromDatabase latency role w = (Normal found, final) /\
      (forall u, In u found <->
                 In u users.MOCK_USERS /\
                 (forall r, role = Some r -> r <> "" ->
                            users.user_role u = r)) /\
      calls_on s (journal final)
      = (calls_on s (journal w)
         ++ [ CallSetAttributes attrs;
              CallAddEvent "query_completed"
                (Some [ ("db.rows_returned", VNum 5);
                        ("db.latency_ms", VNum latency) ]);
              CallSetStatus {| code := OK; message := VUndefined |};
              CallEnd ])%list /\
      obj_get "db.filter.role" attrs
      = match role with
        | Some r => if String.eqb r "" then VUndefined else VStr r
        | None => VUndefined
        end /\
      now final = now w + latency /\
      activeSpan final = activeSpan w.
Proof.
  intros latency role w s.
  assert (Hcases : role = None \/ role = Some ""
                   \/ exists r, role = Some r /\ String.eqb r "" = false).
  { destruct role as [r |]; [| now left].
    right. destruct (String.eqb r "") eqn:E.
    - left. apply String.eqb_eq in E. now subst r.
    - right. now exists r. }
  eexists. eexists. eexists.
  split.
  { unfold users.fetchUsersFromDatabase. apply traceAsync_run. reflexivity. }
  split; [| split; [| split; [| split; [reflexivity | reflexivity]]]].
  - intros u.
    destruct Hcases as [-> | [-> | [r [-> E]]]].
    + split; [intros H; split; [exact H | discriminate] | now intros [H _]].
    + split; [intros H; split; [exact H |] | now intros [H _]].
      intros r Hr Hne. injection Hr as <-. now destruct Hne.
    + cbn [truthy negb]. rewrite E. cbn [negb].
      rewrite filter_In. split.
      * intros [Hin Hr]. split; [exact Hin |].
        intros r' Hr' _. injection Hr' as <-. now apply String.eqb_eq.
      * intros [Hin Hr]. split; [exact Hin |].
        apply String.eqb_eq. apply Hr; [reflexivity |].
        intros ->. discriminate E.
  - cbn. rewrite !calls_on_app. cbn. rewrite Nat.eqb_refl, !app_nil_r.
    rewrite <- !app_assoc. reflexivity.
  - destruct Hcases as [-> | [-> | [r [-> E]]]]; try reflexivity.
    cbn. rewrite E. reflexivity.
Qed.

(** ** The client's event queue *)

Lemma flushEvents_flat (c : hooks.Client) :
  (concat (hooks.sent (hooks.flushEvents c))
   ++ hooks.eventQueue (hooks.flushEvents c))%list
  = (concat (hooks.sent c) ++ hooks.eventQueue c)%list.
Proof.
  unfold hooks.flushEvents.
  destruct (hooks.eventQueue c) as [| e q] eqn:Hq; [now rewrite Hq |].
  cbn [hooks.sent hooks.eventQueue].
  rewrite concat_app. cbn. now rewrite !app_nil_r.
Qed.

Lemma flushEvents_ok (c : hooks.Client) :
  (List.length (hooks.timers c) <= 1)%nat ->
  (forall tm, In tm (hooks.timers c) ->
              hooks.flushTimeout c = Some (hooks.handle tm)) ->
  Forall (fun batch => batch <> []) (hooks.sent c) ->
  hooks.client_ok (hooks.flushEvents c).
Proof.
  intros Hlen Hh Hs. unfold hooks.flushEvents.
  destruct (hooks.eventQueue c) as [| e q] eqn:Heq.
  - split; [exact Hlen |]. split; [exact Hh |].
    split; [intros Hne; now rewrite Heq in Hne | exact Hs].
  - unfold hooks.client_ok. cbn.
    split; [exact Hlen |]. split; [exact Hh |].
    split; [intros Hne; now destruct Hne |].
    apply Forall_app. split; [exact Hs |].
    constructor; [discriminate | constructor].
Qed.

Lemma flushEvents_timers (c : hooks.Client) :
  hooks.timers (hooks.flushEvents c) = hooks.timers c.
Proof.
  unfold hooks.flushEvents. now destruct (hooks.eventQueue c).
Qed.

Lemma flushEvents_empties (c : hooks.Client) :
  hooks.eventQueue (hooks.flushEvents c) = [].
Proof.
  unfold hooks.flushEvents.
  destruct (hooks.eventQueue c) eqn:Hq; [exact Hq | reflexivity].
Qed.

Lemma queueEvent_ok (t : Z) (e : hooks.TelemetryEvent) (c : hooks.Client) :
  hooks.client_ok c ->
  hooks.client_ok (hooks.queueEvent t e c) /\
  hooks.timers (hooks.queueEvent t e c)
  = [ {| hooks.handle := hooks.nextHandle c; hooks.due := t + 1000 |} ].
Proof.
  intros [Hlen [Hh [Hq Hs]]].
  assert (Hpending :
            match hooks.flushTimeout c with
            | Some h => hooks.clearTimeout h (hooks.timers c)
            | None => hooks.timers c
            end = []).
  { destruct (hooks.timers c) as [| tm [| tm' rest]] eqn:Ht.
    - now destruct (hooks.flushTimeout c).
    - rewrite (Hh tm (or_introl eq_refl)).
      unfold hooks.clearTimeout. cbn. now rewrite Nat.eqb_refl.
    - simpl in Hlen. lia. }
  unfold hooks.queueEvent. rewrite Hpending. cbn [app].
  split; [| reflexivity].
  unfold hooks.client_ok. cbn.
  split; [lia |].
  split; [intros tm [<- | []]; reflexivity |].
  split; [discriminate | exact Hs].
Qed.

Lemma tick_cases (t : Z) (c : hooks.Client) :
  hooks.client_ok c ->
  (hooks.tick t c = c /\
   (forall tm, In tm (hooks.timers c) -> t < hooks.due tm)) \/
  (exists tm,
      hooks.timers c = [ tm ] /\ hooks.due tm <= t /\
      hooks.tick t c
      = hooks.flushEvents
          {| hooks.eventQueue := hooks.eventQueue c;
             hooks.flushTimeout := hooks.flushTimeout c;
             hooks.timers := [];
             hooks.nextHandle := hooks.nextHandle c;
             hooks.sent := hooks.sent c |}).
Proof.
  intros [Hlen _]. unfold hooks.tick.
  destruct c as [q f tms n s]. cbn in *.
  destruct tms as [| tm [| tm' rest]]; cbn.
  - left. split; [reflexivity | intros tm []].
  - destruct (Z.leb_spec (hooks.due tm) t); cbn.
    + right. exists tm. repeat split; auto.
    + left. split; [reflexivity |]. intros tm' [<- | []]. assumption.
  - simpl in Hlen. lia.
Qed.

Lemma tick_ok (t : Z) (c : hooks.Client) :
  hooks.client_ok c -> hooks.client_ok (hooks.tick t c).
Proof.
  intros Hok. destruct (tick_cases t c Hok) as [[-> _] | [tm [Ht [_ ->]]]];
    [exact Hok |].
  destruct Hok as [_ [_ [_ Hs]]].
  apply flushEvents_ok; cbn; [lia | intros tm' [] | exact Hs].
Qed.

Lemma tick_flat (t : Z) (c : hooks.Client) :
  hooks.client_ok c ->
  (concat (hooks.sent (hooks.tick t c))
   ++ hooks.eventQueue (hooks.tick t c))%list
  = (concat (hooks.sent c) ++ hooks.eventQueue c)%list.
Proof.
  intros Hok. destruct (tick_cases t c Hok) as [[-> _] | [tm [Ht [_ ->]]]];
    [reflexivity |].
  now rewrite flushEvents_flat.
Qed.

Lemma step_ok (c : hooks.Client) (a : hooks.Action) :
  hooks.client_ok c ->
  hooks.client_ok (hooks.step c a) /\
  (concat (hooks.sent (hooks.step c a))
   ++ hooks.eventQueue (hooks.step c a))%list
  = ((concat (hooks.sent c) ++ hooks.eventQueue c)
     ++ hooks.queued [ a ])%list.
Proof.
  intros Hok. destruct a as [t e | t |]; cbn [hooks.step hooks.queued flat_map].
  - split; [now apply queueEvent_ok |].
    cbn. now rewrite app_assoc.
  - split; [now apply tick_ok |].
    rewrite app_nil_r. now apply tick_flat.
  - destruct Hok as [Hlen [Hh [_ Hs]]].
    split; [now apply flushEvents_ok |].
    rewrite app_nil_r. apply flushEvents_flat.
Qed.

Lemma run_from_ok (actions : list hooks.Action) (c : hooks.Client) :
  hooks.client_ok c ->
  hooks.client_ok (fold_left hooks.step actions c) /\
  (concat (hooks.sent (fold_left hooks.step actions c))
   ++ hooks.eventQueue (fold_left hooks.step actions c))%list
  = ((concat (hooks.sent c) ++ hooks.eventQueue c)
     ++ hooks.queued actions)%list.
Proof.
  revert c. induction actions as [| a actions IH]; intros c Hok.
  - split; [exact Hok |]. cbn. now rewrite app_nil_r.
  - destruct (step_ok c a Hok) as [Hok1 Hflat1].
    destruct (IH (hooks.step c a) Hok1) as [Hok2 Hflat2].
    split; [exact Hok2 |].
    cbn [fold_left]. rewrite Hflat2, Hflat1, <- app_assoc.
    f_equal. unfold hooks.queued. cbn [flat_map].
    now rewrite app_nil_r.
Qed.

Lemma initial_ok : hooks.client_ok hooks.initial.
Proof.
  unfold hooks.client_ok. cbn.
  split; [lia |]. split; [intros tm [] |].
  split; [intros H; now destruct H | constructor].
Qed.

(** Whatever the hooks queue and whenever timers fire or the page is
    hidden, no event is lost, sent twice or reordered: the batches sent so
    far followed by the queue are the events queued, in order.  No batch
    sent is empty, at most one flush timer is pending, and one is pending
    whenever an event waits in the queue. *)
Theorem client_events_are_sent_once_in_order :
  forall actions : list hooks.Action,
    let c := hooks.run actions in
    (concat (hooks.sent c) ++ hooks.eventQueue c)%list
    = hooks.queued actions /\
    Forall (fun batch => batch <> []) (hooks.sent c) /\
    (List.length (hooks.timers c) <= 1)%nat /\
    (hooks.eventQueue c <> [] -> hooks.timers c <> []).
Proof.
  intros actions c. subst c. unfold hooks.run.
  destruct (run_from_ok actions hooks.initial initial_ok)
    as [[Hlen [_ [Hq Hs]]] Hflat].
  split; [exact Hflat |]. split; [exact Hs |]. split; [exact Hlen | exact Hq].
Qed.

(** The flush is debounced: after an event is queued at time [t], the
    timer sends nothing before [t + 1000], whatever was queued or pending
    before, and when the clock reaches [t + 1000] the whole queue goes out
    as one batch and the queue is empty. *)
Theorem queued_events_flush_after_one_quiet_second :
  forall (actions : list hooks.Action) (t t' : Z)
         (event : hooks.TelemetryEvent),
    let c := hooks.run actions in
    let c1 := hooks.queueEvent t event c in
    (t' < t + 1000 -> hooks.tick t' c1 = c1) /\
    (t + 1000 <= t' ->
     hooks.sent (hooks.tick t' c1)
     = (hooks.sent c ++ [ (hooks.eventQueue c ++ [ event ])%list ])%list /\
     hooks.eventQueue (hooks.tick t' c1) = [] /\
     hooks.timers (hooks.tick t' c1) = []).
Proof.
  intros actions t t' event c c1.
  assert (Hok : hooks.client_ok c).
  { apply (run_from_ok actions hooks.initial initial_ok). }
  destruct (queueEvent_ok t event c Hok) as [Hok1 Htimers].
  fold c1 in Hok1, Htimers.
  destruct (tick_cases t' c1 Hok1) as [[Hsame Hdue] | [tm [Ht [Hdue Hfire]]]].
  - split; [intros _; exact Hsame |].
    intros Hlate. exfalso.
    rewrite Htimers in Hdue.
    specialize (Hdue _ (or_introl eq_refl)). cbn in Hdue. lia.
  - rewrite Htimers in Ht. injection Ht as <-. cbn in Hdue.
    split; [intros Hearly; lia |].
    intros _. rewrite Hfire. unfold hooks.flushEvents. cbn.
    destruct (hooks.eventQueue c); cbn; repeat split; reflexivity.
Qed.

(** Two clicks half a second apart, then quiet. *)
Lemma queued_events_flush_after_one_quiet_second_witness :
  let e1 := {| hooks.ev_name := "click"; hooks.ev_timestamp := 0;
               hooks.ev_properties := []; hooks.ev_type := hooks.type_trace |} in
  let e2 := {| hooks.ev_name := "click"; hooks.ev_timestamp := 500;
               hooks.ev_properties := []; hooks.ev_type := hooks.type_trace |} in
  hooks.sent (hooks.run [ hooks.Queue 0 e1; hooks.Tick 900;
                          hooks.Queue 500 e2; hooks.Tick 1499 ]) = [] /\
  hooks.sent (hooks.tick 1500
                (hooks.queueEvent 500 e2
                   (hooks.run [ hooks.Queue 0 e1; hooks.Tick 900 ])))
  = [ [ e1; e2 ] ].
Proof.
  intros e1 e2.
  destruct (queued_events_flush_after_one_quiet_second
              [ hooks.Queue 0 e1; hooks.Tick 900 ] 500 1500 e2)
    as [_ Hlate].
  split; [reflexivity |].
  destruct (Hlate ltac:(lia)) as [Hsent _]. exact Hsent.
Defined.

(** ** From the hooks to the ingestion route *)

(** An event built by one of the hooks has, after JSON, the shape the
    route's processors take: its name is a string, its properties are an
    object, and the two web vitals carry a boolean rating and no page. *)
Lemma hook_event_shape (c : hooks.HookCall) (e : hooks.TelemetryEvent) :
  hooks.queued_by c = Some e ->
  event_shape_ok (hooks.received e) = true.
Proof.
  destruct c as [b nm props | cn [st |] perf t | b | b [n |] | b v | b v
                | b cn n m st ctx | b pn props st]; cbn [hooks.queued_by];
    intros H.
  - injection H as <-. reflexivity.
  - unfold hooks.measureRender_end in H.
    destruct (perf - st >? 16); [| discriminate].
    injection H as <-. reflexivity.
  - discriminate.
  - injection H as <-. reflexivity.
  - injection H as <-. reflexivity.
  - discriminate.
  - injection H as <-. reflexivity.
  - injection H as <-. reflexivity.
  - injection H as <-. reflexivity.
  - injection H as <-. reflexivity.
Qed.

Lemma hook_events_shape (calls : list hooks.HookCall) :
  forallb event_shape_ok (map hooks.received (hooks.hook_events calls))
  = true.
Proof.
  apply forallb_forall. intros x Hx.
  apply in_map_iff in Hx. destruct Hx as [e [<- He]].
  unfold hooks.hook_events in He. apply in_flat_map in He.
  destruct He as [c [_ Hc]].
  destruct (hooks.queued_by c) as [e' |] eqn:Hq; [| destruct Hc].
  destruct Hc as [<- | []]. exact (hook_event_shape c e' Hq).
Qed.

Lemma payload_body_received (events : list hooks.TelemetryEvent) :
  hooks.payload_body events
  = VObj [ ("events", VArr (map hooks.received events)) ].
Proof.
  unfold hooks.payload_body. cbn [JSON_roundtrip]. rewrite map_map.
  reflexivity.
Qed.

(** Every batch of events built by the hooks ([track], the render
    measurement, the page view, the navigation timing, the two web vitals,
    [trackError] and the time on page) is processed in full by the
    ingestion route: the route counts and processes the events one by one,
    in the order they were queued, and answers with a success payload whose
    [processed] field is the size of the batch. *)
Theorem hook_batches_are_processed_in_full :
  forall (calls : list hooks.HookCall) (request : NextRequest)
         (context : option RouteContext) (w : World),
    body request = Some (hooks.payload_body (hooks.hook_events calls)) ->
    exists w' : World,
      handleTelemetry request context w
      = (Normal
           (success_response
              (Z.of_nat (List.length (hooks.hook_events calls)))), w') /\
      steps (journal w')
      = (steps (journal w)
         ++ match activeSpan w with
            | Some _ =>
                [ Called
                    (CallSetAttributes
                       [ ("telemetry.event_count",
                          VNum (Z.of_nat
                                  (List.length (hooks.hook_events calls))));
                         ("telemetry.source", VStr "client") ]) ]
            | None => []
            end
         ++ flat_map (fun e => event_steps (hooks.received e))
              (hooks.hook_events calls))%list /\
      events_counted (journal w')
      = (events_counted (journal w)
         + List.length (hooks.hook_events calls))%nat.
Proof.
  intros calls request context w Hbody.
  set (events := hooks.hook_events calls) in *.
  rewrite payload_body_received in Hbody.
  assert (Hshape : forallb event_shape_ok (map hooks.received events) = true)
    by apply hook_events_shape.
  assert (Hlen : List.length (map hooks.received events)
                 = List.length events) by apply length_map.
  destruct (handleTelemetry_steps request context _ _ w Hbody eq_refl
              Hshape) as [w' [Hrun [Hs _]]].
  rewrite Hlen in Hrun, Hs.
  assert (Hflat : flat_map event_steps (map hooks.received events)
                  = flat_map (fun e => event_steps (hooks.received e))
                      events).
  { clear. induction events as [| e events IH]; [reflexivity |].
    cbn [map flat_map]. now rewrite IH. }
  exists w'. split; [exact Hrun |]. split; [now rewrite <- Hflat |].
  rewrite !events_counted_steps, Hs, !counted_in_app.
  rewrite (batch_steps_counted _ Hshape), Hlen.
  destruct (activeSpan w); cbn; lia.
Qed.

(** A page view, a largest-contentful-paint measurement and a render that
    took too short to be reported. *)
Lemma hook_batches_are_processed_in_full_witness :
  let b := {| hooks.href := "https://shop.example/";
              hooks.pathname := "/"; hooks.search := "";
              hooks.referrer := ""; hooks.title := "Shop";
              hooks.userAgent := "agent"; hooks.innerWidth := 800;
              hooks.innerHeight := 600; hooks.date_now := 1 |} in
  let calls := [ hooks.PageView b;
                 hooks.LargestContentfulPaint b 1200;
                 hooks.MeasureRenderEnd "Cart" (Some 0) 10 1 ] in
  exists w' : World,
    handleTelemetry
      (sample_request "/api/telemetry"
         (Some (hooks.payload_body (hooks.hook_events calls))))
      None sample_world
    = (Normal (success_response 2), w') /\
    steps (journal w')
    = [ Sampled "client.events.received" (VNum 1)
          (Some [ ("event.type", VStr "trace");
                  ("event.name", VStr "page_view") ]);
        Started "process.client.trace";
        Logged info "Client event: page_view";
        Called (CallSetStatus {| code := OK; message := VUndefined |});
        Called CallEnd;
        Sampled "client.events.received" (VNum 1)
          (Some [ ("event.type", VStr "metric");
                  ("event.name", VStr "web_vital_lcp") ]);
        Started "process.client.metric";
        Sampled "client.web_vitals" (VNum 1200)
          (Some [ ("vital.name", VStr "lcp"); ("vital.good", VStr "true");
                  ("page.url", VStr "") ]);
        Logged info "Web Vital: lcp";
        Called (CallSetStatus {| code := OK; message := VUndefined |});
        Called CallEnd ].
Proof.
  intros b calls.
  destruct (hook_batches_are_processed_in_full calls
              (sample_request "/api/telemetry"
                 (Some (hooks.payload_body (hooks.hook_events calls))))
              None sample_world eq_refl)
    as [w' [Hrun [Hs _]]].
  exists w'. split; [exact Hrun | exact Hs].
Defined.

Lemma component_render_run (fields props : Attributes) (w : World) :
  obj_get "name" fields = VStr "component_render" ->
  obj_get "properties" fields = VObj props ->
  exists final : World,
    processMetricEvent (VObj fields) w = (Normal tt, final) /\
    events_counted (journal final) = events_counted (journal w) /\
    map (fun x => (fst (fst x), snd x)) (pino_records (journal final))
    = (map (fun x => (fst (fst x), snd x)) (pino_records (journal w))
       ++ (if truthy (obj_get "slow" props)
           then [ (warn, "Slow component render detected") ]
           else []))%list.
Proof.
  intros Hname Hprops.
  set (w1 := span_entry (serviceName (config w)) "process.client.metric"
               (trace_span_options None) w).
  destruct (truthy (obj_get "slow" props)) eqn:Hslow.
  - eexists. split.
    { unfold processMetricEvent. apply traceAsync_run. fold w1.
      rewrite (bind_normal (js_get (VObj fields) "name") _ w1 w1
                 (VStr "component_render"))
        by (unfold js_get; cbn [js_prop]; now rewrite Hname).
      rewrite (bind_normal (js_get (VObj fields) "properties") _ w1 w1
                 (VObj props))
        by (unfold js_get; cbn [js_prop]; now rewrite Hprops).
      rewrite (bind_normal (js_startsWith (VStr "component_render")
                              "web_vital_") _ w1 w1 false eq_refl).
      change (js_is (VStr "component_render") "navigation_timing") with false.
      change (js_is (VStr "component_render") "component_render") with true.
      cbv beta iota zeta delta [bind ret js_get js_prop].
      rewrite Hslow.
      cbv beta iota zeta delta [bind ret logger baseLogger get_config
        Logger_warn Logger_log pino_log emit].
      rewrite withTraceContext_run. reflexivity. }
    subst w1.
    cbn [journal with_journal with_activeSpan with_spansCreated span_entry].
    split.
    + rewrite !events_counted_app. cbn. lia.
    + rewrite !pino_records_app, !map_app. cbn. rewrite !app_nil_r.
      reflexivity.
  - eexists. split.
    { unfold processMetricEvent. apply traceAsync_run. fold w1.
      rewrite (bind_normal (js_get (VObj fields) "name") _ w1 w1
                 (VStr "component_render"))
        by (unfold js_get; cbn [js_prop]; now rewrite Hname).
      rewrite (bind_normal (js_get (VObj fields) "properties") _ w1 w1
                 (VObj props))
        by (unfold js_get; cbn [js_prop]; now rewrite Hprops).
      rewrite (bind_normal (js_startsWith (VStr "component_render")
                              "web_vital_") _ w1 w1 false eq_refl).
      change (js_is (VStr "component_render") "navigation_timing") with false.
      change (js_is (VStr "component_render") "component_render") with true.
      cbv beta iota zeta delta [bind ret js_get js_prop].
      rewrite Hslow. reflexivity. }
    subst w1.
    cbn [journal with_journal with_activeSpan with_spansCreated span_entry].
    split.
    + rewrite !events_counted_app. cbn. lia.
    + rewrite !pino_records_app, !map_app. cbn. rewrite !app_nil_r.
      reflexivity.
Qed.

(** A render is reported only when it took more than 16 ms, and the route
    turns the report into a warning exactly when it took more than 100 ms:
    a render of 17 to 100 ms is counted by the route but leaves no log
    record. *)
Theorem slow_render_becomes_a_server_warning :
  forall (componentName : string) (start perf t : Z) (w : World),
    let duration := perf - start in
    (duration <= 16 ->
     hooks.measureRender_end componentName (Some start) perf t = None) /\
    (16 < duration ->
     exists (e : hooks.TelemetryEvent) (final : World),
       hooks.measureRender_end componentName (Some start) perf t = Some e /\
       process_event (JSON_roundtrip (hooks.event_value e)) w
       = (Normal tt, final) /\
       events_counted (journal final) = S (events_counted (journal w)) /\
       map (fun x => (fst (fst x), snd x)) (pino_records (journal final))
       = (map (fun x => (fst (fst x), snd x)) (pino_records (journal w))
          ++ (if duration >? 100
              then [ (warn, "Slow component render detected") ]
              else []))%list).
Proof.
  intros componentName start perf t w duration.
  unfold hooks.measureRender_end. fold duration.
  split.
  - intros Hfast. destruct (Z.gtb_spec duration 16); [lia | reflexivity].
  - intros Hslow. destruct (Z.gtb_spec duration 16); [| lia].
    set (props := [ ("component", VStr componentName);
                    ("duration", VNum duration);
                    ("slow", VBool (duration >? 100)) ]).
    set (fields := [ ("name", VStr "component_render");
                     ("timestamp", VNum t);
                     ("properties", VObj props);
                     ("type", VStr "metric") ]).
    set (w1 := with_journal
                 (journal w
                  ++ [ Measured
                         (meter_createCounter (serviceName (config w))
                            "client.events.received"
                            "Number of client-side events received" "1")
                         (VNum 1)
                         (Some [ ("event.type", VStr "metric");
                                 ("event.name", VStr "component_render") ]) ])
                 w).
    destruct (component_render_run fields props w1 eq_refl eq_refl)
      as [final [Hrun [Hcount Hlog]]].
    eexists. exists final.
    split; [reflexivity |].
    split; [| split].
    + change (JSON_roundtrip (hooks.event_value _)) with (VObj fields).
      unfold process_event.
      rewrite (bind_normal (js_get (VObj fields) "type") _ w w
                 (VStr "metric") eq_refl).
      rewrite (bind_normal (js_get (VObj fields) "name") _ w w
                 (VStr "component_render") eq_refl).
      rewrite (bind_normal clientEventsReceived _ w w _ eq_refl).
      match goal with
      | |- context [bind (instrument_record ?i ?v ?a) _ w] =>
          rewrite (bind_normal (instrument_record i v a) _ w w1 tt eq_refl)
      end.
      change (js_is (VStr "metric") "metric") with true.
      cbv iota. exact Hrun.
    + rewrite Hcount. unfold w1. cbn [journal with_journal].
      rewrite events_counted_app. cbn. lia.
    + rewrite Hlog. unfold w1. cbn [journal with_journal].
      rewrite pino_records_app. cbn. rewrite app_nil_r.
      change (truthy (obj_get "slow" props)) with (duration >? 100).
      reflexivity.
Qed.

(** A render of 250 ms. *)
Lemma slow_render_becomes_a_server_warning_witness :
  exists (e : hooks.TelemetryEvent) (final : World),
    hooks.measureRender_end "Chart" (Some 0) 250 9 = Some e /\
    process_event (JSON_roundtrip (hooks.event_value e)) sample_world
    = (Normal tt, final) /\
    map (fun x => (fst (fst x), snd x)) (pino_records (journal final))
    = [ (warn, "Slow component render detected") ].
Proof.
  destruct (slow_render_becomes_a_server_warning "Chart" 0 250 9 sample_world)
    as [_ Hslow].
  destruct (Hslow ltac:(lia)) as [e [final [He [Hrun [_ Hlog]]]]].
  exists e, final. split; [exact He |]. split; [exact Hrun | exact Hlog].
Defined.
